(** * Quantum ledger: a shallow embedding of the consensus core

    The development follows the Python sources file by file:
    [pqc_primitives.py] (hashing and the mock signature scheme),
    [transaction.py], [db_manager.py] (the two persistent stores) and
    [ledger.py] (Merkle roots, blocks, mempool, mining, retargeting,
    chain validation), and [wallet_manager.py].

    Conventions of the embedding.
    - Python [int] is [Z]; Python [float] is the kernel's binary64 [float];
      Python [str] is [string], one character per code point below 256.
    - [None]-able attributes are [option]s.
    - A call that may raise, or search for ever, yields an [outcome].
    - The SQL tables are finite maps keyed by their primary key.  What
      sqlite3 does with the values it binds is part of the model where a
      value comes from outside: an [int] outside 64 bits raises
      [OverflowError], a NaN is NULL and fails a [NOT NULL] column.
    - [hashlib.sha3_512(..).hexdigest()] and [float.__repr__] are parameters
      of the model (section variables); executable instances are given at
      the end of the file and used by the examples. *)

From Stdlib Require Import ZArith String Ascii List Bool Lia Floats.
From Stdlib Require Import DecimalString Sorted OrderedTypeEx.
From stdpp Require Import base option list gmap strings fin_maps.
From Equations Require Import Equations.

Set Warnings "-inexact-float,-register-all,-abstract-large-number".
Local Open Scope Z_scope.

(* ===================================================================== *)
(** * Python built-ins used by the sources *)
(* ===================================================================== *)

Module Py.

(** Exceptions the modelled code can raise on well-typed inputs. *)
Inductive exn : Set :=
| IndexError      (* [l[i]] out of range *)
| TypeError       (* [len(None)] *)
| KeyError        (* [d[k]] on a missing key *)
| AttributeError  (* [None.amount] *)
| OverflowError.  (* an [int] too large for an SQLite INTEGER *)

(** Result of running a method: it returns, it raises, or the modelled
    loop was still running when the fuel ran out. *)
Inductive outcome (A : Type) : Type :=
| Returns (a : A)
| Raises (e : exn)
| Unfinished.
Arguments Returns {A} a.
Arguments Raises {A} e.
Arguments Unfinished {A}.

Definition bind {A B} (m : outcome A) (k : A -> outcome B) : outcome B :=
  match m with
  | Returns a => k a
  | Raises e => Raises e
  | Unfinished => Unfinished
  end.

Definition returned {A} (m : outcome A) : option A :=
  match m with Returns a => Some a | _ => None end.

(** [s * n] for a string [s] and an integer [n]. *)
Fixpoint str_repeat_nat (s : string) (n : nat) : string :=
  match n with
  | O => EmptyString
  | S k => String.append s (str_repeat_nat s k)
  end.

Definition str_mul (s : string) (n : Z) : string :=
  str_repeat_nat s (Z.to_nat n).

(** [len(s)] for a string. *)
Definition len_str (s : string) : Z := Z.of_nat (String.length s).

(** [len(l)] for a list. *)
Definition len {A} (l : list A) : Z := Z.of_nat (length l).

(** [s.startswith(p)]. *)
Definition startswith (s p : string) : bool := String.prefix p s.

(** [str(n)] for an integer. *)
Definition str_of_int (n : Z) : string :=
  NilZero.string_of_int (Z.to_int n).

(** [l[-1]]. *)
Definition last_item {A} (l : list A) : outcome A :=
  match last l with
  | Some x => Returns x
  | None => Raises IndexError
  end.

(** [l[-k]] for a positive [k]. *)
Definition item_from_end {A} (l : list A) (k : nat) : outcome A :=
  if (length l <? k)%nat then Raises IndexError
  else match l !! (length l - k)%nat with
       | Some x => Returns x
       | None => Raises IndexError
       end.

(** Truth value of a float: zero (of either sign) is false, NaN is true. *)
Definition float_truthy (f : float) : bool := negb (PrimFloat.eqb f 0%float).

(** Truth value of a string. *)
Definition str_truthy (s : string) : bool :=
  match s with EmptyString => false | _ => true end.

(** [time.time()]: a number of seconds, never NaN.  The readings of the
    clock are parameters of the model; a NaN, which is no reading, stands
    for the reading [0.0]. *)
Definition time_time (now : float) : float :=
  if PrimFloat.is_nan now then 0%float else now.

(** [x if x else d] for an optional float and for an optional string. *)
Definition float_or (x : option float) (d : float) : float :=
  match x with
  | Some f => if float_truthy f then f else d
  | None => d
  end.

Definition str_or (x : option string) (d : string) : string :=
  match x with
  | Some s => if str_truthy s then s else d
  | None => d
  end.

(** [float(n)] for an integer small enough to be exact. *)
Definition float_of_int (n : Z) : float :=
  if n <? 0 then PrimFloat.opp (PrimFloat.of_uint63 (Uint63.of_Z (- n)))
  else PrimFloat.of_uint63 (Uint63.of_Z n).

(** [int(f)]: truncation towards zero; [None] where Python raises
    (NaN and the infinities). *)
Definition int_of_float (f : float) : option Z :=
  match Prim2SF f with
  | S754_zero _ => Some 0
  | S754_finite s m e =>
      let mag := if 0 <=? e then Z.pos m * 2 ^ e else Z.pos m / 2 ^ (- e) in
      Some (if s then - mag else mag)
  | S754_infinity _ | S754_nan => None
  end.

(** [sum(xs)] over floats, left to right from [0]. *)
Definition sum (xs : list float) : float :=
  fold_left PrimFloat.add xs 0%float.

(** [s[:n]]: a negative [n] counts from the end. *)
Definition str_prefix (s : string) (n : Z) : string :=
  if n <? 0 then String.substring 0 (Z.to_nat (len_str s + n)) s
  else String.substring 0 (Z.to_nat n) s.

End Py.
Export Py.

(** [outcome] is a monad; computations are sequenced with stdpp's
    [x ← m; k]. *)
Global Instance outcome_ret : MRet Py.outcome := @Py.Returns.
Global Instance outcome_bind : MBind Py.outcome :=
  fun A B k m => Py.bind m k.

(** The sentinel [ "0" * 128 ]. *)
Definition ZERO128 : string := Eval vm_compute in Py.str_mul "0" 128.

(* ===================================================================== *)
(** * config.py *)
(* ===================================================================== *)

Definition INITIAL_DIFFICULTY : Z := 4.
Definition MINER_REWARD : float := 10.0%float.
Definition BLOCK_TIME_TARGET : Z := 10.
Definition DIFFICULTY_ADJUSTMENT_INTERVAL : Z := 5.
Definition TRANSACTION_VERSION : Z := 1.

(* ===================================================================== *)
(** * pqc_primitives.py: the mock signature scheme *)
(* ===================================================================== *)

(** [class PQCAlgorithm]: its four attributes. *)
Record PQCAlgorithm : Set := {
  name : string;
  key_size : float;
  signature_size : float;
  security_level : Z
}.

(** [class Dilithium(PQCAlgorithm)]. *)
Definition Dilithium : PQCAlgorithm := {|
  name := "CRYSTALS-Dilithium-3";
  key_size := 2.7%float;
  signature_size := 3.3%float;
  security_level := 3
|}.

Definition PQC_SIGNATURE_SCHEME : PQCAlgorithm := Dilithium.

(** [int(self.signature_size * 2 * 1024)]. *)
Definition expected_sig_len (alg : PQCAlgorithm) : option Z :=
  Py.int_of_float (signature_size alg * 2 * 1024)%float.

(** [PQCAlgorithm.verify]; the sleep has no effect on the result.
    [len(signature)] raises on [None]. *)
Definition verify (alg : PQCAlgorithm)
    (public_key : option string) (data_hash : string)
    (signature : option string) : outcome bool :=
  match expected_sig_len alg with
  | None => Raises TypeError
  | Some n =>
      match signature with
      | None => Raises TypeError
      | Some sig =>
          if negb (Py.len_str sig =? n) then Returns false
          else Returns true
      end
  end.

Definition pqc_verify (public_key : option string) (data_hash : string)
    (signature : option string) : outcome bool :=
  verify PQC_SIGNATURE_SCHEME public_key data_hash signature.

(* ===================================================================== *)
(** * Data classes of transaction.py, db_manager.py and ledger.py *)
(* ===================================================================== *)

(** [class TxInput]. *)
Module TxInput.
Record t : Set := {
  txid : string;
  output_index : Z;
  signature : option string;
  pub_key : option string
}.

Definition set_signature (s : option string) (i : t) : t :=
  {| txid := txid i; output_index := output_index i;
     signature := s; pub_key := pub_key i |}.

Definition set_pub_key (k : option string) (i : t) : t :=
  {| txid := txid i; output_index := output_index i;
     signature := signature i; pub_key := k |}.
End TxInput.

(** [class TxOutput]. *)
Module TxOutput.
Record t : Set := {
  amount : float;
  address : string
}.
End TxOutput.

(** [class Transaction]; [_txid] is the identifier cached by [__init__]. *)
Module Transaction.
Record t : Set := {
  version : Z;
  timestamp : float;
  inputs : list TxInput.t;
  outputs : list TxOutput.t;
  _txid : string
}.

(** The [txid] property. *)
Definition txid (self : t) : string := _txid self.

Definition set_inputs (l : list TxInput.t) (self : t) : t :=
  {| version := version self; timestamp := timestamp self;
     inputs := l; outputs := outputs self; _txid := _txid self |}.
End Transaction.

(** [class UTXO], also a row of the [utxos] table. *)
Module UTXO.
Record t : Set := {
  txid : string;
  output_index : Z;
  address : string;
  amount : float;
  spent_txid : option string;
  spent_index : option Z
}.

Definition is_spent (self : t) : bool :=
  match spent_txid self with Some _ => true | None => false end.

(** Primary key of the row. *)
Definition key (self : t) : string * Z := (txid self, output_index self).

(** [UPDATE utxos SET spent_txid = ?, spent_index = ?] on one row. *)
Definition set_spent (by_txid : string) (by_index : Z) (self : t) : t :=
  {| txid := txid self; output_index := output_index self;
     address := address self; amount := amount self;
     spent_txid := Some by_txid; spent_index := Some by_index |}.

(** [to_tuple()[:4]]: the four columns an insert writes; the spent
    columns of a new row are NULL. *)
Definition unspent_columns (self : t) : t :=
  {| txid := txid self; output_index := output_index self;
     address := address self; amount := amount self;
     spent_txid := None; spent_index := None |}.
End UTXO.

(** [class Block]. *)
Module Block.
Record t : Set := {
  index : Z;
  timestamp : float;
  transactions : list Transaction.t;
  previous_hash : string;
  proof : Z;
  merkle_root : string;
  hash : string
}.
End Block.

(** JSON values, as [json.dumps] receives them. *)
Inductive json : Set :=
| JNull
| JInt (n : Z)
| JFloat (f : float)
| JStr (s : string)
| JList (l : list json)
| JDict (d : list (string * json)).

(** Argument of [hash_data]: a dict or list, or a string.  (The sources
    never pass bytes.) *)
Inductive hash_input : Set :=
| OfJson (j : json)
| OfStr (s : string).

(** A row of the [blocks] table; the [transactions_json] column is kept as
    the list of transaction dicts it encodes. *)
Module BlockRow.
Record t : Set := {
  index_id : Z;
  timestamp : float;
  previous_hash : string;
  merkle_root : string;
  proof : Z;
  hash : string;
  transactions_json : list json
}.
End BlockRow.

(** A row of the [wallets] table: [public_key] is its primary key and
    [alias] is unique. *)
Module WalletRow.
Record t : Set := {
  public_key : string;
  private_key : string;
  alias : string
}.
End WalletRow.

(** The [utxos] table, keyed by [(txid, output_index)]; also the type of
    the dict [all_utxos] of [rebuild_utxo_set]. *)
Abbreviation utxo_table := (gmap (string * Z) UTXO.t).

(** [class QuantumLedger]: [ldb] and [udb] stand for the contents of the
    two databases. *)
Module QuantumLedger.
Record t : Type := {
  ldb : list BlockRow.t;
  udb : utxo_table;
  miner_address : string;
  current_difficulty : Z;
  chain : list Block.t;
  pending_transactions : list Transaction.t
}.

Definition set_udb (u : utxo_table) (self : t) : t :=
  {| ldb := ldb self; udb := u; miner_address := miner_address self;
     current_difficulty := current_difficulty self; chain := chain self;
     pending_transactions := pending_transactions self |}.

Definition set_ldb (l : list BlockRow.t) (self : t) : t :=
  {| ldb := l; udb := udb self; miner_address := miner_address self;
     current_difficulty := current_difficulty self; chain := chain self;
     pending_transactions := pending_transactions self |}.

Definition set_chain (c : list Block.t) (self : t) : t :=
  {| ldb := ldb self; udb := udb self; miner_address := miner_address self;
     current_difficulty := current_difficulty self; chain := c;
     pending_transactions := pending_transactions self |}.

Definition set_current_difficulty (d : Z) (self : t) : t :=
  {| ldb := ldb self; udb := udb self; miner_address := miner_address self;
     current_difficulty := d; chain := chain self;
     pending_transactions := pending_transactions self |}.

Definition set_pending_transactions (p : list Transaction.t) (self : t) : t :=
  {| ldb := ldb self; udb := udb self; miner_address := miner_address self;
     current_difficulty := current_difficulty self; chain := chain self;
     pending_transactions := p |}.
End QuantumLedger.

(* ===================================================================== *)
(** * Executable instances of the two library primitives *)
(* ===================================================================== *)

(** SHA3-512 (FIPS 202): Keccak-f[1600] on 25 lanes of 64 bits, rate 72
    bytes, domain byte 0x06, 64 bytes of output. *)
Module Keccak.

Local Open Scope Z_scope.

Definition mask64 : Z := 2 ^ 64 - 1.

Definition rotl (x n : Z) : Z :=
  Z.lor (Z.land (Z.shiftl x n) mask64) (Z.shiftr x (64 - n)).

Definition lane (A : list Z) (i : nat) : Z := nth i A 0.

Definition rotation_offsets : list Z :=
  [ 0; 1; 62; 28; 27;   36; 44; 6; 55; 20;   3; 10; 43; 25; 39;
    41; 45; 15; 21; 8;   18; 2; 61; 56; 14 ].

Definition round_constants : list Z :=
  [ 0x0000000000000001; 0x0000000000008082; 0x800000000000808a;
    0x8000000080008000; 0x000000000000808b; 0x0000000080000001;
    0x8000000080008081; 0x8000000000008009; 0x000000000000008a;
    0x0000000000000088; 0x0000000080008009; 0x000000008000000a;
    0x000000008000808b; 0x800000000000008b; 0x8000000000008089;
    0x8000000000008003; 0x8000000000008002; 0x8000000000000080;
    0x000000000000800a; 0x800000008000000a; 0x8000000080008081;
    0x8000000000008080; 0x0000000080000001; 0x8000000080008008 ].

Definition positions : list nat := seq 0 25.

Definition theta (A : list Z) : list Z :=
  let C := List.map (fun x =>
             Z.lxor (lane A x)
               (Z.lxor (lane A (x + 5))
                  (Z.lxor (lane A (x + 10))
                     (Z.lxor (lane A (x + 15)) (lane A (x + 20))))))
             (seq 0 5) in
  let D := List.map (fun x =>
             Z.lxor (lane C ((x + 4) mod 5))
                    (rotl (lane C ((x + 1) mod 5)) 1))
             (seq 0 5) in
  List.map (fun i => Z.lxor (lane A i) (lane D (i mod 5))) positions.

(** rho and pi together: the lane at [(x, y)] goes, rotated, to
    [(y, 2x + 3y)]. *)
Definition rho_pi (A : list Z) : list Z :=
  List.map (fun i =>
         let X := (i mod 5)%nat in
         let Y := (i / 5)%nat in
         let x := ((X + 3 * Y) mod 5)%nat in
         let src := (x + 5 * X)%nat in
         rotl (lane A src) (nth src rotation_offsets 0))
      positions.

Definition chi (B : list Z) : list Z :=
  List.map (fun i =>
         let x := (i mod 5)%nat in
         let row := (5 * (i / 5))%nat in
         Z.lxor (lane B i)
                (Z.ldiff (lane B (row + (x + 2) mod 5))
                         (lane B (row + (x + 1) mod 5))))
      positions.

Definition iota (rc : Z) (A : list Z) : list Z :=
  match A with
  | a :: rest => Z.lxor a rc :: rest
  | [] => []
  end.

Definition round (A : list Z) (rc : Z) : list Z :=
  iota rc (chi (rho_pi (theta A))).

Definition keccak_f (A : list Z) : list Z :=
  fold_left round round_constants A.

(** Little-endian lanes of a block of bytes. *)
Fixpoint lanes_of_bytes (n : nat) (bs : list Z) : list Z :=
  match n with
  | O => []
  | S k =>
      let w := fold_right (fun b acc => b + 256 * acc) 0 (firstn 8 bs) in
      w :: lanes_of_bytes k (skipn 8 bs)
  end.

Definition rate : nat := 72.

(** Absorb one block of [rate] bytes. *)
Definition absorb (A : list Z) (block : list Z) : list Z :=
  let ls := lanes_of_bytes 9 block in
  keccak_f (List.map (fun i => Z.lxor (lane A i) (lane ls i)) positions).

(** pad10*1 with the SHA-3 domain bits: 0x06 .. 0x80. *)
Definition pad (msg : list Z) : list Z :=
  let q := (rate - length msg mod rate)%nat in
  if (q =? 1)%nat then (msg ++ [0x86])%list
  else (msg ++ 0x06 :: repeat 0 (q - 2) ++ [0x80])%list.

Fixpoint absorb_all (fuel : nat) (A : list Z) (bs : list Z) : list Z :=
  match fuel with
  | O => A
  | S k =>
      match bs with
      | [] => A
      | _ => absorb_all k (absorb A (firstn rate bs)) (skipn rate bs)
      end
  end.

Definition bytes_of_lane (w : Z) : list Z :=
  List.map (fun k => Z.land (Z.shiftr w (8 * Z.of_nat k)) 255) (seq 0 8).

Definition sha3_512 (msg : list Z) : list Z :=
  let padded := pad msg in
  let A := absorb_all (length padded) (repeat 0 25) padded in
  concat (List.map bytes_of_lane (firstn 8 A)).

Definition hex_char (n : Z) : ascii :=
  match String.get (Z.to_nat n) "0123456789abcdef" with
  | Some c => c
  | None => "0"%char
  end.

Fixpoint hexdigest (bs : list Z) : string :=
  match bs with
  | [] => EmptyString
  | b :: rest => String (hex_char (b / 16)) (String (hex_char (b mod 16))
                                                    (hexdigest rest))
  end.

(** [s.encode('utf-8')] for code points below 256. *)
Fixpoint utf8 (s : string) : list Z :=
  match s with
  | EmptyString => []
  | String c rest =>
      let n := Z.of_nat (nat_of_ascii c) in
      if n <? 128 then n :: utf8 rest
      else (192 + n / 64) :: (128 + n mod 64) :: utf8 rest
  end.

(** [hashlib.sha3_512(s.encode()).hexdigest()]. *)
Definition sha3_512_hex (s : string) : string :=
  hexdigest (sha3_512 (utf8 s)).

End Keccak.

(** [float.__repr__] for finite floats of integral value below [10^16] in
    magnitude, which Python prints as the integer followed by [.0].  The
    examples use no other floats; elsewhere the result is a placeholder. *)
Definition float_repr_integral (f : float) : string :=
  match Prim2SF f with
  | S754_zero s => if s then "-0.0" else "0.0"
  | S754_finite s m e =>
      let mag := (if 0 <=? e then Z.pos m * 2 ^ e else Z.pos m / 2 ^ (- e))%Z in
      let integral := (if 0 <=? e then true else Z.pos m mod 2 ^ (- e) =? 0)%Z in
      if integral && (mag <? 10 ^ 16)%Z then
        String.append (if s then "-" else "")
                      (String.append (Py.str_of_int mag) ".0")
      else "<float>"
  | _ => "<float>"
  end.

(* ===================================================================== *)
(** * The node, over its two library primitives *)
(* ===================================================================== *)

Section Node.

(** [hashlib.sha3_512(s.encode()).hexdigest()]. *)
Variable sha3_512_hex : string -> string.
(** [float.__repr__] on finite floats. *)
Variable float_repr : float -> string.

Local Open Scope string_scope.

(** ** json.dumps(data, sort_keys=True) *)

Definition dquote : string := String (ascii_of_nat 34) EmptyString.
Definition backslash : string := String (ascii_of_nat 92) EmptyString.

Definition hex_digit (n : nat) : ascii :=
  match String.get n "0123456789abcdef" with
  | Some c => c
  | None => "0"%char
  end.

(** One character of a string literal, with [ensure_ascii] in force:
    everything outside [' '..'~'] is escaped. *)
Definition escape_char (c : ascii) : string :=
  let n := nat_of_ascii c in
  if (n =? 34)%nat then backslash ++ dquote
  else if (n =? 92)%nat then backslash ++ backslash
  else if (n =? 8)%nat then backslash ++ "b"
  else if (n =? 12)%nat then backslash ++ "f"
  else if (n =? 10)%nat then backslash ++ "n"
  else if (n =? 13)%nat then backslash ++ "r"
  else if (n =? 9)%nat then backslash ++ "t"
  else if ((32 <=? n) && (n <=? 126))%nat then String c EmptyString
  else backslash ++ "u00"
       ++ String (hex_digit (n / 16)) (String (hex_digit (n mod 16)) EmptyString).

Fixpoint escape (s : string) : string :=
  match s with
  | EmptyString => EmptyString
  | String c r => escape_char c ++ escape r
  end.

Definition json_str (s : string) : string := dquote ++ escape s ++ dquote.

Definition json_float (f : float) : string :=
  if PrimFloat.is_nan f then "NaN"
  else if PrimFloat.eqb f PrimFloat.infinity then "Infinity"
  else if PrimFloat.eqb f PrimFloat.neg_infinity then "-Infinity"
  else float_repr f.

(** Serialisation with the default separators, items in the order given. *)
Fixpoint dumps (j : json) : string :=
  match j with
  | JNull => "null"
  | JInt n => Py.str_of_int n
  | JFloat f => json_float f
  | JStr s => json_str s
  | JList l => "[" ++ String.concat ", " (List.map dumps l) ++ "]"
  | JDict d =>
      "{" ++ String.concat ", "
               (List.map (fun kv => json_str (fst kv) ++ ": " ++ dumps (snd kv)) d)
          ++ "}"
  end.

(** [sort_keys=True]: every dict is emitted with its keys in ascending
    order (a stable insertion sort on the items). *)
Fixpoint insert_item (kv : string * json) (l : list (string * json))
  : list (string * json) :=
  match l with
  | [] => [kv]
  | kv' :: r =>
      if String.leb (fst kv) (fst kv') then kv :: l
      else kv' :: insert_item kv r
  end.

Definition sort_items (d : list (string * json)) : list (string * json) :=
  fold_right insert_item [] d.

Fixpoint sort_keys (j : json) : json :=
  match j with
  | JList l => JList (List.map sort_keys l)
  | JDict d =>
      JDict (sort_items (List.map (fun kv => (fst kv, sort_keys (snd kv))) d))
  | _ => j
  end.

Definition json_dumps_sorted (data : json) : string := dumps (sort_keys data).

(** [d[k] = v] on a dict. *)
Fixpoint dict_set (k : string) (v : json) (d : list (string * json))
  : list (string * json) :=
  match d with
  | [] => [(k, v)]
  | kv :: r =>
      if String.eqb (fst kv) k then (k, v) :: r else kv :: dict_set k v r
  end.

Definition json_dict_set (k : string) (v : json) (j : json) : json :=
  match j with
  | JDict d => JDict (dict_set k v d)
  | _ => j
  end.

(** ** pqc_primitives.py: hashing and signing *)

(** [hash_data]. *)
Definition hash_data (data : hash_input) : string :=
  match data with
  | OfJson j => sha3_512_hex (json_dumps_sorted j)
  | OfStr s => sha3_512_hex s
  end.

(** [PQCAlgorithm.sign]: a deterministic digest, repeated and cut to the
    signature size. *)
Definition sign (alg : PQCAlgorithm) (private_key data_hash : string)
  : outcome string :=
  match expected_sig_len alg with
  | None => Raises TypeError
  | Some sig_hex_len =>
      let sig_input := String.substring 0 100 private_key ++ data_hash in
      let signature := Py.str_mul (sha3_512_hex sig_input) 100 in
      Returns (String.substring 0 (Z.to_nat sig_hex_len) signature)
  end.

Definition pqc_sign (private_key data_hash : string) : outcome string :=
  sign PQC_SIGNATURE_SCHEME private_key data_hash.

(** [PQCAlgorithm.generate_key_pair]; the two arguments are the readings
    of [random.getrandbits(256)] and [random.getrandbits(512)]. *)
Definition generate_key_pair (alg : PQCAlgorithm)
    (pub_key_seed priv_key_seed : Z) : outcome (string * string) :=
  match Py.int_of_float (key_size alg * 2 * 1024)%float,
        Py.int_of_float (key_size alg * 4 * 1024)%float with
  | Some pub_key_hex_len, Some priv_key_hex_len =>
      let pub_key :=
        Py.str_mul (sha3_512_hex (Py.str_of_int pub_key_seed)) 100 in
      let priv_key :=
        Py.str_mul (sha3_512_hex (Py.str_of_int priv_key_seed)) 100 in
      Returns (Py.str_prefix pub_key pub_key_hex_len,
               Py.str_prefix priv_key priv_key_hex_len)
  | _, _ => Raises TypeError
  end.

Definition generate_pqc_key_pair (pub_key_seed priv_key_seed : Z)
  : outcome (string * string) :=
  generate_key_pair PQC_SIGNATURE_SCHEME pub_key_seed priv_key_seed.

(** ** transaction.py *)

Definition json_opt_str (o : option string) : json :=
  match o with Some s => JStr s | None => JNull end.

(** [TxInput.to_dict]. *)
Definition TxInput_to_dict (self : TxInput.t) : json :=
  JDict [ ("output_index", JInt (TxInput.output_index self));
          ("pub_key", json_opt_str (TxInput.pub_key self));
          ("signature", json_opt_str (TxInput.signature self));
          ("txid", JStr (TxInput.txid self)) ].

(** [TxOutput.to_dict]. *)
Definition TxOutput_to_dict (self : TxOutput.t) : json :=
  JDict [ ("address", JStr (TxOutput.address self));
          ("amount", JFloat (TxOutput.amount self)) ].

(** The body of [Transaction.to_dict], on the four attributes it reads. *)
Definition to_dict_of (version : Z) (timestamp : float)
    (inputs : list TxInput.t) (outputs : list TxOutput.t)
    (include_signature : bool) : json :=
  let inputs_list := List.map TxInput_to_dict inputs in
  let inputs_list :=
    if negb include_signature
    then List.map (json_dict_set "signature" JNull) inputs_list
    else inputs_list in
  JDict [ ("inputs", JList inputs_list);
          ("outputs", JList (List.map TxOutput_to_dict outputs));
          ("timestamp", JFloat timestamp);
          ("version", JInt version) ].

(** [Transaction.to_dict]. *)
Definition to_dict (self : Transaction.t) (include_signature : bool) : json :=
  to_dict_of (Transaction.version self) (Transaction.timestamp self)
             (Transaction.inputs self) (Transaction.outputs self)
             include_signature.

(** [Transaction._calculate_txid]. *)
Definition _calculate_txid (self : Transaction.t) : string :=
  hash_data (OfJson (to_dict self false)).

(** [Transaction.__init__]; [now] is the reading of [time.time()]. *)
Definition Transaction_init (inputs : list TxInput.t)
    (outputs : list TxOutput.t) (version : Z) (timestamp : option float)
    (now : float) : Transaction.t :=
  let ts := Py.float_or timestamp now in
  {| Transaction.version := version;
     Transaction.timestamp := ts;
     Transaction.inputs := inputs;
     Transaction.outputs := outputs;
     Transaction._txid :=
       hash_data (OfJson (to_dict_of version ts inputs outputs false)) |}.

(** [self.inputs[i].signature = s], with Python's indexing: a negative
    index counts from the end. *)
Definition set_input_signature (i : Z) (s : string)
    (l : list TxInput.t) : outcome (list TxInput.t) :=
  let n := Py.len l in
  let j := (if i <? 0 then i + n else i)%Z in
  if ((j <? 0) || (n <=? j))%Z then Raises IndexError
  else Returns (alter (TxInput.set_signature (Some s)) (Z.to_nat j) l).

(** [Transaction.sign_input]: returns the signature and the transaction
    with that input signed. *)
Definition sign_input (self : Transaction.t) (input_index : Z)
    (private_key : string) : outcome (string * Transaction.t) :=
  if (Py.len (Transaction.inputs self) <=? input_index)%Z
  then Raises IndexError
  else
    let data_to_sign := Transaction._txid self in
    signature ← pqc_sign private_key data_to_sign;
    inputs' ← set_input_signature input_index signature
                (Transaction.inputs self);
    Returns (signature, Transaction.set_inputs inputs' self).

(** ** db_manager.py: the UTXO store *)

(** sqlite3 binds a Python [int] as a 64-bit INTEGER: one outside that
    range raises [OverflowError] before the statement runs.  It binds a
    NaN as NULL. *)
Definition fits_int64 (n : Z) : bool :=
  ((- 2 ^ 63 <=? n) && (n <? 2 ^ 63))%Z.

(** One [INSERT OR IGNORE]: a row whose key is taken is left as it is, and
    so is the table when the amount is NaN, which is NULL to the column
    [amount REAL NOT NULL].  The [output_index] bound is a position given
    by [enumerate]. *)
Definition add_utxo (u : UTXO.t) (db : utxo_table) : utxo_table :=
  if PrimFloat.is_nan (UTXO.amount u) then db
  else match db !! UTXO.key u with
       | Some _ => db
       | None => <[UTXO.key u := UTXO.unspent_columns u]> db
       end.

(** [UTXODBManager.add_utxos]. *)
Definition add_utxos (utxos_list : list UTXO.t) (db : utxo_table)
  : utxo_table :=
  foldl (fun acc u => add_utxo u acc) db utxos_list.

(** [UTXODBManager.mark_spent]: the update applies only to an unspent row;
    the result tells whether a row changed.  The statement is run with
    [conn.execute], so the [OverflowError] of an [input_index] outside 64
    bits reaches the caller; [spent_index] is a position given by
    [enumerate]. *)
Definition mark_spent (db : utxo_table) (input_txid : string)
    (input_index : Z) (spent_txid : string) (spent_index : Z)
  : outcome (bool * utxo_table) :=
  if negb (fits_int64 input_index) then Raises OverflowError
  else
    match db !! (input_txid, input_index) with
    | Some u =>
        if UTXO.is_spent u then Returns (false, db)
        else Returns (true, <[(input_txid, input_index) :=
                                UTXO.set_spent spent_txid spent_index u]> db)
    | None => Returns (false, db)
    end.

(** The rows selected by [spent_txid IS NULL]. *)
Definition unspent_rows (db : utxo_table) : utxo_table :=
  filter (fun kv => UTXO.is_spent (snd kv) = false) db.

(** [UTXODBManager.get_unspent_outputs]; the filter on the address applies
    when the argument is a non-empty string.  SQL fixes no row order: the
    rows come in the order of the map's keys. *)
Definition get_unspent_outputs (db : utxo_table) (address : option string)
  : list UTXO.t :=
  let rows := unspent_rows db in
  let rows :=
    match address with
    | Some a =>
        if Py.str_truthy a
        then filter (fun kv => UTXO.address (snd kv) = a) rows
        else rows
    | None => rows
    end in
  (map_to_list rows).*2.

(** [UTXODBManager.get_utxo_by_id]. *)
Definition get_utxo_by_id (db : utxo_table) (txid : string)
    (output_index : Z) : option UTXO.t :=
  db !! (txid, output_index).

(** [UTXODBManager.clear_all]. *)
Definition clear_all (db : utxo_table) : utxo_table := ∅.

(** ** transaction.py: validation *)

(** The loop of [Transaction.is_valid] over the inputs; [Returns None] is
    the early [return False], [Returns (Some s)] the sum reached. *)
Fixpoint check_inputs (db : utxo_table) (data_to_verify : string)
    (ins : list TxInput.t) (input_sum : float) : outcome (option float) :=
  match ins with
  | [] => Returns (Some input_sum)
  | tx_input :: rest =>
      match get_utxo_by_id db (TxInput.txid tx_input)
                              (TxInput.output_index tx_input) with
      | None => Returns None
      | Some utxo =>
          if UTXO.is_spent utxo then Returns None
          else if negb (bool_decide
                          (Some (UTXO.address utxo) = TxInput.pub_key tx_input))
          then Returns None
          else
            ok ← pqc_verify (TxInput.pub_key tx_input) data_to_verify
                            (TxInput.signature tx_input);
            if negb ok then Returns None
            else check_inputs db data_to_verify rest
                              (input_sum + UTXO.amount utxo)%float
      end
  end.

(** [Transaction.is_valid]. *)
Definition is_valid (self : Transaction.t) (utxo_set_manager : utxo_table)
    (is_coinbase : bool) : outcome bool :=
  match Transaction.outputs self with
  | [] => Returns false
  | _ =>
      if is_coinbase then
        match Transaction.inputs self with
        | [i] => if negb (String.eqb (TxInput.txid i) ZERO128)
                 then Returns false else Returns true
        | _ => Returns false
        end
      else
        let output_sum :=
          Py.sum (List.map TxOutput.amount (Transaction.outputs self)) in
        let data_to_verify := Transaction._txid self in
        r ← check_inputs utxo_set_manager data_to_verify
                         (Transaction.inputs self) 0%float;
        match r with
        | None => Returns false
        | Some input_sum =>
            if (input_sum <? output_sum)%float then Returns false
            else Returns true
        end
  end.

(** ** ledger.py: Merkle root *)

(** The [for i in range(0, len(hashes), 2)] loop on a list of even length:
    adjacent hex strings are concatenated and hashed. *)
Fixpoint pair_level (hashes : list string) : list string :=
  match hashes with
  | a :: b :: rest => sha3_512_hex (a ++ b) :: pair_level rest
  | _ => []
  end.

(** [hashes.append(hashes[-1])] when the length is odd. *)
Definition pad_odd (hashes : list string) : list string :=
  if Nat.odd (length hashes)
  then match last hashes with
       | Some h => hashes ++ [h]
       | None => hashes
       end
  else hashes.

(** One round of the [while] loop. *)
Definition next_level (hashes : list string) : list string :=
  pair_level (pad_odd hashes).

Lemma length_pair_level hashes :
  length (pair_level hashes) = Nat.div2 (length hashes).
Proof.
  induction hashes as [hashes IH] using (induction_ltof1 _ (@length _)).
  destruct hashes as [|a [|b rest]]; [reflexivity..|].
  cbn [pair_level length Nat.div2]. f_equal. apply IH.
  unfold ltof. cbn. lia.
Qed.

Lemma length_next_level hashes :
  length (next_level hashes) = Nat.div2 (S (length hashes)).
Proof.
  unfold next_level, pad_odd. rewrite length_pair_level.
  destruct (Nat.odd (length hashes)) eqn:E.
  - apply Nat.odd_spec in E. destruct E as [m E].
    destruct (last hashes) eqn:L.
    + rewrite length_app. cbn [length]. f_equal. lia.
    + apply last_None in L. subst. cbn in E. lia.
  - assert (Nat.even (length hashes) = true) as E'
        by (rewrite <- Nat.negb_odd, E; reflexivity).
    apply Nat.even_spec in E'. destruct E' as [m E']. rewrite E'.
    rewrite Nat.div2_double, Nat.div2_succ_double. reflexivity.
Qed.

Lemma next_level_shorter hashes :
  (1 < length hashes -> length (next_level hashes) < length hashes)%nat.
Proof.
  rewrite length_next_level.
  destruct (length hashes) as [|[|n]]; [lia..|]. intros _.
  change (Nat.div2 (S (S (S n)))) with (S (Nat.div2 (S n))).
  pose proof (Nat.le_div2 n). lia.
Qed.

(** A value together with the equation that names it, so that the loop
    test is available to the termination proof. *)
Definition inspect {A} (a : A) : {b : A | a = b} := exist _ a eq_refl.

(** The [while len(hashes) > 1] loop; it stops because every round halves
    the list (rounding up). *)
Equations? merkle_loop (hashes : list string) : list string
  by wf (length hashes) lt :=
  merkle_loop hashes with inspect (1 <? length hashes)%nat => {
    | exist _ true _ := merkle_loop (next_level hashes);
    | exist _ false _ := hashes }.
Proof.
  apply next_level_shorter. apply Nat.ltb_lt. exact e.
Qed.

(** [calculate_merkle_root]. *)
Definition calculate_merkle_root (transactions : list Transaction.t)
  : string :=
  match transactions with
  | [] => ZERO128
  | _ =>
      let hashes := List.map Transaction.txid transactions in
      List.hd EmptyString (merkle_loop hashes)
  end.

(** ** transaction.py: reading a transaction back from a dict *)

(** [d[k]] and [d.get(k)] on a JSON object. *)
Definition dict_get (k : string) (data : json) : option json :=
  match data with
  | JDict d => snd <$> List.find (fun kv => String.eqb (fst kv) k) d
  | _ => None
  end.

(** A field holding a string or [None]; other values are outside the
    typed model and reported as [TypeError]. *)
Definition get_opt_str (k : string) (data : json) : outcome (option string) :=
  match dict_get k data with
  | None | Some JNull => Returns None
  | Some (JStr s) => Returns (Some s)
  | Some _ => Raises TypeError
  end.

(** [TxInput.from_dict]. *)
Definition TxInput_from_dict (data : json) : outcome TxInput.t :=
  match dict_get "txid" data, dict_get "output_index" data with
  | None, _ | _, None => Raises KeyError
  | Some (JStr t), Some (JInt i) =>
      sig ← get_opt_str "signature" data;
      pk ← get_opt_str "pub_key" data;
      Returns {| TxInput.txid := t; TxInput.output_index := i;
                 TxInput.signature := sig; TxInput.pub_key := pk |}
  | Some _, Some _ => Raises TypeError
  end.

(** [TxOutput.from_dict]; the constructor applies [float] to the amount. *)
Definition TxOutput_from_dict (data : json) : outcome TxOutput.t :=
  match dict_get "amount" data, dict_get "address" data with
  | None, _ | _, None => Raises KeyError
  | Some (JFloat a), Some (JStr addr) =>
      Returns {| TxOutput.amount := a; TxOutput.address := addr |}
  | Some (JInt n), Some (JStr addr) =>
      Returns {| TxOutput.amount := Py.float_of_int n;
                 TxOutput.address := addr |}
  | Some _, Some _ => Raises TypeError
  end.

Definition get_list (k : string) (data : json) : outcome (list json) :=
  match dict_get k data with
  | None => Returns []
  | Some (JList l) => Returns l
  | Some _ => Raises TypeError
  end.

(** [Transaction.from_dict]: a non-empty [txid] entry of the dict wins over
    the recomputed identifier. *)
Definition Transaction_from_dict (data : json) (now : float)
  : outcome Transaction.t :=
  ins ← get_list "inputs" data;
  inputs ← mapM TxInput_from_dict ins;
  outs ← get_list "outputs" data;
  outputs ← mapM TxOutput_from_dict outs;
  version ← match dict_get "version" data with
            | None => Returns TRANSACTION_VERSION
            | Some (JInt v) => Returns v
            | Some _ => Raises TypeError
            end;
  timestamp ← match dict_get "timestamp" data with
              | None | Some JNull => Returns None
              | Some (JFloat f) => Returns (Some f)
              | Some _ => Raises TypeError
              end;
  given ← get_opt_str "txid" data;
  let tx := Transaction_init inputs outputs version timestamp now in
  Returns {| Transaction.version := Transaction.version tx;
             Transaction.timestamp := Transaction.timestamp tx;
             Transaction.inputs := Transaction.inputs tx;
             Transaction.outputs := Transaction.outputs tx;
             Transaction._txid := Py.str_or given (_calculate_txid tx) |}.

(** ** ledger.py: blocks *)

(** The header dict of [Block.calculate_hash], hashed. *)
Definition calculate_hash_of (index : Z) (timestamp : float)
    (previous_hash merkle_root : string) (proof : Z) : string :=
  hash_data (OfJson (JDict [ ("index", JInt index);
                             ("timestamp", JFloat timestamp);
                             ("previous_hash", JStr previous_hash);
                             ("merkle_root", JStr merkle_root);
                             ("proof", JInt proof) ])).


(** [Block.__init__]; [now] is the reading of [time.time()]. *)
Definition Block_init (index : Z) (transactions : list Transaction.t)
    (previous_hash : string) (proof : Z) (timestamp : option float)
    (current_hash merkle_root : option string) (now : float) : Block.t :=
  let ts := Py.float_or timestamp (Py.time_time now) in
  let mr := Py.str_or merkle_root (calculate_merkle_root transactions) in
  {| Block.index := index;
     Block.timestamp := ts;
     Block.transactions := transactions;
     Block.previous_hash := previous_hash;
     Block.proof := proof;
     Block.merkle_root := mr;
     Block.hash :=
       Py.str_or current_hash
                 (calculate_hash_of index ts previous_hash mr proof) |}.

(** [Block.from_db_row]. *)
Definition from_db_row (row : BlockRow.t) (now : float) : outcome Block.t :=
  transactions ← mapM (fun d => Transaction_from_dict d now)
                      (BlockRow.transactions_json row);
  Returns (Block_init (BlockRow.index_id row) transactions
             (BlockRow.previous_hash row) (BlockRow.proof row)
             (Some (BlockRow.timestamp row)) (Some (BlockRow.hash row))
             (Some (BlockRow.merkle_root row)) now).

(** ** db_manager.py: the block store *)

(** [LedgerDBManager.save_block].  Binding a height or a proof outside 64
    bits raises [OverflowError], which the method does not catch.  The
    insert then fails with the [IntegrityError] the method answers with
    [False] when the timestamp is NaN (NULL to [timestamp REAL NOT NULL])
    or when the height (primary key) or the hash (unique column) is
    already in the table. *)
Definition save_block (db : list BlockRow.t) (block : Block.t)
  : outcome (bool * list BlockRow.t) :=
  let row := {| BlockRow.index_id := Block.index block;
                BlockRow.timestamp := Block.timestamp block;
                BlockRow.previous_hash := Block.previous_hash block;
                BlockRow.merkle_root := Block.merkle_root block;
                BlockRow.proof := Block.proof block;
                BlockRow.hash := Block.hash block;
                BlockRow.transactions_json :=
                  List.map (fun tx => to_dict tx true)
                           (Block.transactions block) |} in
  if negb (fits_int64 (Block.index block) && fits_int64 (Block.proof block))
  then Raises OverflowError
  else if PrimFloat.is_nan (Block.timestamp block)
          || existsb (fun r => (BlockRow.index_id r =? Block.index block)%Z
                               || String.eqb (BlockRow.hash r)
                                             (Block.hash block)) db
  then Returns (false, db)
  else Returns (true, (db ++ [row])%list).

(** [ORDER BY index_id ASC]. *)
Fixpoint insert_row (r : BlockRow.t) (l : list BlockRow.t)
  : list BlockRow.t :=
  match l with
  | [] => [r]
  | r' :: rest =>
      if (BlockRow.index_id r <=? BlockRow.index_id r')%Z then r :: l
      else r' :: insert_row r rest
  end.

(** [LedgerDBManager.load_all_blocks]. *)
Definition load_all_blocks (db : list BlockRow.t) : list BlockRow.t :=
  fold_right insert_row [] db.

(** [LedgerDBManager.clear_blocks]. *)
Definition clear_blocks (db : list BlockRow.t) : list BlockRow.t := [].

(** ** ledger.py: the ledger *)

Local Open Scope Z_scope.

(** [QuantumLedger._create_coinbase_tx]: the identifier is computed by the
    constructor, then the signature and the public key of the input are
    assigned. *)
Definition _create_coinbase_tx (recipient : string) (amount : float)
    (now : float) : Transaction.t :=
  let inputs := [ {| TxInput.txid := ZERO128; TxInput.output_index := -1;
                     TxInput.signature := None; TxInput.pub_key := None |} ] in
  let outputs := [ {| TxOutput.amount := amount;
                      TxOutput.address := recipient |} ] in
  let cb_tx := Transaction_init inputs outputs TRANSACTION_VERSION None now in
  let signed := alter (TxInput.set_signature (Some "COINBASE"%string)) 0%nat
                      (Transaction.inputs cb_tx) in
  let keyed := alter (TxInput.set_pub_key (Some ZERO128)) 0%nat signed in
  Transaction.set_inputs keyed cb_tx.

(** [[UTXO(tx.txid, i, o.address, o.amount) for i, o in enumerate(outputs)]]. *)
Definition new_utxos (tx : Transaction.t) : list UTXO.t :=
  imap (fun i o =>
          {| UTXO.txid := Transaction.txid tx;
             UTXO.output_index := Z.of_nat i;
             UTXO.address := TxOutput.address o;
             UTXO.amount := TxOutput.amount o;
             UTXO.spent_txid := None; UTXO.spent_index := None |})
       (Transaction.outputs tx).

(** The inner loop of [_update_utxo_set]: [i] is the position reached by
    [enumerate]; the result of [mark_spent] is dropped. *)
Fixpoint spend_inputs (is_spend : bool) (spender : string) (i : Z)
    (ins : list TxInput.t) (db : utxo_table) : outcome utxo_table :=
  match ins with
  | [] => Returns db
  | tx_input :: rest =>
      db' ←
        (if is_spend
         then '(_, db') ← mark_spent db (TxInput.txid tx_input)
                                     (TxInput.output_index tx_input)
                                     spender i;
              Returns db'
         else Returns db);
      spend_inputs is_spend spender (i + 1) rest db'
  end.

(** The body of the loop of [_update_utxo_set] for one transaction;
    [tx.inputs[0]] raises on a transaction without inputs. *)
Definition update_utxo_tx (is_spend : bool) (db : utxo_table)
    (tx : Transaction.t) : outcome utxo_table :=
  match Transaction.inputs tx with
  | [] => Raises IndexError
  | first :: _ =>
      db1 ←
        (if negb (String.eqb (TxInput.txid first) ZERO128)
         then spend_inputs is_spend (Transaction.txid tx) 0
                           (Transaction.inputs tx) db
         else Returns db);
      Returns (if is_spend then add_utxos (new_utxos tx) db1 else db1)
  end.

Fixpoint update_utxo_txs (is_spend : bool) (db : utxo_table)
    (txs : list Transaction.t) : outcome utxo_table :=
  match txs with
  | [] => Returns db
  | tx :: rest =>
      db' ← update_utxo_tx is_spend db tx;
      update_utxo_txs is_spend db' rest
  end.

(** [QuantumLedger._update_utxo_set]. *)
Definition _update_utxo_set (self : QuantumLedger.t) (block : Block.t)
    (is_spend : bool) : outcome QuantumLedger.t :=
  db ← update_utxo_txs is_spend (QuantumLedger.udb self)
                       (Block.transactions block);
  Returns (QuantumLedger.set_udb db self).

(** [rebuild_utxo_set], the assignments [all_utxos[(tx.txid, i)] = UTXO(..)]
    for the outputs of one transaction. *)
Definition record_outputs (tx : Transaction.t) (all_utxos : utxo_table)
  : utxo_table :=
  foldl (fun acc u => <[UTXO.key u := u]> acc) all_utxos (new_utxos tx).

(** [rebuild_utxo_set], the loop over the inputs: an input whose key is in
    the dict marks that entry spent. *)
Fixpoint record_spends (spender : string) (i : Z) (ins : list TxInput.t)
    (all_utxos : utxo_table) : utxo_table :=
  match ins with
  | [] => all_utxos
  | tx_input :: rest =>
      record_spends spender (i + 1) rest
        (alter (UTXO.set_spent spender i)
               (TxInput.txid tx_input, TxInput.output_index tx_input)
               all_utxos)
  end.

Definition rebuild_tx (all_utxos : utxo_table) (tx : Transaction.t)
  : outcome utxo_table :=
  let all1 := record_outputs tx all_utxos in
  match Transaction.inputs tx with
  | [] => Raises IndexError
  | first :: _ =>
      if negb (String.eqb (TxInput.txid first) ZERO128)
      then Returns (record_spends (Transaction.txid tx) 0
                                  (Transaction.inputs tx) all1)
      else Returns all1
  end.

Fixpoint rebuild_txs (all_utxos : utxo_table) (txs : list Transaction.t)
  : outcome utxo_table :=
  match txs with
  | [] => Returns all_utxos
  | tx :: rest =>
      all' ← rebuild_tx all_utxos tx;
      rebuild_txs all' rest
  end.

Fixpoint rebuild_blocks (all_utxos : utxo_table) (chain : list Block.t)
  : outcome utxo_table :=
  match chain with
  | [] => Returns all_utxos
  | block :: rest =>
      all' ← rebuild_txs all_utxos (Block.transactions block);
      rebuild_blocks all' rest
  end.

(** [QuantumLedger.rebuild_utxo_set]. *)
Definition rebuild_utxo_set (self : QuantumLedger.t)
  : outcome QuantumLedger.t :=
  let cleared := clear_all (QuantumLedger.udb self) in
  all_utxos ← rebuild_blocks ∅ (QuantumLedger.chain self);
  let unspent :=
    List.filter (fun u => negb (UTXO.is_spent u))
                (map_to_list all_utxos).*2 in
  Returns (QuantumLedger.set_udb (add_utxos unspent cleared) self).

(** [QuantumLedger.add_transaction]. *)
Definition add_transaction (self : QuantumLedger.t)
    (transaction : Transaction.t) : outcome (bool * QuantumLedger.t) :=
  ok ← is_valid transaction (QuantumLedger.udb self) false;
  if negb ok then Returns (false, self)
  else if existsb (fun t => String.eqb (Transaction.txid t)
                                        (Transaction.txid transaction))
                  (QuantumLedger.pending_transactions self)
  then Returns (false, self)
  else Returns (true,
                QuantumLedger.set_pending_transactions
                  (QuantumLedger.pending_transactions self ++ [transaction])
                  self).

(** [QuantumLedger._adjust_difficulty]. *)
Definition _adjust_difficulty (self : QuantumLedger.t)
  : outcome QuantumLedger.t :=
  let n := Py.len (QuantumLedger.chain self) in
  if (n mod DIFFICULTY_ADJUSTMENT_INTERVAL =? 0) && (1 <? n) then
    prev_adjustment_block ←
      Py.item_from_end (QuantumLedger.chain self)
                       (Z.to_nat DIFFICULTY_ADJUSTMENT_INTERVAL);
    last_block ← Py.last_item (QuantumLedger.chain self);
    let time_taken :=
      (Block.timestamp last_block
       - Block.timestamp prev_adjustment_block)%float in
    let expected_time := BLOCK_TIME_TARGET * DIFFICULTY_ADJUSTMENT_INTERVAL in
    if (time_taken <? Py.float_of_int expected_time / Py.float_of_int 2)%float
    then Returns (QuantumLedger.set_current_difficulty
                    (QuantumLedger.current_difficulty self + 1) self)
    else if (Py.float_of_int (expected_time * 2) <? time_taken)%float
    then Returns (QuantumLedger.set_current_difficulty
                    (Z.max 1 (QuantumLedger.current_difficulty self - 1)) self)
    else Returns self
  else Returns self.

(** The digest tested by the search: SHA3-512 over the header prefix
    followed by the decimal proof. *)
Definition guess_hash (block_header_partial : string) (proof : Z) : string :=
  sha3_512_hex (block_header_partial ++ Py.str_of_int proof)%string.

(** The [while True] loop of [proof_of_work], from the current [proof];
    [fuel] bounds the number of digests tried. *)
Fixpoint pow_search (fuel : nat) (prefix block_header_partial : string)
    (proof : Z) : outcome Z :=
  match fuel with
  | O => Unfinished
  | S fuel' =>
      if Py.startswith (guess_hash block_header_partial proof) prefix
      then Returns proof
      else pow_search fuel' prefix block_header_partial (proof + 1)
  end.

(** [QuantumLedger.proof_of_work]. *)
Definition proof_of_work (fuel : nat) (self : QuantumLedger.t)
    (block_header_partial : string) : outcome Z :=
  let prefix := Py.str_mul "0" (QuantumLedger.current_difficulty self) in
  pow_search fuel prefix block_header_partial 0.

(** [sum(self.udb.get_utxo_by_id(i.txid, i.output_index).amount
          for i in tx.inputs)]. *)
Fixpoint input_amounts (db : utxo_table) (ins : list TxInput.t)
  : outcome (list float) :=
  match ins with
  | [] => Returns []
  | i :: rest =>
      match get_utxo_by_id db (TxInput.txid i) (TxInput.output_index i) with
      | None => Raises AttributeError
      | Some u =>
          amounts ← input_amounts db rest;
          Returns (UTXO.amount u :: amounts)
      end
  end.

(** The selection loop of [mine_block] over a copy of the mempool.  A
    transaction that fails validation is removed from the mempool, so the
    mempool left by the loop is the list [validated_txs] itself. *)
Fixpoint select_txs (db : utxo_table) (snapshot : list Transaction.t)
    (validated_txs : list Transaction.t) (fees : float)
  : outcome (list Transaction.t * float) :=
  match snapshot with
  | [] => Returns (validated_txs, fees)
  | tx :: rest =>
      ok ← is_valid tx db false;
      if (ok : bool) then
        amounts ← input_amounts db (Transaction.inputs tx);
        let ins := Py.sum amounts in
        let outs := Py.sum (List.map TxOutput.amount (Transaction.outputs tx)) in
        select_txs db rest (validated_txs ++ [tx]) (fees + (ins - outs))%float
      else select_txs db rest validated_txs fees
  end.

(** [[t for t in pending if t.txid not in ids]]. *)
Definition prune_mined (ids : list string) (pending : list Transaction.t)
  : list Transaction.t :=
  List.filter
    (fun t => negb (existsb (String.eqb (Transaction.txid t)) ids)) pending.

(** [QuantumLedger.mine_block]; [now_tx] and [now_block] are the clock
    readings taken by the coinbase and by the block. *)
Definition mine_block (fuel : nat) (now_tx now_block : float)
    (self : QuantumLedger.t) : outcome (option Block.t * QuantumLedger.t) :=
  match QuantumLedger.pending_transactions self with
  | [] => Returns (None, self)
  | _ =>
      self ← _adjust_difficulty self;
      '(validated_txs, fees) ←
        select_txs (QuantumLedger.udb self)
                   (QuantumLedger.pending_transactions self) [] 0%float;
      let self := QuantumLedger.set_pending_transactions validated_txs self in
      match validated_txs with
      | [] => Returns (None, self)
      | _ =>
          let reward_tx :=
            _create_coinbase_tx (QuantumLedger.miner_address self)
                                (MINER_REWARD + fees)%float now_tx in
          let final_txs := reward_tx :: validated_txs in
          let merkle_root := calculate_merkle_root final_txs in
          last_block ← Py.last_item (QuantumLedger.chain self);
          let prev_hash := Block.hash last_block in
          let temp_header :=
            (Py.str_of_int (Py.len (QuantumLedger.chain self))
             ++ prev_hash ++ merkle_root)%string in
          proof ← proof_of_work fuel self temp_header;
          let new_block :=
            Block_init (Py.len (QuantumLedger.chain self)) final_txs prev_hash
                       proof None None (Some merkle_root) now_block in
          '(saved, ldb') ← save_block (QuantumLedger.ldb self) new_block;
          if (saved : bool) then
            let self := QuantumLedger.set_ldb ldb' self in
            let self :=
              QuantumLedger.set_chain
                (QuantumLedger.chain self ++ [new_block]) self in
            self ← _update_utxo_set self new_block true;
            let mined_ids := List.map Transaction.txid validated_txs in
            let self :=
              QuantumLedger.set_pending_transactions
                (prune_mined mined_ids
                             (QuantumLedger.pending_transactions self)) self in
            Returns (Some new_block, self)
          else Returns (None, self)
      end
  end.



(** [QuantumLedger.add_block_from_peer]. *)
Definition add_block_from_peer (self : QuantumLedger.t) (block : Block.t)
  : outcome (bool * QuantumLedger.t) :=
  last_block ← Py.last_item (QuantumLedger.chain self);
  if String.eqb (Block.previous_hash block) (Block.hash last_block) then
    if Py.startswith (Block.hash block)
         (Py.str_mul "0" (QuantumLedger.current_difficulty self)) then
      '(saved, ldb') ← save_block (QuantumLedger.ldb self) block;
      if (saved : bool) then
        let self := QuantumLedger.set_ldb ldb' self in
        let self :=
          QuantumLedger.set_chain (QuantumLedger.chain self ++ [block]) self in
        self ← _update_utxo_set self block true;
        let tx_ids := List.map Transaction.txid (Block.transactions block) in
        Returns (true,
                 QuantumLedger.set_pending_transactions
                   (prune_mined tx_ids
                                (QuantumLedger.pending_transactions self)) self)
      else Returns (false, self)
    else Returns (false, self)
  else Returns (false, self).

(** [QuantumLedger.create_genesis_block]. *)
Definition create_genesis_block (now_tx now_block : float)
    (self : QuantumLedger.t) : outcome QuantumLedger.t :=
  let genesis_reward_tx :=
    _create_coinbase_tx (QuantumLedger.miner_address self)
                        (MINER_REWARD * Py.float_of_int 1000)%float now_tx in
  let genesis_block :=
    Block_init 0 [genesis_reward_tx] ZERO128 0 None None None now_block in
  '(saved, ldb') ← save_block (QuantumLedger.ldb self) genesis_block;
  if (saved : bool) then
    let self := QuantumLedger.set_ldb ldb' self in
    let self :=
      QuantumLedger.set_chain (QuantumLedger.chain self ++ [genesis_block])
                              self in
    _update_utxo_set self genesis_block false
  else Returns self.

(** [QuantumLedger._load_chain_from_db]. *)
Definition _load_chain_from_db (now_tx now_block : float)
    (self : QuantumLedger.t) : outcome QuantumLedger.t :=
  match load_all_blocks (QuantumLedger.ldb self) with
  | [] => create_genesis_block now_tx now_block self
  | rows =>
      chain ← mapM (fun row => from_db_row row now_block) rows;
      self ← _adjust_difficulty (QuantumLedger.set_chain chain self);
      rebuild_utxo_set self
  end.

(** [QuantumLedger.__init__], on the contents found in the two database
    files. *)
Definition QuantumLedger_init (blocks_db : list BlockRow.t)
    (utxo_db : utxo_table) (miner_address : string)
    (now_tx now_block : float) : outcome QuantumLedger.t :=
  _load_chain_from_db now_tx now_block
    {| QuantumLedger.ldb := blocks_db;
       QuantumLedger.udb := utxo_db;
       QuantumLedger.miner_address := miner_address;
       QuantumLedger.current_difficulty := INITIAL_DIFFICULTY;
       QuantumLedger.chain := [];
       QuantumLedger.pending_transactions := [] |}.

(** The incremental maintenance of the store: [_update_utxo_set] with
    its default [is_spend=True], as [mine_block] and [add_block_from_peer]
    call it, for each block in order. *)
Fixpoint apply_blocks (self : QuantumLedger.t) (blocks : list Block.t)
  : outcome QuantumLedger.t :=
  match blocks with
  | [] => Returns self
  | block :: rest =>
      self' ← _update_utxo_set self block true;
      apply_blocks self' rest
  end.

(** ** wallet_manager.py *)

(** [WalletManager.get_balance]; the wallet reads the same [utxos] table. *)
Definition get_balance (utxodb : utxo_table) (public_key : string)
  : float * list UTXO.t :=
  let utxos := get_unspent_outputs utxodb (Some public_key) in
  let bal := Py.sum (List.map UTXO.amount utxos) in
  (bal, utxos).

(** ** db_manager.py: the wallet store *)

(** [WalletDBManager.save_wallet].  The insert goes through
    [execute_query], which catches the error of a taken public key or
    alias and returns [None]: the row is then not written, and
    [save_wallet] answers [True] all the same. *)
Definition save_wallet (wdb : list WalletRow.t)
    (public_key private_key alias : string) : bool * list WalletRow.t :=
  let row := {| WalletRow.public_key := public_key;
                WalletRow.private_key := private_key;
                WalletRow.alias := alias |} in
  if existsb (fun r => String.eqb (WalletRow.public_key r) public_key
                       || String.eqb (WalletRow.alias r) alias) wdb
  then (true, wdb)
  else (true, (wdb ++ [row])%list).

(** Truth value of an optional string argument. *)
Definition given (o : option string) : bool :=
  match o with Some s => Py.str_truthy s | None => false end.

(** [WalletDBManager.get_private_key]. *)
Definition get_private_key (wdb : list WalletRow.t)
    (public_key alias : option string) : option string :=
  if given public_key then
    WalletRow.private_key
      <$> List.find (fun r => bool_decide (Some (WalletRow.public_key r)
                                           = public_key)) wdb
  else if given alias then
    WalletRow.private_key
      <$> List.find (fun r => bool_decide (Some (WalletRow.alias r) = alias))
                    wdb
  else None.

(** [WalletDBManager.get_all_wallets]: the columns [public_key, alias]. *)
Definition get_all_wallets (wdb : list WalletRow.t) : list (string * string) :=
  List.map (fun r => (WalletRow.public_key r, WalletRow.alias r)) wdb.

(** ** wallet_manager.py: keys and transactions *)

(** [WalletManager.get_keys]. *)
Definition get_keys (wdb : list WalletRow.t) (alias pub_key : option string)
  : option string * option string :=
  let pub_key :=
    if given alias && negb (given pub_key) then
      match List.find (fun row => bool_decide (Some (snd row) = alias))
                      (get_all_wallets wdb) with
      | Some row => Some (fst row)
      | None => pub_key
      end
    else pub_key in
  (pub_key, get_private_key wdb pub_key alias).

(** [WalletManager.create_new_wallet]; the seeds are the readings of the
    random generator. *)
Definition create_new_wallet (wdb : list WalletRow.t) (alias : string)
    (pub_key_seed priv_key_seed : Z)
  : outcome ((option string * option string) * list WalletRow.t) :=
  keys ← generate_pqc_key_pair pub_key_seed priv_key_seed;
  let '(saved, wdb') := save_wallet wdb (fst keys) (snd keys) alias in
  if saved then Returns ((Some (fst keys), Some (snd keys)), wdb')
  else Returns ((None, None), wdb').






(* ===================================================================== *)
(** * Properties *)
(* ===================================================================== *)

Local Open Scope list_scope.

(** ** The mock verifier (pqc_primitives.py) *)

Lemma expected_sig_len_Dilithium : expected_sig_len Dilithium = Some 6758.
Proof. vm_compute. reflexivity. Qed.

Lemma pqc_verify_str pk h sig :
  pqc_verify pk h (Some sig) =
  Returns (Py.len_str sig =? 6758).
Proof.
  unfold pqc_verify, verify, PQC_SIGNATURE_SCHEME.
  rewrite expected_sig_len_Dilithium.
  destruct (Py.len_str sig =? 6758); reflexivity.
Qed.

Lemma pqc_verify_none pk h : pqc_verify pk h None = Raises TypeError.
Proof.
  unfold pqc_verify, verify, PQC_SIGNATURE_SCHEME.
  rewrite expected_sig_len_Dilithium. reflexivity.
Qed.

(** C10. [pqc_verify] answers true exactly for signatures of 6758
    characters, the value of [int(3.3 * 2 * 1024)], and its outcome does not
    depend on the public key or on the message digest. *)
Theorem pqc_verify_length_only :
  expected_sig_len PQC_SIGNATURE_SCHEME = Some 6758 /\
  (forall pk h sig,
      pqc_verify pk h (Some sig) = Returns true <-> Py.len_str sig = 6758) /\
  (forall pk h sig,
      pqc_verify pk h (Some sig) = Returns false <-> Py.len_str sig <> 6758) /\
  (forall pk1 h1 pk2 h2 sig,
      pqc_verify pk1 h1 sig = pqc_verify pk2 h2 sig).
Proof.
  split; [exact expected_sig_len_Dilithium|].
  split; [|split].
  - intros pk h sig. rewrite pqc_verify_str.
    destruct (Z.eqb_spec (Py.len_str sig) 6758) as [E|E].
    + split; [intros _; exact E | reflexivity].
    + split; [discriminate | intros E'; contradiction].
  - intros pk h sig. rewrite pqc_verify_str.
    destruct (Z.eqb_spec (Py.len_str sig) 6758) as [E|E].
    + split; [discriminate | intros E'; contradiction].
    + split; [intros _; exact E | reflexivity].
  - intros pk1 h1 pk2 h2 sig. reflexivity.
Qed.

(** ** Merkle roots (ledger.py) *)

(** The loop, unfolded once. *)
Lemma merkle_loop_step hashes :
  merkle_loop hashes =
  if (1 <? length hashes)%nat then merkle_loop (next_level hashes)
  else hashes.
Proof.
  funelim (merkle_loop hashes);
    match goal with E : (1 <? _)%nat = _ |- _ => rewrite E end;
    reflexivity.
Qed.

Lemma next_level_nil : next_level [] = [].
Proof. reflexivity. Qed.

Lemma next_level_one a : next_level [a] = [sha3_512_hex (a ++ a)%string].
Proof. reflexivity. Qed.

Lemma pad_odd_cons2 a b rest : pad_odd (a :: b :: rest) = a :: b :: pad_odd rest.
Proof.
  unfold pad_odd. cbn [length]. rewrite Nat.odd_succ_succ.
  destruct (Nat.odd (length rest)) eqn:E; [|reflexivity].
  destruct rest as [|c rest]; [discriminate|].
  change (last (a :: b :: c :: rest)) with (last (c :: rest)).
  destruct (last (c :: rest)); reflexivity.
Qed.

Lemma next_level_cons2 a b rest :
  next_level (a :: b :: rest) = sha3_512_hex (a ++ b)%string :: next_level rest.
Proof. unfold next_level. rewrite pad_odd_cons2. reflexivity. Qed.

(** An odd list is padded with its last element; an even one is left. *)
Lemma pad_odd_snoc_odd l x :
  Nat.odd (length (l ++ [x])) = true -> pad_odd (l ++ [x]) = l ++ [x; x].
Proof.
  intros E. unfold pad_odd. rewrite E, last_snoc.
  rewrite <- app_assoc. reflexivity.
Qed.

Lemma pad_odd_even l : Nat.odd (length l) = false -> pad_odd l = l.
Proof. intros E. unfold pad_odd. rewrite E. reflexivity. Qed.

Lemma next_level_duplicate_last l x :
  Nat.odd (length (l ++ [x])) = true ->
  next_level (l ++ [x]) = next_level (l ++ [x; x]).
Proof.
  intros E. unfold next_level. rewrite (pad_odd_snoc_odd _ _ E).
  rewrite (pad_odd_even (l ++ [x; x])); [reflexivity|].
  rewrite length_app in *. cbn [length] in *.
  replace (length l + 2)%nat with (S (length l + 1)) by lia.
  rewrite Nat.odd_succ, <- Nat.negb_odd, E. reflexivity.
Qed.

(** The loop keeps a non-empty list non-empty and ends on one hash. *)
Lemma merkle_loop_single hashes :
  hashes <> [] -> exists root, merkle_loop hashes = [root].
Proof.
  induction hashes as [hashes IH] using (induction_ltof1 _ (@length _)).
  intros Hne. rewrite merkle_loop_step.
  destruct (1 <? length hashes)%nat eqn:E.
  - apply Nat.ltb_lt in E. apply IH.
    + unfold ltof. apply next_level_shorter. exact E.
    + intros Hnil. apply (f_equal (@length _)) in Hnil.
      rewrite length_next_level in Hnil.
      destruct (length hashes) as [|[|n]]; [lia..|].
      cbn in Hnil. discriminate.
  - apply Nat.ltb_ge in E.
    destruct hashes as [|h [|h' rest]]; [congruence| |cbn in E; lia].
    exists h. reflexivity.
Qed.

Lemma calculate_merkle_root_nonempty txs :
  txs <> [] ->
  calculate_merkle_root txs =
  List.hd EmptyString (merkle_loop (List.map Transaction.txid txs)).
Proof. destruct txs; [congruence | reflexivity]. Qed.

(** C9. The Merkle root of no transactions is 128 zero characters; a list
    of odd length above one has the root of the list with its last element
    repeated; and every level hashes the concatenation of adjacent hex
    strings, an unpaired last one with itself, until one hash is left. *)
Theorem merkle_root_duplicate_last_rule :
  (calculate_merkle_root [] = Py.str_mul "0" 128) /\
  (forall txs t,
      last txs = Some t ->
      Nat.odd (length txs) = true ->
      (1 < length txs)%nat ->
      calculate_merkle_root txs = calculate_merkle_root (txs ++ [t])) /\
  (forall a b rest,
      next_level (a :: b :: rest) = sha3_512_hex (a ++ b)%string :: next_level rest) /\
  (forall a, next_level [a] = [sha3_512_hex (a ++ a)%string]) /\
  (forall hashes,
      merkle_loop hashes =
      if (1 <? length hashes)%nat then merkle_loop (next_level hashes)
      else hashes) /\
  (forall txs,
      txs <> [] ->
      merkle_loop (List.map Transaction.txid txs) = [calculate_merkle_root txs]).
Proof.
  split; [reflexivity|].
  split; [|split; [exact next_level_cons2|split; [exact next_level_one|
                   split; [exact merkle_loop_step|]]]].
  - intros txs t Hlast Hodd Hlen.
    apply last_Some in Hlast. destruct Hlast as [l ->].
    rewrite !calculate_merkle_root_nonempty by (destruct l; discriminate).
    f_equal. rewrite <- app_assoc. cbn [app].
    rewrite !map_app. cbn [List.map].
    set (hs := List.map Transaction.txid l).
    set (h := Transaction.txid t).
    assert (length (hs ++ [h]) = length (l ++ [t])) as Elen
        by (unfold hs; rewrite !length_app, length_map; reflexivity).
    rewrite (merkle_loop_step (hs ++ [h])), (merkle_loop_step (hs ++ [h; h])).
    replace (1 <? length (hs ++ [h]))%nat with true
      by (symmetry; apply Nat.ltb_lt; lia).
    replace (1 <? length (hs ++ [h; h]))%nat with true
      by (symmetry; apply Nat.ltb_lt; rewrite length_app in *; cbn in *; lia).
    rewrite next_level_duplicate_last; [reflexivity|].
    rewrite Elen. exact Hodd.
  - intros txs Hne. unfold calculate_merkle_root.
    destruct txs as [|t txs]; [congruence|].
    destruct (merkle_loop_single (List.map Transaction.txid (t :: txs)))
      as [root Hroot]; [discriminate|].
    rewrite Hroot. reflexivity.
Qed.

(** ** Proof of work (ledger.py) *)

(** Number of ['0'] characters a string starts with. *)
Fixpoint leading_zeros (s : string) : nat :=
  match s with
  | String c rest =>
      if Ascii.eqb c "0" then S (leading_zeros rest) else O
  | EmptyString => O
  end.

Lemma startswith_repeat_zero s n :
  Py.startswith s (Py.str_repeat_nat "0" n) = true <->
  (n <= leading_zeros s)%nat.
Proof.
  unfold Py.startswith. revert s.
  induction n as [|n IH]; intros s.
  - cbn. destruct s; split; intros; try reflexivity; lia.
  - change (Py.str_repeat_nat "0" (S n))
      with (String "0"%char (Py.str_repeat_nat "0" n)).
    destruct s as [|c rest].
    + cbn. split; [discriminate | lia].
    + cbn [String.prefix leading_zeros].
      destruct (ascii_dec "0" c) as [<-|Hne].
      * rewrite Ascii.eqb_refl, IH. lia.
      * destruct (Ascii.eqb_spec c "0") as [->|_]; [congruence|].
        split; [discriminate | lia].
Qed.

(** [startswith('0' * d)] says: at least [d] leading zero characters. *)
Lemma startswith_zeros s d :
  Py.startswith s (Py.str_mul "0" d) = true <->
  d <= Z.of_nat (leading_zeros s).
Proof. unfold Py.str_mul. rewrite startswith_repeat_zero. lia. Qed.

(** The search from [start]: it returns the first proof at or after
    [start] whose digest has the prefix, if one lies within the fuel. *)
Lemma pow_search_returns fuel prefix header start proof :
  pow_search fuel prefix header start = Returns proof <->
  start <= proof < start + Z.of_nat fuel /\
  Py.startswith (guess_hash header proof) prefix = true /\
  (forall q, start <= q < proof ->
             Py.startswith (guess_hash header q) prefix = false).
Proof.
  revert start. induction fuel as [|fuel IH]; intros start.
  - cbn. split; [discriminate | lia].
  - cbn [pow_search].
    destruct (Py.startswith (guess_hash header start) prefix) eqn:E.
    + split.
      * intros [= <-]. split; [lia|]. split; [exact E|]. intros q Hq. lia.
      * intros (Hr & Hv & Hmin). f_equal.
        destruct (Z.eq_dec start proof) as [->|Hne]; [reflexivity|].
        rewrite (Hmin start) in E by lia. discriminate.
    + rewrite IH. split.
      * intros (Hr & Hv & Hmin). split; [lia|]. split; [exact Hv|].
        intros q Hq. destruct (Z.eq_dec q start) as [->|Hne]; [exact E|].
        apply Hmin. lia.
      * intros (Hr & Hv & Hmin).
        assert (start <> proof) by (intros ->; congruence).
        split; [lia|]. split; [exact Hv|]. intros q Hq. apply Hmin. lia.
Qed.

Lemma pow_search_no_raise fuel prefix header start e :
  pow_search fuel prefix header start <> Raises e.
Proof.
  revert start. induction fuel as [|fuel IH]; intros start; cbn; [discriminate|].
  destruct (Py.startswith _ _); [discriminate | apply IH].
Qed.

(** With a valid proof at hand, enough fuel makes the search return. *)
Lemma pow_search_finds fuel prefix header start p :
  start <= p < start + Z.of_nat fuel ->
  Py.startswith (guess_hash header p) prefix = true ->
  exists proof, proof <= p /\
                pow_search fuel prefix header start = Returns proof.
Proof.
  revert start. induction fuel as [|fuel IH]; intros start Hp Hv; [lia|].
  cbn [pow_search].
  destruct (Py.startswith (guess_hash header start) prefix) eqn:E.
  - exists start. split; [lia | reflexivity].
  - assert (start <> p) by (intros ->; congruence).
    apply IH; [lia | exact Hv].
Qed.

(** ** Inversion of the monadic steps *)

Lemma bind_returns {A B} (m : outcome A) (k : A -> outcome B) (b : B) :
  (m ≫= k) = Returns b <-> exists a, m = Returns a /\ k a = Returns b.
Proof.
  unfold mbind, outcome_bind. destruct m as [a| |]; cbn.
  - split; [intros H; exists a; auto | intros (a' & [= <-] & H); exact H].
  - split; [discriminate | intros (a' & [=] & _)].
  - split; [discriminate | intros (a' & [=] & _)].
Qed.

(** What a successful [mine_block] went through. *)
Lemma mine_block_mined fuel now_tx now_block self block self' :
  mine_block fuel now_tx now_block self = Returns (Some block, self') ->
  exists self1 validated_txs fees last_block proof ldb' self2,
    let selfp := QuantumLedger.set_pending_transactions validated_txs self1 in
    let final_txs :=
      _create_coinbase_tx (QuantumLedger.miner_address self1)
                          (MINER_REWARD + fees)%float now_tx
      :: validated_txs in
    let merkle_root := calculate_merkle_root final_txs in
    let temp_header :=
      (Py.str_of_int (Py.len (QuantumLedger.chain self1))
       ++ Block.hash last_block ++ merkle_root)%string in
    QuantumLedger.pending_transactions self <> [] /\
    _adjust_difficulty self = Returns self1 /\
    select_txs (QuantumLedger.udb self1)
               (QuantumLedger.pending_transactions self1) [] 0%float
      = Returns (validated_txs, fees) /\
    validated_txs <> [] /\
    Py.last_item (QuantumLedger.chain self1) = Returns last_block /\
    proof_of_work fuel selfp temp_header = Returns proof /\
    block = Block_init (Py.len (QuantumLedger.chain self1)) final_txs
                       (Block.hash last_block) proof None None
                       (Some merkle_root) now_block /\
    save_block (QuantumLedger.ldb self1) block = Returns (true, ldb') /\
    _update_utxo_set
      (QuantumLedger.set_chain (QuantumLedger.chain self1 ++ [block])
         (QuantumLedger.set_ldb ldb' selfp)) block true = Returns self2 /\
    self' = QuantumLedger.set_pending_transactions
              (prune_mined (List.map Transaction.txid validated_txs)
                           (QuantumLedger.pending_transactions self2)) self2.
Proof.
  unfold mine_block. intros H.
  destruct (QuantumLedger.pending_transactions self) as [|p0 ps] eqn:Ep;
    [discriminate|].
  apply bind_returns in H. destruct H as (self1 & Hadj & H).
  apply bind_returns in H. destruct H as ([validated_txs fees] & Hsel & H).
  destruct validated_txs as [|v vs] eqn:Ev; [discriminate|]. rewrite <- Ev in *.
  apply bind_returns in H. destruct H as (last_block & Hlast & H).
  apply bind_returns in H. destruct H as (proof & Hpow & H).
  cbn [QuantumLedger.chain QuantumLedger.set_pending_transactions
       QuantumLedger.ldb QuantumLedger.miner_address] in H, Hlast, Hpow.
  apply bind_returns in H. destruct H as ([saved ldb'] & Es & H).
  destruct saved; [|discriminate].
  apply bind_returns in H. destruct H as (self2 & Hupd & H).
  injection H as <- <-.
  exists self1, validated_txs, fees, last_block, proof, ldb', self2.
  cbn zeta. repeat split; try assumption; try congruence.
Qed.

Lemma _update_utxo_set_fields self block is_spend self' :
  _update_utxo_set self block is_spend = Returns self' ->
  QuantumLedger.ldb self' = QuantumLedger.ldb self /\
  QuantumLedger.miner_address self' = QuantumLedger.miner_address self /\
  QuantumLedger.current_difficulty self' = QuantumLedger.current_difficulty self /\
  QuantumLedger.chain self' = QuantumLedger.chain self /\
  QuantumLedger.pending_transactions self'
    = QuantumLedger.pending_transactions self.
Proof.
  unfold _update_utxo_set. intros H.
  apply bind_returns in H. destruct H as (db & _ & [= <-]).
  repeat split.
Qed.

Lemma Block_init_merkle_root index txs prev proof ts cur now :
  Block.merkle_root
    (Block_init index txs prev proof ts cur
                (Some (calculate_merkle_root txs)) now)
  = calculate_merkle_root txs.
Proof.
  unfold Block_init. cbn [Block.merkle_root Py.str_or].
  destruct (Py.str_truthy (calculate_merkle_root txs)); reflexivity.
Qed.

(** C6. The search returns exactly the smallest non-negative proof whose
    SHA3-512 digest over the header prefix followed by [str(proof)] starts
    with [current_difficulty] zero characters (it needs that proof to be
    below the fuel, never raises, and does return once a valid proof
    exists); a block returned by [mine_block] carries that proof for
    [str(index) + previous_hash + merkle_root]. *)
Theorem proof_of_work_smallest_proof :
  (forall fuel self header proof,
      proof_of_work fuel self header = Returns proof <->
      0 <= proof < Z.of_nat fuel /\
      QuantumLedger.current_difficulty self
      <= Z.of_nat (leading_zeros
                     (sha3_512_hex (header ++ Py.str_of_int proof)%string)) /\
      (forall q, 0 <= q < proof ->
         ~ QuantumLedger.current_difficulty self
           <= Z.of_nat (leading_zeros
                          (sha3_512_hex (header ++ Py.str_of_int q)%string)))) /\
  (forall fuel self header e,
      proof_of_work fuel self header <> Raises e) /\
  (forall self header p,
      0 <= p ->
      QuantumLedger.current_difficulty self
      <= Z.of_nat (leading_zeros
                     (sha3_512_hex (header ++ Py.str_of_int p)%string)) ->
      exists proof,
        proof <= p /\
        forall fuel, (Z.to_nat p < fuel)%nat ->
                     proof_of_work fuel self header = Returns proof) /\
  (forall fuel now_tx now_block self block self',
      mine_block fuel now_tx now_block self = Returns (Some block, self') ->
      let header :=
        (Py.str_of_int (Block.index block) ++ Block.previous_hash block
         ++ Block.merkle_root block)%string in
      let d := QuantumLedger.current_difficulty self' in
      0 <= Block.proof block /\
      d <= Z.of_nat (leading_zeros
                       (sha3_512_hex
                          (header ++ Py.str_of_int (Block.proof block))%string)) /\
      (forall q, 0 <= q < Block.proof block ->
         ~ d <= Z.of_nat (leading_zeros
                            (sha3_512_hex (header ++ Py.str_of_int q)%string)))).
Proof.
  assert (forall fuel self header proof,
      proof_of_work fuel self header = Returns proof <->
      0 <= proof < Z.of_nat fuel /\
      QuantumLedger.current_difficulty self
      <= Z.of_nat (leading_zeros
                     (sha3_512_hex (header ++ Py.str_of_int proof)%string)) /\
      (forall q, 0 <= q < proof ->
         ~ QuantumLedger.current_difficulty self
           <= Z.of_nat (leading_zeros
                          (sha3_512_hex (header ++ Py.str_of_int q)%string))))
    as Hsearch.
  { intros fuel self header proof. unfold proof_of_work.
    rewrite pow_search_returns. unfold guess_hash.
    rewrite startswith_zeros.
    split; intros (Hr & Hv & Hmin); (split; [lia|]); (split; [exact Hv|]);
      intros q Hq.
    - rewrite <- startswith_zeros. rewrite (Hmin q) by lia. discriminate.
    - specialize (Hmin q ltac:(lia)). rewrite <- startswith_zeros in Hmin.
      destruct (Py.startswith _ _); [exfalso; auto | reflexivity]. }
  split; [exact Hsearch|].
  split; [intros; apply pow_search_no_raise|].
  split.
  - intros self header p Hp Hv.
    destruct (pow_search_finds (S (Z.to_nat p))
                (Py.str_mul "0" (QuantumLedger.current_difficulty self))
                header 0 p) as (proof & Hle & Hret).
    { lia. }
    { unfold guess_hash. apply startswith_zeros. exact Hv. }
    exists proof. split; [exact Hle|]. intros fuel Hfuel.
    apply Hsearch. unfold proof_of_work in Hret.
    apply pow_search_returns in Hret. destruct Hret as (Hr & Hv' & Hmin).
    unfold guess_hash in *. rewrite startswith_zeros in Hv'.
    split; [lia|]. split; [exact Hv'|]. intros q Hq.
    rewrite <- startswith_zeros. rewrite (Hmin q) by lia. discriminate.
  - intros fuel now_tx now_block self block self' Hmine.
    apply mine_block_mined in Hmine.
    destruct Hmine as (self1 & vs & fees & lastb & proof & ldb' & self2 & Hm).
    cbn zeta in Hm.
    destruct Hm as (_ & _ & _ & _ & _ & Hpow & Hblock & _ & Hupd & ->).
    apply _update_utxo_set_fields in Hupd.
    destruct Hupd as (_ & _ & Hd & _ & _).
    cbn [QuantumLedger.current_difficulty
         QuantumLedger.set_pending_transactions QuantumLedger.set_chain
         QuantumLedger.set_ldb] in Hd |- *.
    apply Hsearch in Hpow. cbn [QuantumLedger.current_difficulty
         QuantumLedger.set_pending_transactions] in Hpow.
    rewrite Hd. subst block. rewrite Block_init_merkle_root.
    cbn [Block.index Block.previous_hash Block.proof Block_init].
    destruct Hpow as (Hr & Hv & Hmin). split; [lia|]. split; [exact Hv|].
    exact Hmin.
Qed.

(** ** Difficulty adjustment (ledger.py) *)

Lemma set_current_difficulty_same self :
  QuantumLedger.set_current_difficulty
    (QuantumLedger.current_difficulty self) self = self.
Proof. destruct self; reflexivity. Qed.

Lemma item_from_end_lookup {A} (l : list A) (k : nat) :
  (0 < k <= length l)%nat ->
  exists x, l !! (length l - k)%nat = Some x /\
            Py.item_from_end l k = Returns x.
Proof.
  intros Hk. unfold Py.item_from_end.
  destruct (Nat.ltb_spec (length l) k) as [Hlt|_]; [lia|].
  destruct (l !! (length l - k)%nat) as [x|] eqn:E.
  - exists x. split; reflexivity.
  - apply lookup_ge_None in E. lia.
Qed.

Lemma last_item_last {A} (l : list A) :
  l <> [] -> exists x, last l = Some x /\ Py.last_item l = Returns x.
Proof.
  intros Hne. unfold Py.last_item. destruct (last l) as [x|] eqn:E.
  - exists x. split; reflexivity.
  - apply last_None in E. congruence.
Qed.

(** The two thresholds, [expected_time / 2] and [expected_time * 2]. *)
Lemma retarget_thresholds :
  (Py.float_of_int (BLOCK_TIME_TARGET * DIFFICULTY_ADJUSTMENT_INTERVAL)
   / Py.float_of_int 2 = 25)%float /\
  Py.float_of_int (BLOCK_TIME_TARGET * DIFFICULTY_ADJUSTMENT_INTERVAL * 2)
  = 100%float.
Proof. split; reflexivity. Qed.

(** C4, as the code has it.  The adjustment fires exactly when the length
    of the chain, that is the tip height plus one, is a non-zero multiple
    of the interval; it then compares the tip's timestamp with that of the
    block [INTERVAL - 1] places before the tip, [chain[len - INTERVAL]],
    against 25 and 100 seconds: one more below 25, one less (not below 1)
    above 100, otherwise no change.  Nothing but the difficulty changes,
    and the call never raises. *)
Theorem adjust_difficulty_on_chain_length self :
  let n := Py.len (QuantumLedger.chain self) in
  let d := QuantumLedger.current_difficulty self in
  exists d',
    _adjust_difficulty self
    = Returns (QuantumLedger.set_current_difficulty d' self) /\
    (0 < n /\ n mod DIFFICULTY_ADJUSTMENT_INTERVAL = 0 ->
     exists tip prev,
       last (QuantumLedger.chain self) = Some tip /\
       QuantumLedger.chain self
         !! Z.to_nat (n - DIFFICULTY_ADJUSTMENT_INTERVAL) = Some prev /\
       let actual := (Block.timestamp tip - Block.timestamp prev)%float in
       d' = if (actual <? 25)%float then d + 1
            else if (100 <? actual)%float then Z.max 1 (d - 1)
            else d) /\
    (~ (0 < n /\ n mod DIFFICULTY_ADJUSTMENT_INTERVAL = 0) -> d' = d).
Proof.
  intros n d. unfold _adjust_difficulty. fold n. fold d.
  destruct ((n mod DIFFICULTY_ADJUSTMENT_INTERVAL =? 0) && (1 <? n)) eqn:Efire.
  - apply andb_true_iff in Efire. destruct Efire as [Emod Elen].
    apply Z.eqb_eq in Emod. apply Z.ltb_lt in Elen.
    assert (5 <= n) as Hn5.
    { unfold DIFFICULTY_ADJUSTMENT_INTERVAL in Emod.
      apply Z.mod_divide in Emod; [|lia]. destruct Emod as [q Hq]. lia. }
    destruct (item_from_end_lookup (QuantumLedger.chain self)
                (Z.to_nat DIFFICULTY_ADJUSTMENT_INTERVAL)) as (prev & Hprev & ->).
    { unfold n, Py.len, DIFFICULTY_ADJUSTMENT_INTERVAL in *. lia. }
    destruct (last_item_last (QuantumLedger.chain self)) as (tip & Htip & ->).
    { intros E. unfold n, Py.len in Hn5. rewrite E in Hn5. cbn in Hn5. lia. }
    cbn [mbind outcome_bind Py.bind].
    destruct retarget_thresholds as [-> ->].
    set (actual := (Block.timestamp tip - Block.timestamp prev)%float).
    exists (if (actual <? 25)%float then d + 1
            else if (100 <? actual)%float then Z.max 1 (d - 1) else d).
    split; [|split].
    + destruct (actual <? 25)%float; [reflexivity|].
      destruct (100 <? actual)%float; [reflexivity|].
      unfold d. rewrite set_current_difficulty_same. reflexivity.
    + intros _. exists tip, prev. split; [exact Htip|]. split; [|reflexivity].
      rewrite <- Hprev. f_equal.
      unfold n, Py.len, DIFFICULTY_ADJUSTMENT_INTERVAL. lia.
    + intros Hno. exfalso. apply Hno. split; [lia | exact Emod].
  - exists d. split; [|split].
    + unfold d. rewrite set_current_difficulty_same. reflexivity.
    + intros [Hpos Hmod]. exfalso.
      apply andb_false_iff in Efire. destruct Efire as [E|E].
      * apply Z.eqb_neq in E. contradiction.
      * apply Z.ltb_ge in E. assert (n = 1) as E1 by lia.
        rewrite E1 in Hmod. discriminate.
    + reflexivity.
Qed.

(** ** Structural validation of a chain (ledger.py) *)







(** ** Transaction identifiers (transaction.py) *)

(** The dict of an input with its signature set to null. *)
Definition canonical_input (i : TxInput.t) : json :=
  JDict [ ("output_index"%string, JInt (TxInput.output_index i));
          ("pub_key"%string, json_opt_str (TxInput.pub_key i));
          ("signature"%string, JNull);
          ("txid"%string, JStr (TxInput.txid i)) ].

(** The value hashed into an identifier: version, timestamp, inputs
    without signatures, outputs. *)
Definition canonical_form (version : Z) (timestamp : float)
    (inputs : list TxInput.t) (outputs : list TxOutput.t) : json :=
  JDict [ ("inputs"%string, JList (List.map canonical_input inputs));
          ("outputs"%string, JList (List.map TxOutput_to_dict outputs));
          ("timestamp"%string, JFloat timestamp);
          ("version"%string, JInt version) ].

Definition canonical (tx : Transaction.t) : json :=
  canonical_form (Transaction.version tx) (Transaction.timestamp tx)
                 (Transaction.inputs tx) (Transaction.outputs tx).

Lemma to_dict_of_false version timestamp inputs outputs :
  to_dict_of version timestamp inputs outputs false
  = canonical_form version timestamp inputs outputs.
Proof.
  unfold to_dict_of, canonical_form. cbn [negb]. rewrite List.map_map.
  reflexivity.
Qed.

(** The keys of the canonical form are already in ascending order, at
    both levels: sorting changes nothing. *)
Lemma sort_keys_canonical_form version timestamp inputs outputs :
  sort_keys (canonical_form version timestamp inputs outputs)
  = canonical_form version timestamp inputs outputs.
Proof.
  unfold canonical_form. cbn [sort_keys List.map fst snd].
  rewrite !List.map_map.
  rewrite (List.map_ext (fun i => sort_keys (canonical_input i))
                        canonical_input)
    by (intros [t n sg [pk|]]; reflexivity).
  rewrite (List.map_ext (fun o => sort_keys (TxOutput_to_dict o))
                        TxOutput_to_dict) by (intros o; reflexivity).
  reflexivity.
Qed.

Lemma _calculate_txid_canonical tx :
  _calculate_txid tx = sha3_512_hex (dumps (canonical tx)).
Proof.
  unfold _calculate_txid, to_dict, hash_data, json_dumps_sorted, canonical.
  rewrite to_dict_of_false, sort_keys_canonical_form. reflexivity.
Qed.

Lemma Transaction_init_txid inputs outputs version timestamp now :
  let tx := Transaction_init inputs outputs version timestamp now in
  Transaction.txid tx = sha3_512_hex (dumps (canonical tx)) /\
  Transaction.txid tx = _calculate_txid tx.
Proof.
  cbn zeta. rewrite _calculate_txid_canonical.
  unfold Transaction_init, Transaction.txid, canonical, hash_data,
    json_dumps_sorted.
  cbn [Transaction._txid Transaction.version Transaction.timestamp
       Transaction.inputs Transaction.outputs].
  rewrite to_dict_of_false, sort_keys_canonical_form. split; reflexivity.
Qed.

(** Inputs that agree up to their signatures have the same canonical
    dicts. *)
Lemma canonical_input_signature s i :
  canonical_input (TxInput.set_signature s i) = canonical_input i.
Proof. reflexivity. Qed.

Lemma canonical_inputs_up_to_signatures ins1 ins2 :
  List.map (TxInput.set_signature None) ins1
  = List.map (TxInput.set_signature None) ins2 ->
  List.map canonical_input ins1 = List.map canonical_input ins2.
Proof.
  intros E. apply (f_equal (List.map canonical_input)) in E.
  rewrite !List.map_map in E. exact E.
Qed.

(** Signatures do not enter the recomputed identifier. *)
Lemma _calculate_txid_up_to_signatures tx1 tx2 :
  Transaction.version tx1 = Transaction.version tx2 ->
  Transaction.timestamp tx1 = Transaction.timestamp tx2 ->
  Transaction.outputs tx1 = Transaction.outputs tx2 ->
  List.map (TxInput.set_signature None) (Transaction.inputs tx1)
  = List.map (TxInput.set_signature None) (Transaction.inputs tx2) ->
  _calculate_txid tx1 = _calculate_txid tx2.
Proof.
  intros Hv Ht Ho Hi. rewrite !_calculate_txid_canonical.
  unfold canonical, canonical_form.
  rewrite Hv, Ht, Ho, (canonical_inputs_up_to_signatures _ _ Hi).
  reflexivity.
Qed.

Lemma set_input_signature_erased i s l l' :
  set_input_signature i s l = Returns l' ->
  List.map (TxInput.set_signature None) l'
  = List.map (TxInput.set_signature None) l.
Proof.
  unfold set_input_signature.
  destruct (_ || _); [discriminate|]. intros [= <-].
  generalize (Z.to_nat (if i <? 0 then i + Py.len l else i)). clear.
  induction l as [|x l IH]; intros [|n]; cbn; try reflexivity.
  f_equal. apply IH.
Qed.

(** [sign_input] leaves the identifier alone, the cached one and the
    recomputed one. *)
Lemma sign_input_txid self input_index private_key signature self' :
  sign_input self input_index private_key = Returns (signature, self') ->
  Transaction.txid self' = Transaction.txid self /\
  _calculate_txid self' = _calculate_txid self.
Proof.
  unfold sign_input. destruct (_ <=? _); [discriminate|]. intros H.
  apply bind_returns in H. destruct H as (sig & _ & H).
  apply bind_returns in H. destruct H as (inputs' & Hset & [= <- <-]).
  split; [reflexivity|].
  apply _calculate_txid_up_to_signatures; try reflexivity.
  cbn [Transaction.inputs Transaction.set_inputs].
  exact (set_input_signature_erased _ _ _ _ Hset).
Qed.

(** The coinbase built by [_create_coinbase_tx]: its cached identifier is
    the hash of the form whose input has a null public key, while the
    transaction it returns has the sentinel key in that input. *)
Lemma coinbase_txid_forms recipient amount now :
  let cb := _create_coinbase_tx recipient amount now in
  let input0 := {| TxInput.txid := ZERO128; TxInput.output_index := -1;
                   TxInput.signature := None; TxInput.pub_key := None |} in
  let outputs := [ {| TxOutput.amount := amount;
                      TxOutput.address := recipient |} ] in
  Transaction.inputs cb
  = [ {| TxInput.txid := ZERO128; TxInput.output_index := -1;
         TxInput.signature := Some "COINBASE"%string;
         TxInput.pub_key := Some ZERO128 |} ] /\
  Transaction.txid cb
  = sha3_512_hex (dumps (canonical_form TRANSACTION_VERSION now
                                        [input0] outputs)) /\
  _calculate_txid cb
  = sha3_512_hex (dumps (canonical_form TRANSACTION_VERSION now
                           [TxInput.set_pub_key (Some ZERO128) input0]
                           outputs)).
Proof.
  cbn zeta. split; [reflexivity|]. split.
  - unfold _create_coinbase_tx.
    unfold Transaction.txid, Transaction.set_inputs, Transaction_init.
    cbn [Transaction._txid Py.float_or].
    unfold hash_data, json_dumps_sorted.
    rewrite to_dict_of_false, sort_keys_canonical_form. reflexivity.
  - rewrite _calculate_txid_canonical. reflexivity.
Qed.

(** ** Mempool admission (ledger.py, transaction.py) *)





(** ** Genesis (ledger.py) *)

Lemma ZERO128_is_128_zeros : ZERO128 = Py.str_mul "0" 128.
Proof. reflexivity. Qed.

Lemma genesis_reward : (MINER_REWARD * Py.float_of_int 1000 = 10000)%float.
Proof. reflexivity. Qed.

Lemma get_balance_empty public_key : get_balance ∅ public_key = (0%float, []).
Proof.
  unfold get_balance, get_unspent_outputs, unspent_rows.
  rewrite map_filter_empty.
  destruct (Py.str_truthy public_key);
    rewrite ?map_filter_empty, map_to_list_empty; reflexivity.
Qed.

Lemma time_time_not_nan now : PrimFloat.is_nan (Py.time_time now) = false.
Proof.
  unfold Py.time_time. destruct (PrimFloat.is_nan now) eqn:E;
    [reflexivity | exact E].
Qed.

(** The genesis block is stored in an empty table. *)
Lemma save_block_genesis txs now :
  exists row,
    save_block [] (Block_init 0 txs ZERO128 0 None None None now)
    = Returns (true, [row]) /\
    BlockRow.index_id row = 0.
Proof.
  unfold save_block.
  cbn [Block_init Block.index Block.proof Block.timestamp Py.float_or
       existsb orb].
  rewrite time_time_not_nan. eexists. split; reflexivity.
Qed.

(** C2 on the code.  A node started on empty stores builds the genesis
    block the claim describes (height 0, previous hash of 128 zeros, one
    coinbase transaction paying [MINER_REWARD * 1000] to the miner) and
    stores it; but the update it runs with [is_spend=False] inserts
    nothing, so the UTXO store is still empty and the miner's balance is
    0, not [MINER_REWARD * 1000]. *)
Theorem genesis_leaves_utxo_store_empty miner_address now_tx now_block :
  exists self genesis genesis_tx row,
    QuantumLedger_init [] ∅ miner_address now_tx now_block = Returns self /\
    QuantumLedger.chain self = [genesis] /\
    QuantumLedger.ldb self = [row] /\
    BlockRow.index_id row = 0 /\
    Block.index genesis = 0 /\
    Block.previous_hash genesis = Py.str_mul "0" 128 /\
    Block.transactions genesis = [genesis_tx] /\
    Transaction.inputs genesis_tx
    = [ {| TxInput.txid := Py.str_mul "0" 128; TxInput.output_index := -1;
           TxInput.signature := Some "COINBASE"%string;
           TxInput.pub_key := Some (Py.str_mul "0" 128) |} ] /\
    Transaction.outputs genesis_tx
    = [ {| TxOutput.amount := (MINER_REWARD * 1000)%float;
           TxOutput.address := miner_address |} ] /\
    QuantumLedger.udb self = ∅ /\
    get_balance (QuantumLedger.udb self) miner_address = (0%float, []).
Proof.
  unfold QuantumLedger_init, _load_chain_from_db.
  cbn [QuantumLedger.ldb load_all_blocks fold_right].
  unfold create_genesis_block.
  cbn [QuantumLedger.ldb QuantumLedger.miner_address].
  set (genesis_tx := _create_coinbase_tx miner_address _ now_tx).
  set (genesis := Block_init 0 [genesis_tx] ZERO128 0 None None None now_block).
  destruct (save_block_genesis [genesis_tx] now_block) as (row & Hsave & Hrow).
  fold genesis in Hsave. rewrite Hsave.
  cbn [mbind outcome_bind Py.bind].
  cbn [app QuantumLedger.chain QuantumLedger.set_chain QuantumLedger.set_ldb].
  unfold _update_utxo_set.
  cbn [QuantumLedger.udb Block.transactions genesis Block_init
       update_utxo_txs update_utxo_tx genesis_tx _create_coinbase_tx
       Transaction.inputs Transaction.set_inputs Transaction_init alter
       list_alter TxInput.txid TxInput.set_pub_key TxInput.set_signature
       mbind outcome_bind Py.bind].
  rewrite String.eqb_refl. cbn [negb mbind outcome_bind Py.bind].
  eexists _, genesis, genesis_tx, row.
  split; [reflexivity|].
  repeat split; [exact Hrow|].
  apply get_balance_empty.
Qed.

(** ** Rebuilding the UTXO store against maintaining it (ledger.py) *)

(** What the comparison of the two stores looks at in a row: its four
    data columns and whether it is spent (not by whom). *)
Definition shape (u : UTXO.t) : UTXO.t * bool :=
  (UTXO.unspent_columns u, UTXO.is_spent u).

(** The transactions of a chain, in block order. *)
Definition all_txs (chain : list Block.t) : list Transaction.t :=
  concat (List.map Block.transactions chain).

(** No input of the transaction names one of its own outputs. *)
Definition no_self_spend (tx : Transaction.t) : Prop :=
  forall i u, In i (Transaction.inputs tx) -> In u (new_utxos tx) ->
              (TxInput.txid i, TxInput.output_index i) <> UTXO.key u.

Lemma shape_set_spent s i u : shape (UTXO.set_spent s i u) = (fst (shape u), true).
Proof. reflexivity. Qed.

(** One input, on both sides: the dict entry is overwritten, the table row
    is updated only if unspent; the shapes agree. *)
Lemma shape_record_spend (R : utxo_table) (k : string * Z)
    (s : string) (i : Z) :
  shape <$> alter (UTXO.set_spent s i) k R
  = alter (fun c => (fst c, true)) k (shape <$> R).
Proof.
  apply map_eq. intros k'. rewrite lookup_fmap, !lookup_alter.
  destruct (decide (k = k')) as [->|Hne]; rewrite ?lookup_fmap;
    [|reflexivity].
  destruct (R !! k'); reflexivity.
Qed.

(** The table [mark_spent] leaves when it returns, and the table the loop
    of [_update_utxo_set] leaves when every call of [mark_spent] returns. *)
Definition marked (db : utxo_table) (t : string) (n : Z) (s : string) (i : Z)
  : utxo_table :=
  match db !! (t, n) with
  | Some u =>
      if UTXO.is_spent u then db
      else <[(t, n) := UTXO.set_spent s i u]> db
  | None => db
  end.

Fixpoint all_marked (s : string) (i : Z) (ins : list TxInput.t)
    (db : utxo_table) : utxo_table :=
  match ins with
  | [] => db
  | x :: rest =>
      all_marked s (i + 1) rest
        (marked db (TxInput.txid x) (TxInput.output_index x) s i)
  end.

(** The indices of the inputs are integers SQLite can bind. *)
Definition inputs_bind (ins : list TxInput.t) : Prop :=
  Forall (fun x => fits_int64 (TxInput.output_index x) = true) ins.

Lemma mark_spent_marked (db : utxo_table) (t : string) (n : Z)
    (s : string) (i : Z) :
  fits_int64 n = true ->
  exists changed, mark_spent db t n s i = Returns (changed, marked db t n s i).
Proof.
  intros Hn. unfold mark_spent, marked. rewrite Hn. cbn [negb].
  destruct (db !! (t, n)) as [u|]; [destruct (UTXO.is_spent u)|];
    eexists; reflexivity.
Qed.

Lemma mark_spent_overflow (db : utxo_table) (t : string) (n : Z)
    (s : string) (i : Z) :
  fits_int64 n = false -> mark_spent db t n s i = Raises OverflowError.
Proof. intros Hn. unfold mark_spent. rewrite Hn. reflexivity. Qed.

Lemma spend_inputs_marked (s : string) (i : Z) (ins : list TxInput.t)
    (db : utxo_table) :
  inputs_bind ins ->
  spend_inputs true s i ins db = Returns (all_marked s i ins db).
Proof.
  revert i db. induction ins as [|x ins IH]; intros i db Hb; [reflexivity|].
  apply Forall_cons in Hb. destruct Hb as [Hx Hb].
  cbn [spend_inputs all_marked].
  destruct (mark_spent_marked db (TxInput.txid x) (TxInput.output_index x)
              s i Hx) as (changed & ->).
  cbn [mbind outcome_bind Py.bind]. apply IH. exact Hb.
Qed.

(** The loop raises exactly at an index it cannot bind. *)
Lemma spend_inputs_outcome (s : string) (i : Z) (ins : list TxInput.t)
    (db : utxo_table) :
  match spend_inputs true s i ins db with
  | Returns db' => inputs_bind ins /\ db' = all_marked s i ins db
  | Raises e => e = OverflowError /\ ~ inputs_bind ins
  | Unfinished => False
  end.
Proof.
  revert i db. induction ins as [|x ins IH]; intros i db.
  - cbn. split; [constructor | reflexivity].
  - cbn [spend_inputs all_marked].
    destruct (fits_int64 (TxInput.output_index x)) eqn:Hx.
    + destruct (mark_spent_marked db (TxInput.txid x)
                  (TxInput.output_index x) s i Hx) as (changed & ->).
      cbn [mbind outcome_bind Py.bind].
      specialize (IH (i + 1)
                     (marked db (TxInput.txid x) (TxInput.output_index x) s i)).
      destruct (spend_inputs true s (i + 1) ins _) as [db'|e|];
        [|destruct IH as [-> Hn]; split; [reflexivity|];
          intros Hb; apply Forall_cons in Hb; tauto | exact IH].
      destruct IH as [Hb ->]. split; [|reflexivity].
      constructor; assumption.
    + rewrite (mark_spent_overflow _ _ _ _ _ Hx). cbn.
      split; [reflexivity|]. intros Hb. apply Forall_cons in Hb.
      destruct Hb as [Hb _]. congruence.
Qed.

Lemma shape_mark_spent (I : utxo_table) (t : string) (n : Z)
    (s : string) (i : Z) :
  shape <$> marked I t n s i
  = alter (fun c => (fst c, true)) (t, n) (shape <$> I).
Proof.
  unfold marked. apply map_eq. intros k'.
  rewrite lookup_alter.
  destruct (I !! (t, n)) as [u|] eqn:E;
    [destruct (UTXO.is_spent u) eqn:Es|];
    rewrite !lookup_fmap, ?lookup_insert;
    (destruct (decide ((t, n) = k')) as [<-|Hne]; [|reflexivity]);
    rewrite E; cbn; unfold shape; rewrite ?Es; reflexivity.
Qed.

(** All the inputs of a transaction, on both sides. *)
Lemma shape_spends (s : string) (i : Z) (ins : list TxInput.t)
    (R I : utxo_table) :
  shape <$> R = shape <$> I ->
  shape <$> record_spends s i ins R = shape <$> all_marked s i ins I.
Proof.
  revert i R I. induction ins as [|x ins IH]; intros i R I Hsim; [exact Hsim|].
  cbn [record_spends all_marked]. apply IH.
  rewrite shape_record_spend, shape_mark_spent, Hsim. reflexivity.
Qed.

(** The rows a transaction produces: keyed by its txid and the position
    of the output, pairwise distinct, unspent. *)
Lemma new_utxos_keys tx :
  UTXO.key <$> new_utxos tx
  = (fun i => (Transaction.txid tx, Z.of_nat i))
      <$> seq 0 (length (Transaction.outputs tx)).
Proof.
  unfold new_utxos. rewrite fmap_imap.
  rewrite <- (imap_seq_0 (Transaction.outputs tx)
                (fun i => (Transaction.txid tx, Z.of_nat i))).
  apply imap_ext. intros i o _. reflexivity.
Qed.

Lemma new_utxos_NoDup tx : NoDup (UTXO.key <$> new_utxos tx).
Proof.
  rewrite new_utxos_keys. apply NoDup_fmap_2_strong; [|apply NoDup_seq].
  intros i j _ _ [= E]. lia.
Qed.

Lemma new_utxos_txid tx u :
  In u (new_utxos tx) -> UTXO.txid u = Transaction.txid tx.
Proof.
  rewrite <- list_elem_of_In. unfold new_utxos. intros Hu.
  apply elem_of_lookup_imap in Hu. destruct Hu as (i & o & -> & _).
  reflexivity.
Qed.

Lemma new_utxos_unspent tx u :
  In u (new_utxos tx) -> UTXO.unspent_columns u = u /\ UTXO.is_spent u = false.
Proof.
  rewrite <- list_elem_of_In. unfold new_utxos. intros Hu.
  apply elem_of_lookup_imap in Hu. destruct Hu as (i & o & -> & _).
  split; reflexivity.
Qed.

(** Adding rows under fresh keys: assignment in the dict and
    [INSERT OR IGNORE] in the table do the same. *)
Lemma shape_adds (L : list UTXO.t) (R I : utxo_table) :
  NoDup (UTXO.key <$> L) ->
  (forall u, In u L -> I !! UTXO.key u = None) ->
  (forall u, In u L -> UTXO.unspent_columns u = u) ->
  (forall u, In u L -> PrimFloat.is_nan (UTXO.amount u) = false) ->
  shape <$> R = shape <$> I ->
  shape <$> foldl (fun acc u => <[UTXO.key u := u]> acc) R L
  = shape <$> add_utxos L I.
Proof.
  unfold add_utxos. revert R I.
  induction L as [|u L IH]; intros R I Hnd Hfresh Hcols Hnan Hsim;
    [exact Hsim|].
  cbn [foldl]. rewrite fmap_cons in Hnd. apply NoDup_cons in Hnd.
  destruct Hnd as [Hu Hnd].
  assert (add_utxo u I = <[UTXO.key u := u]> I) as ->.
  { unfold add_utxo. rewrite (Hnan u) by (left; reflexivity).
    rewrite (Hfresh u) by (left; reflexivity).
    rewrite (Hcols u) by (left; reflexivity). reflexivity. }
  apply IH.
  - exact Hnd.
  - intros u' Hu'. rewrite lookup_insert_ne.
    + apply Hfresh. right. exact Hu'.
    + intros E. apply Hu. rewrite E. apply list_elem_of_fmap.
      exists u'. split; [reflexivity|]. apply list_elem_of_In. exact Hu'.
  - intros u' Hu'. apply Hcols. right. exact Hu'.
  - intros u' Hu'. apply Hnan. right. exact Hu'.
  - rewrite !fmap_insert, Hsim. reflexivity.
Qed.

(** Marking an input and inserting a row under another key commute. *)
Lemma mark_spent_add_utxo (I : utxo_table) (t : string) (n : Z)
    (s : string) (i : Z) (u : UTXO.t) :
  (t, n) <> UTXO.key u ->
  marked (add_utxo u I) t n s i = add_utxo u (marked I t n s i).
Proof.
  intros Hne. unfold marked, add_utxo.
  destruct (PrimFloat.is_nan (UTXO.amount u)); [reflexivity|].
  destruct (I !! UTXO.key u) as [v|] eqn:Ev.
  - destruct (I !! (t, n)) as [w|] eqn:Ew; [|rewrite Ev; reflexivity].
    destruct (UTXO.is_spent w); [rewrite Ev; reflexivity|].
    rewrite lookup_insert_ne by exact Hne. rewrite Ev. reflexivity.
  - rewrite lookup_insert_ne by congruence.
    destruct (I !! (t, n)) as [w|] eqn:Ew; [|rewrite Ev; reflexivity].
    destruct (UTXO.is_spent w); [rewrite Ev; reflexivity|].
    rewrite lookup_insert_ne by exact Hne. rewrite Ev.
    apply insert_insert_ne. exact Hne.
Qed.

Lemma mark_spent_add_utxos (L : list UTXO.t) (I : utxo_table)
    (t : string) (n : Z) (s : string) (i : Z) :
  (forall u, In u L -> (t, n) <> UTXO.key u) ->
  marked (add_utxos L I) t n s i = add_utxos L (marked I t n s i).
Proof.
  unfold add_utxos. revert I. induction L as [|u L IH]; intros I Hne;
    [reflexivity|].
  cbn [foldl]. rewrite IH by (intros u' Hu'; apply Hne; right; exact Hu').
  rewrite mark_spent_add_utxo by (apply Hne; left; reflexivity).
  reflexivity.
Qed.

Lemma spend_inputs_add_utxos (L : list UTXO.t) (s : string) (i : Z)
    (ins : list TxInput.t) (I : utxo_table) :
  (forall x u, In x ins -> In u L ->
               (TxInput.txid x, TxInput.output_index x) <> UTXO.key u) ->
  all_marked s i ins (add_utxos L I)
  = add_utxos L (all_marked s i ins I).
Proof.
  revert i I. induction ins as [|x ins IH]; intros i I Hne; [reflexivity|].
  cbn [all_marked].
  rewrite mark_spent_add_utxos
    by (intros u Hu; apply Hne; [left; reflexivity | exact Hu]).
  apply IH. intros x' u Hx' Hu. apply Hne; [right; exact Hx' | exact Hu].
Qed.

(** Invariant of the table: every row belongs to a transaction already
    applied, an unspent row has both spent columns NULL, and the amount
    of a row is not NULL. *)
Definition row_ok (ids : list string) (k : string * Z) (v : UTXO.t) : Prop :=
  In (fst k) ids /\ (UTXO.is_spent v = false -> UTXO.unspent_columns v = v) /\
  PrimFloat.is_nan (UTXO.amount v) = false.

(** Invariant of the dict: every entry sits under its own key. *)
Definition entry_ok (k : string * Z) (u : UTXO.t) : Prop := UTXO.key u = k.

Lemma row_ok_mark_spent (ids : list string) (I : utxo_table)
    (t : string) (n : Z) (s : string) (i : Z) :
  map_Forall (row_ok ids) I ->
  map_Forall (row_ok ids) (marked I t n s i).
Proof.
  intros HI. unfold marked.
  destruct (I !! (t, n)) as [w|] eqn:Ew; [|exact HI].
  destruct (UTXO.is_spent w); [exact HI|].
  apply map_Forall_insert_2; [|exact HI].
  destruct (HI _ _ Ew) as (Hin & _ & Hnan). split; [exact Hin|].
  split; [discriminate | exact Hnan].
Qed.

Lemma row_ok_spend_inputs (ids : list string) (s : string) (i : Z) (ins : list TxInput.t)
    (I : utxo_table) :
  map_Forall (row_ok ids) I ->
  map_Forall (row_ok ids) (all_marked s i ins I).
Proof.
  revert i I. induction ins as [|x ins IH]; intros i I HI; [exact HI|].
  cbn [all_marked]. apply IH, row_ok_mark_spent, HI.
Qed.

Lemma row_ok_add_utxos (ids : list string) (L : list UTXO.t) (I : utxo_table) :
  (forall u, In u L -> In (UTXO.txid u) ids) ->
  map_Forall (row_ok ids) I ->
  map_Forall (row_ok ids) (add_utxos L I).
Proof.
  unfold add_utxos. revert I. induction L as [|u L IH]; intros I HL HI;
    [exact HI|].
  cbn [foldl]. apply IH; [intros u' Hu'; apply HL; right; exact Hu'|].
  unfold add_utxo.
  destruct (PrimFloat.is_nan (UTXO.amount u)) eqn:En; [exact HI|].
  destruct (I !! UTXO.key u); [exact HI|].
  apply map_Forall_insert_2; [|exact HI].
  split; [apply HL; left; reflexivity|].
  split; [intros _; reflexivity | exact En].
Qed.

Lemma row_ok_weaken (ids : list string) (id : string) (I : utxo_table) :
  map_Forall (row_ok ids) I -> map_Forall (row_ok (id :: ids)) I.
Proof.
  intros HI. eapply map_Forall_impl; [exact HI|].
  intros k v (Hin & Hwf & Hnan). split; [right; exact Hin|].
  split; assumption.
Qed.

Lemma entry_ok_record_outputs (tx : Transaction.t) (R : utxo_table) :
  map_Forall entry_ok R -> map_Forall entry_ok (record_outputs tx R).
Proof.
  unfold record_outputs. generalize (new_utxos tx). intros L. revert R.
  induction L as [|u L IH]; intros R HR; [exact HR|].
  cbn [foldl]. apply IH. apply map_Forall_insert_2; [reflexivity | exact HR].
Qed.

Lemma entry_ok_record_spends (s : string) (i : Z) (ins : list TxInput.t)
    (R : utxo_table) :
  map_Forall entry_ok R -> map_Forall entry_ok (record_spends s i ins R).
Proof.
  revert i R. induction ins as [|x ins IH]; intros i R HR; [exact HR|].
  cbn [record_spends]. apply IH. intros k u Hk.
  apply lookup_alter_Some in Hk.
  destruct Hk as [(_ & w & Hw & ->)|[_ Hk]]; [exact (HR _ _ Hw)|exact (HR _ _ Hk)].
Qed.

(** How the two sides stand after the same steps: both returned, with
    stores of the same shape and the invariants, or both raised the same
    exception. *)
Definition in_step (ids : list string) (r m : outcome utxo_table) : Prop :=
  match r, m with
  | Returns dict, Returns table =>
      shape <$> dict = shape <$> table /\
      map_Forall (row_ok ids) table /\ map_Forall entry_ok dict
  | Raises e, Raises e' => e = e'
  | _, _ => False
  end.

(** The amounts paid by the transaction are numbers, and the indices of
    its inputs are integers SQLite can bind. *)
Definition storable (tx : Transaction.t) : Prop :=
  Forall (fun o => PrimFloat.is_nan (TxOutput.amount o) = false)
         (Transaction.outputs tx) /\
  inputs_bind (Transaction.inputs tx).

Lemma new_utxos_amount tx u :
  In u (new_utxos tx) ->
  exists o, In o (Transaction.outputs tx) /\ UTXO.amount u = TxOutput.amount o.
Proof.
  rewrite <- list_elem_of_In. unfold new_utxos. intros Hu.
  apply elem_of_lookup_imap in Hu. destruct Hu as (i & o & -> & Ho).
  exists o. split; [|reflexivity].
  apply list_elem_of_In. eapply list_elem_of_lookup_2. exact Ho.
Qed.

(** One transaction. *)
Lemma in_step_tx (ids : list string) (tx : Transaction.t)
    (R I : utxo_table) :
  shape <$> R = shape <$> I ->
  map_Forall (row_ok ids) I ->
  map_Forall entry_ok R ->
  ~ In (Transaction.txid tx) ids ->
  no_self_spend tx ->
  storable tx ->
  in_step (Transaction.txid tx :: ids)
          (rebuild_tx R tx) (update_utxo_tx true I tx).
Proof.
  intros Hsim HI HR Hnew Hself [Hnum Hbind].
  assert (forall u, In u (new_utxos tx) ->
                    PrimFloat.is_nan (UTXO.amount u) = false) as Hnan.
  { intros u Hu. destruct (new_utxos_amount tx u Hu) as (o & Ho & ->).
    rewrite Forall_forall in Hnum. apply Hnum, list_elem_of_In, Ho. }
  assert (forall u, In u (new_utxos tx) -> I !! UTXO.key u = None) as Hfresh.
  { intros u Hu. destruct (I !! UTXO.key u) as [v|] eqn:Ev; [|reflexivity].
    exfalso. apply Hnew. destruct (HI _ _ Ev) as [Hin _].
    cbn [UTXO.key fst] in Hin. rewrite <- (new_utxos_txid tx u Hu). exact Hin. }
  assert (shape <$> record_outputs tx R = shape <$> add_utxos (new_utxos tx) I)
    as Hadds.
  { apply shape_adds;
      [apply new_utxos_NoDup | exact Hfresh | | exact Hnan | exact Hsim].
    intros u Hu. apply (new_utxos_unspent tx u Hu). }
  assert (forall J : utxo_table,
            map_Forall (row_ok ids) J ->
            map_Forall (row_ok (Transaction.txid tx :: ids))
                       (add_utxos (new_utxos tx) J)) as Hrows.
  { intros J HJ. apply row_ok_add_utxos; [|apply row_ok_weaken, HJ].
    intros u Hu. left. symmetry. apply new_utxos_txid. exact Hu. }
  unfold rebuild_tx, update_utxo_tx, in_step.
  destruct (Transaction.inputs tx) as [|first rest] eqn:Eins; [reflexivity|].
  rewrite <- Eins in Hbind |- *.
  destruct (negb (String.eqb (TxInput.txid first) ZERO128)).
  - rewrite (spend_inputs_marked _ _ _ _ Hbind).
    cbn [mbind outcome_bind Py.bind]. split; [|split].
    + rewrite <- spend_inputs_add_utxos by exact Hself.
      apply shape_spends. exact Hadds.
    + apply Hrows, row_ok_spend_inputs, HI.
    + apply entry_ok_record_spends, entry_ok_record_outputs, HR.
  - cbn [mbind outcome_bind Py.bind].
    split; [exact Hadds|]. split; [apply Hrows, HI|].
    apply entry_ok_record_outputs, HR.
Qed.

(** A list of transactions with txids distinct from one another and from
    those already applied. *)
Lemma in_step_txs (txs : list Transaction.t) :
  forall (ids : list string) (R I : utxo_table),
  shape <$> R = shape <$> I ->
  map_Forall (row_ok ids) I ->
  map_Forall entry_ok R ->
  NoDup (List.map Transaction.txid txs) ->
  (forall tx, In tx txs -> ~ In (Transaction.txid tx) ids) ->
  Forall no_self_spend txs ->
  Forall storable txs ->
  in_step (rev (List.map Transaction.txid txs) ++ ids)
          (rebuild_txs R txs) (update_utxo_txs true I txs).
Proof.
  induction txs as [|tx txs IH];
    intros ids R I Hsim HI HR Hnd Hdis Hself Hstore.
  - cbn. auto.
  - cbn [rebuild_txs update_utxo_txs List.map rev].
    apply NoDup_cons in Hnd. destruct Hnd as [Htx Hnd].
    apply Forall_cons in Hself. destruct Hself as [Hs Hself].
    apply Forall_cons in Hstore. destruct Hstore as [Hst Hstore].
    pose proof (in_step_tx ids tx R I Hsim HI HR
                  (Hdis tx (or_introl eq_refl)) Hs Hst) as Hstep.
    unfold in_step in Hstep.
    destruct (rebuild_tx R tx) as [R'|e|], (update_utxo_tx true I tx) as [I'|e'|];
      try contradiction.
    + destruct Hstep as (Hsim' & HI' & HR').
      cbn [mbind outcome_bind Py.bind]. rewrite <- app_assoc. cbn [app].
      apply IH; try assumption.
      intros tx' Hin [E|Hids].
      * apply Htx. rewrite E. apply list_elem_of_In, in_map. exact Hin.
      * apply (Hdis tx'); [right; exact Hin | exact Hids].
    + cbn. exact Hstep.
Qed.

(** Both replays go through the transactions of the chain in order. *)
Lemma rebuild_txs_app (txs1 txs2 : list Transaction.t) (R : utxo_table) :
  rebuild_txs R (txs1 ++ txs2)
  = (rebuild_txs R txs1 ≫= fun R' => rebuild_txs R' txs2).
Proof.
  revert R. induction txs1 as [|tx txs1 IH]; intros R; [reflexivity|].
  cbn [app rebuild_txs]. destruct (rebuild_tx R tx) as [R'| |]; cbn;
    [apply IH | reflexivity..].
Qed.

Lemma rebuild_blocks_all_txs (chain : list Block.t) (R : utxo_table) :
  rebuild_blocks R chain = rebuild_txs R (all_txs chain).
Proof.
  revert R. induction chain as [|block chain IH]; intros R; [reflexivity|].
  unfold all_txs. cbn [rebuild_blocks List.map concat].
  rewrite rebuild_txs_app.
  destruct (rebuild_txs R (Block.transactions block)) as [R'| |]; cbn;
    [apply IH | reflexivity..].
Qed.

Lemma update_utxo_txs_app (txs1 txs2 : list Transaction.t) (db : utxo_table) :
  update_utxo_txs true db (txs1 ++ txs2)
  = (update_utxo_txs true db txs1 ≫= fun db' => update_utxo_txs true db' txs2).
Proof.
  revert db. induction txs1 as [|tx txs1 IH]; intros db; [reflexivity|].
  cbn [app update_utxo_txs]. destruct (update_utxo_tx true db tx) as [db'| |];
    cbn; [apply IH | reflexivity..].
Qed.

Lemma apply_blocks_all_txs (chain : list Block.t) (self : QuantumLedger.t) :
  apply_blocks self chain
  = (update_utxo_txs true (QuantumLedger.udb self) (all_txs chain)
       ≫= fun db => Returns (QuantumLedger.set_udb db self)).
Proof.
  revert self. induction chain as [|block chain IH]; intros self.
  - destruct self; reflexivity.
  - unfold all_txs. cbn [apply_blocks List.map concat].
    rewrite update_utxo_txs_app. unfold _update_utxo_set.
    destruct (update_utxo_txs true (QuantumLedger.udb self)
                (Block.transactions block)) as [db'| |]; cbn;
      [|reflexivity..].
    rewrite IH. cbn [QuantumLedger.udb QuantumLedger.set_udb].
    destruct (update_utxo_txs true db' _) as [db''| |]; cbn; reflexivity.
Qed.

(** [INSERT OR IGNORE] of a list into a table, as a union: rows already
    there stay, rows with a NaN amount are dropped, and the first of two
    rows with one key wins. *)
Lemma add_utxos_union (L : list UTXO.t) (db : utxo_table) :
  add_utxos L db
  = db ∪ list_to_map
           ((fun u => (UTXO.key u, UTXO.unspent_columns u))
              <$> List.filter (fun u => negb (PrimFloat.is_nan (UTXO.amount u)))
                              L).
Proof.
  unfold add_utxos. revert db. induction L as [|u L IH]; intros db.
  - cbn. rewrite (right_id_L ∅ (∪)). reflexivity.
  - cbn [foldl List.filter]. rewrite IH.
    destruct (PrimFloat.is_nan (UTXO.amount u)) eqn:En; cbn [negb];
      [unfold add_utxo; rewrite En; reflexivity|].
    rewrite fmap_cons, list_to_map_cons.
    rewrite insert_union_singleton_l, (assoc_L (∪)). f_equal.
    unfold add_utxo. rewrite En.
    destruct (db !! UTXO.key u) as [v|] eqn:Ev.
    + apply map_eq. intros k. rewrite lookup_union.
      destruct (decide (k = UTXO.key u)) as [->|Hne].
      * rewrite Ev, lookup_singleton_eq. reflexivity.
      * rewrite lookup_singleton_ne by congruence.
        destruct (db !! k); reflexivity.
    + apply insert_union_singleton_r. exact Ev.
Qed.

(** The rows of the dict that reach the table at the end of
    [rebuild_utxo_set]: unspent, with an amount that is not NaN. *)
Definition written_rows (R : utxo_table) : utxo_table :=
  filter (fun kv => PrimFloat.is_nan (UTXO.amount (snd kv)) = false)
         (unspent_rows R).

(** The table written at the end of [rebuild_utxo_set]: those entries of
    the dict, with their four columns. *)
Lemma rebuilt_table (R : utxo_table) :
  map_Forall entry_ok R ->
  add_utxos (List.filter (fun u => negb (UTXO.is_spent u)) (map_to_list R).*2) ∅
  = UTXO.unspent_columns <$> written_rows R.
Proof.
  intros HR. rewrite add_utxos_union, (left_id_L ∅ (∪)).
  set (l := List.filter _ (List.filter _ _)).
  assert (forall k c,
            (k, c) ∈ (fun u => (UTXO.key u, UTXO.unspent_columns u)) <$> l <->
            exists u, R !! k = Some u /\ UTXO.is_spent u = false /\
                      PrimFloat.is_nan (UTXO.amount u) = false /\
                      c = UTXO.unspent_columns u) as Hmem.
  { intros k c. rewrite list_elem_of_fmap. unfold l. split.
    - intros (u & [= -> ->] & Hu). apply list_elem_of_In, filter_In in Hu.
      destruct Hu as [Hu Hn]. apply filter_In in Hu.
      destruct Hu as [Hu Hs]. apply list_elem_of_In, list_elem_of_fmap in Hu.
      destruct Hu as ([k' u'] & -> & Hk). apply elem_of_map_to_list in Hk.
      cbn [snd] in *. exists u'. rewrite <- (HR _ _ Hk) in Hk.
      split; [exact Hk|]. split; [|split; [|reflexivity]].
      + destruct (UTXO.is_spent u'); [discriminate | reflexivity].
      + destruct (PrimFloat.is_nan (UTXO.amount u'));
          [discriminate | reflexivity].
    - intros (u & Hk & Hs & Hn & ->). exists u. split.
      + rewrite (HR _ _ Hk). reflexivity.
      + apply list_elem_of_In, filter_In. split.
        * apply filter_In. split.
          -- apply list_elem_of_In, list_elem_of_fmap. exists (k, u).
             split; [reflexivity|]. apply elem_of_map_to_list. exact Hk.
          -- rewrite Hs. reflexivity.
        * rewrite Hn. reflexivity. }
  assert (NoDup ((fun u => (UTXO.key u, UTXO.unspent_columns u)) <$> l).*1)
    as Hnd.
  { rewrite <- list_fmap_compose.
    assert (Hfilter : forall (f : UTXO.t -> bool) xs, sublist (List.filter f xs) xs).
    { intros f xs. induction xs as [|x xs IH]; cbn; [constructor|].
      destruct (f x); constructor; exact IH. }
    assert (Hsub : sublist l (map_to_list R).*2).
    { unfold l. etransitivity; apply Hfilter. }
    eapply sublist_NoDup; [|apply fmap_sublist, Hsub].
    rewrite <- list_fmap_compose.
    rewrite (list_fmap_ext _ fst (map_to_list R)).
    - apply NoDup_fst_map_to_list.
    - intros i [k u] Hi. cbn.
      apply list_elem_of_lookup_2, elem_of_map_to_list in Hi.
      apply (HR _ _ Hi). }
  apply map_eq. intros k. unfold written_rows, unspent_rows.
  rewrite lookup_fmap.
  destruct (list_to_map _ !! k) as [c|] eqn:Ec.
  - apply elem_of_list_to_map in Ec; [|exact Hnd].
    apply Hmem in Ec. destruct Ec as (u & Hk & Hs & Hn & ->).
    rewrite (map_lookup_filter_Some_2 _ _ k u); [reflexivity| |exact Hn].
    apply map_lookup_filter_Some_2; assumption.
  - destruct (filter _ (filter _ R) !! k) as [u|] eqn:Eu; [|reflexivity].
    apply map_lookup_filter_Some in Eu. destruct Eu as [Eu Hn].
    apply map_lookup_filter_Some in Eu. destruct Eu as [Hk Hs].
    cbn [snd] in Hs, Hn.
    assert ((k, UTXO.unspent_columns u)
            ∈ (fun u => (UTXO.key u, UTXO.unspent_columns u)) <$> l) as Hin
      by (apply Hmem; exists u; auto).
    apply elem_of_list_to_map in Hin; [|exact Hnd]. congruence.
Qed.

(** Stores of the same shape have the same unspent rows, once the spent
    columns of the table's unspent rows are known to be NULL. *)
Lemma unspent_rows_of_shape (ids : list string) (R I : utxo_table) :
  shape <$> R = shape <$> I ->
  map_Forall (row_ok ids) I ->
  UTXO.unspent_columns <$> unspent_rows R = unspent_rows I.
Proof.
  intros Hsim HI. apply map_eq. intros k. unfold unspent_rows.
  rewrite lookup_fmap.
  pose proof (f_equal (fun m => m !! k) Hsim) as Hk. cbn beta in Hk.
  rewrite !lookup_fmap in Hk.
  destruct (R !! k) as [u|] eqn:Eu, (I !! k) as [v|] eqn:Ev;
    cbn in Hk; try discriminate.
  - assert (shape u = shape v) as Hsh by congruence.
    pose proof (f_equal fst Hsh) as Hcols.
    pose proof (f_equal snd Hsh) as Hspent.
    unfold shape in Hcols, Hspent. cbn [fst snd] in Hcols, Hspent.
    destruct (UTXO.is_spent u) eqn:Es.
    + rewrite (map_lookup_filter_None_2 _ R k), (map_lookup_filter_None_2 _ I k);
        [reflexivity| |]; right; intros w Hw; cbn [snd]; congruence.
    + rewrite (map_lookup_filter_Some_2 _ R k u Eu Es).
      assert (UTXO.is_spent v = false) as Es' by congruence.
      rewrite (map_lookup_filter_Some_2 _ I k v Ev Es'). cbn.
      f_equal. rewrite Hcols. apply (HI _ _ Ev). exact Es'.
  - rewrite (map_lookup_filter_None_2 _ R k), (map_lookup_filter_None_2 _ I k);
      [reflexivity| |]; left; assumption.
Qed.

Lemma unspent_rows_idemp (I : utxo_table) :
  unspent_rows (unspent_rows I) = unspent_rows I.
Proof.
  unfold unspent_rows. apply map_eq. intros k.
  destruct (filter _ I !! k) as [v|] eqn:Ev.
  - apply map_lookup_filter_Some in Ev as Hv. destruct Hv as [_ Hs].
    apply map_lookup_filter_Some_2; assumption.
  - apply map_lookup_filter_None_2. left. exact Ev.
Qed.

(** The replay returns exactly when every transaction has an input. *)
Lemma rebuild_txs_outcome (txs : list Transaction.t) (R : utxo_table) :
  match rebuild_txs R txs with
  | Returns _ => Forall (fun tx => Transaction.inputs tx <> []) txs
  | Raises e => e = IndexError /\
                Exists (fun tx => Transaction.inputs tx = []) txs
  | Unfinished => False
  end.
Proof.
  revert R. induction txs as [|tx txs IH]; intros R; [cbn; constructor|].
  cbn [rebuild_txs]. unfold rebuild_tx.
  destruct (Transaction.inputs tx) as [|first rest] eqn:Eins.
  - cbn. split; [reflexivity|]. left. exact Eins.
  - destruct (negb (String.eqb (TxInput.txid first) ZERO128));
      cbn [mbind outcome_bind Py.bind];
      match goal with
      | |- context [rebuild_txs ?R' txs] =>
          specialize (IH R'); destruct (rebuild_txs R' txs) as [R''|e|]
      end;
      try exact IH;
      try (constructor; [rewrite Eins; discriminate | exact IH]);
      destruct IH as [-> IH]; (split; [reflexivity | right; exact IH]).
Qed.

Lemma written_rows_of_shape (ids : list string) (R I : utxo_table) :
  shape <$> R = shape <$> I ->
  map_Forall (row_ok ids) I ->
  written_rows R = unspent_rows R.
Proof.
  intros Hsim HI. unfold written_rows. apply map_filter_id.
  intros k u Hu. cbn [snd]. unfold unspent_rows in Hu.
  apply map_lookup_filter_Some in Hu. destruct Hu as [Hk _].
  pose proof (f_equal (fun m => m !! k) Hsim) as Hs. cbn beta in Hs.
  rewrite !lookup_fmap, Hk in Hs.
  destruct (I !! k) as [v|] eqn:Ev; cbn in Hs; [|discriminate].
  assert (shape u = shape v) as Hsh by congruence.
  pose proof (f_equal (fun c => UTXO.amount (fst c)) Hsh) as Ha.
  cbn in Ha. rewrite Ha. apply (HI _ _ Ev).
Qed.

(** Where the two ways of computing the store do agree.  On a chain whose
    transactions have pairwise distinct txids, never spend an output of
    their own, pay amounts that are numbers and name outputs by indices
    within 64 bits, rebuilding the store from the chain and maintaining
    it block by block (spending enabled, from an empty store) agree:
    either both return, every transaction having an input, and the
    rebuilt store is exactly the set of unspent rows of the maintained
    one, or both raise [IndexError] at a transaction without inputs. *)
Theorem rebuild_matches_incremental self :
  let txs := all_txs (QuantumLedger.chain self) in
  NoDup (List.map Transaction.txid txs) ->
  Forall no_self_spend txs ->
  Forall storable txs ->
  match rebuild_utxo_set self,
        apply_blocks (QuantumLedger.set_udb ∅ self) (QuantumLedger.chain self)
  with
  | Returns rebuilt, Returns maintained =>
      QuantumLedger.udb rebuilt = unspent_rows (QuantumLedger.udb maintained) /\
      unspent_rows (QuantumLedger.udb rebuilt)
      = unspent_rows (QuantumLedger.udb maintained) /\
      Forall (fun tx => Transaction.inputs tx <> []) txs
  | Raises e, Raises e' =>
      e = IndexError /\ e' = IndexError /\
      Exists (fun tx => Transaction.inputs tx = []) txs
  | _, _ => False
  end.
Proof.
  intros txs Hnd Hself Hstore.
  unfold rebuild_utxo_set. rewrite rebuild_blocks_all_txs, apply_blocks_all_txs.
  fold txs. cbn [QuantumLedger.udb QuantumLedger.set_udb clear_all].
  pose proof (in_step_txs txs [] ∅ ∅ eq_refl (map_Forall_empty _)
                (map_Forall_empty _) Hnd (fun _ _ H => H) Hself Hstore)
    as Hstep.
  pose proof (rebuild_txs_outcome txs ∅) as Hout.
  unfold in_step in Hstep.
  destruct (rebuild_txs ∅ txs) as [R|e|],
           (update_utxo_txs true ∅ txs) as [T|e'|];
    cbn [mbind outcome_bind Py.bind]; try contradiction.
  - destruct Hstep as (Hsim & HT & HR).
    cbn [QuantumLedger.udb QuantumLedger.set_udb]. unfold clear_all.
    assert (add_utxos
              (List.filter (fun u => negb (UTXO.is_spent u)) (map_to_list R).*2)
              ∅ = unspent_rows T) as ->.
    { rewrite (rebuilt_table R HR), (written_rows_of_shape _ R T Hsim HT).
      exact (unspent_rows_of_shape _ R T Hsim HT). }
    split; [reflexivity|]. split; [apply unspent_rows_idemp | exact Hout].
  - destruct Hout as [-> Hex]. subst e'. auto.
Qed.

(* ===================================================================== *)
(** * Further properties of the stores (db_manager.py) *)
(* ===================================================================== *)

(** ** The UTXO table *)



(** [get_unspent_outputs] returns exactly the unspent rows, restricted to
    the address when one is given; an empty address string, like no
    address, selects every unspent row. *)
Theorem get_unspent_outputs_members (db : utxo_table)
    (address : option string) (u : UTXO.t) :
  u ∈ get_unspent_outputs db address <->
  (exists k, db !! k = Some u) /\
  UTXO.is_spent u = false /\
  (forall a, address = Some a -> a <> EmptyString -> UTXO.address u = a).
Proof.
  unfold get_unspent_outputs, unspent_rows.
  rewrite list_elem_of_fmap. split.
  - intros ([k u'] & -> & Hin). apply elem_of_map_to_list in Hin. cbn [snd].
    destruct address as [a|]; [destruct a as [|c a]; cbn [Py.str_truthy] in Hin|].
    + apply map_lookup_filter_Some in Hin. destruct Hin as [Hk Hu].
      split; [eauto|]. split; [exact Hu|]. intros a [= <-] Hne. congruence.
    + apply map_lookup_filter_Some in Hin. destruct Hin as [Hin Ha].
      apply map_lookup_filter_Some in Hin. destruct Hin as [Hk Hu].
      split; [eauto|]. split; [exact Hu|]. intros a' [= <-] _. exact Ha.
    + apply map_lookup_filter_Some in Hin. destruct Hin as [Hk Hu].
      split; [eauto|]. split; [exact Hu|]. intros a [=].
  - intros ((k & Hk) & Hu & Ha). exists (k, u). split; [reflexivity|].
    apply elem_of_map_to_list.
    destruct address as [a|]; [destruct a as [|c a]; cbn [Py.str_truthy]|].
    + apply map_lookup_filter_Some. split; assumption.
    + apply map_lookup_filter_Some. split.
      * apply map_lookup_filter_Some. split; assumption.
      * apply Ha; [reflexivity | discriminate].
    + apply map_lookup_filter_Some. split; assumption.
Qed.

(** ** The block table *)

(** The row [save_block] writes for a block. *)
Definition row_of_block (block : Block.t) : BlockRow.t :=
  {| BlockRow.index_id := Block.index block;
     BlockRow.timestamp := Block.timestamp block;
     BlockRow.previous_hash := Block.previous_hash block;
     BlockRow.merkle_root := Block.merkle_root block;
     BlockRow.proof := Block.proof block;
     BlockRow.hash := Block.hash block;
     BlockRow.transactions_json :=
       List.map (fun tx => to_dict tx true) (Block.transactions block) |}.

(** The height and the proof of the block are integers SQLite can bind. *)
Definition block_binds (block : Block.t) : Prop :=
  fits_int64 (Block.index block) = true /\
  fits_int64 (Block.proof block) = true.

(** No stored row has the height or the hash of the block. *)
Definition fresh_in (db : list BlockRow.t) (block : Block.t) : Prop :=
  Forall (fun r => BlockRow.index_id r <> Block.index block /\
                   BlockRow.hash r <> Block.hash block) db.

Lemma conflict_fresh_in (db : list BlockRow.t) (block : Block.t) :
  existsb (fun r => (BlockRow.index_id r =? Block.index block)%Z
                    || String.eqb (BlockRow.hash r) (Block.hash block)) db
  = false <-> fresh_in db block.
Proof.
  unfold fresh_in. rewrite Forall_forall. split.
  - intros E r Hr. apply list_elem_of_In in Hr.
    destruct (Z.eqb_spec (BlockRow.index_id r) (Block.index block)) as [Hi|Hi].
    + exfalso. apply not_true_iff_false in E. apply E.
      apply existsb_exists. exists r. split; [exact Hr|].
      apply orb_true_iff. left. apply Z.eqb_eq. exact Hi.
    + split; [exact Hi|]. intros Hh.
      apply not_true_iff_false in E. apply E.
      apply existsb_exists. exists r. split; [exact Hr|].
      apply orb_true_iff. right. apply String.eqb_eq. exact Hh.
  - intros Hall. apply not_true_iff_false. intros E.
    apply existsb_exists in E. destruct E as (r & Hr & Hc).
    apply list_elem_of_In in Hr. destruct (Hall r Hr) as [Hi Hh].
    apply orb_true_iff in Hc. destruct Hc as [Hc|Hc].
    + apply Z.eqb_eq in Hc. contradiction.
    + apply String.eqb_eq in Hc. contradiction.
Qed.

(** What [save_block] does, case by case. *)
Lemma save_block_outcome (db : list BlockRow.t) (block : Block.t) :
  match save_block db block with
  | Returns (saved, db') =>
      block_binds block /\
      (saved = true <->
       PrimFloat.is_nan (Block.timestamp block) = false /\ fresh_in db block) /\
      db' = (if saved then db ++ [row_of_block block] else db)
  | Raises e => e = OverflowError /\ ~ block_binds block
  | Unfinished => False
  end.
Proof.
  unfold save_block, block_binds. fold (row_of_block block).
  pose proof (conflict_fresh_in db block) as Hfresh.
  destruct (fits_int64 (Block.index block)), (fits_int64 (Block.proof block));
    cbn [andb negb];
    try (split; [reflexivity|]; intros [H1 H2]; discriminate).
  destruct (PrimFloat.is_nan (Block.timestamp block)); cbn [orb].
  - split; [split; reflexivity|]. split; [|reflexivity].
    split; [discriminate | intros [H _]; discriminate].
  - destruct (existsb _ db).
    + split; [split; reflexivity|]. split; [|reflexivity].
      split; [discriminate|]. intros [_ H]. apply Hfresh in H. discriminate.
    + split; [split; reflexivity|]. split; [|reflexivity].
      split; [|reflexivity]. intros _. split; [reflexivity|].
      apply Hfresh. reflexivity.
Qed.

(** [save_block] stores a block exactly when its timestamp is a number and
    no stored row has its height or its hash; it then appends the block's
    row, and otherwise answers false and leaves the table as it is.
    Heights and hashes therefore stay pairwise distinct in the table.  It
    raises, an [OverflowError], exactly when the height or the proof is
    outside 64 bits. *)
Theorem save_block_keeps_keys_unique (db : list BlockRow.t) (block : Block.t) :
  match save_block db block with
  | Returns (saved, db') =>
      block_binds block /\
      (saved = true <->
       PrimFloat.is_nan (Block.timestamp block) = false /\
       Forall (fun r => BlockRow.index_id r <> Block.index block /\
                        BlockRow.hash r <> Block.hash block) db) /\
      (saved = true -> db' = db ++ [row_of_block block]) /\
      (saved = false -> db' = db) /\
      (NoDup (List.map BlockRow.index_id db) ->
       NoDup (List.map BlockRow.index_id db')) /\
      (NoDup (List.map BlockRow.hash db) -> NoDup (List.map BlockRow.hash db'))
  | Raises e => e = OverflowError /\ ~ block_binds block
  | Unfinished => False
  end.
Proof.
  pose proof (save_block_outcome db block) as H.
  destruct (save_block db block) as [[saved db']|e|]; [|exact H..].
  destruct H as (Hbind & Hsaved & ->).
  split; [exact Hbind|]. split; [exact Hsaved|].
  destruct saved.
  - assert (fresh_in db block) as Hall by (apply Hsaved; reflexivity).
    unfold fresh_in in Hall.
    repeat split; try discriminate.
    + intros Hnd. rewrite List.map_app. apply NoDup_app. split; [exact Hnd|].
      split; [|apply NoDup_singleton].
      intros x Hx Hx'. apply list_elem_of_singleton in Hx'. subst x.
      apply list_elem_of_fmap in Hx. destruct Hx as (r & Hr & Hin).
      rewrite Forall_forall in Hall. destruct (Hall r Hin) as [Hi _].
      cbn in Hr. congruence.
    + intros Hnd. rewrite List.map_app. apply NoDup_app. split; [exact Hnd|].
      split; [|apply NoDup_singleton].
      intros x Hx Hx'. apply list_elem_of_singleton in Hx'. subst x.
      apply list_elem_of_fmap in Hx. destruct Hx as (r & Hr & Hin).
      rewrite Forall_forall in Hall. destruct (Hall r Hin) as [_ Hh].
      cbn in Hr. congruence.
  - repeat split; try discriminate; auto.
Qed.

Lemma insert_row_perm (r : BlockRow.t) (l : list BlockRow.t) :
  insert_row r l ≡ₚ r :: l.
Proof.
  induction l as [|r' l IH]; cbn [insert_row]; [reflexivity|].
  destruct (BlockRow.index_id r <=? BlockRow.index_id r')%Z; [reflexivity|].
  rewrite IH. apply Permutation_swap.
Qed.

Lemma insert_row_sorted (r : BlockRow.t) (l : list BlockRow.t) :
  StronglySorted Z.le (List.map BlockRow.index_id l) ->
  StronglySorted Z.le (List.map BlockRow.index_id (insert_row r l)).
Proof.
  induction l as [|r' l IH]; cbn [insert_row List.map]; intros Hs.
  - repeat constructor.
  - apply StronglySorted_inv in Hs. destruct Hs as [Hs Hall].
    destruct (Z.leb_spec (BlockRow.index_id r) (BlockRow.index_id r')) as [Hle|Hlt];
      cbn [List.map].
    + constructor; [constructor; assumption|].
      constructor; [exact Hle|].
      eapply Forall_impl; [exact Hall|]. cbn. intros z Hz. lia.
    + constructor; [apply IH; exact Hs|].
      assert (insert_row r l ≡ₚ r :: l) as Hp by apply insert_row_perm.
      apply (Permutation_map BlockRow.index_id) in Hp.
      rewrite Hp. cbn [List.map]. constructor; [lia | exact Hall].
Qed.

(** [load_all_blocks] returns every stored row once, in ascending order of
    height, whatever the order of insertion. *)
Theorem load_all_blocks_sorted (db : list BlockRow.t) :
  load_all_blocks db ≡ₚ db /\
  StronglySorted Z.le (List.map BlockRow.index_id (load_all_blocks db)).
Proof.
  unfold load_all_blocks. induction db as [|r db [IHp IHs]]; cbn [fold_right].
  - split; [reflexivity | constructor].
  - split.
    + rewrite insert_row_perm, IHp. reflexivity.
    + apply insert_row_sorted. exact IHs.
Qed.

(* ===================================================================== *)
(** * Further properties of the mock scheme (pqc_primitives.py) *)
(* ===================================================================== *)

Lemma append_cons (c : ascii) (s t : string) :
  (String c s ++ t)%string = String c (s ++ t)%string.
Proof. reflexivity. Qed.

Lemma length_append (s t : string) :
  String.length (s ++ t)%string = (String.length s + String.length t)%nat.
Proof.
  induction s as [|c s IH]; [reflexivity|].
  change (S (String.length (s ++ t)%string)
          = S (String.length s + String.length t)).
  f_equal. exact IH.
Qed.

Lemma length_str_repeat_nat (s : string) (n : nat) :
  String.length (Py.str_repeat_nat s n) = (n * String.length s)%nat.
Proof.
  induction n as [|n IH]; cbn [Py.str_repeat_nat]; [reflexivity|].
  rewrite length_append, IH. reflexivity.
Qed.

Lemma length_substring_0 (n : nat) (s : string) :
  (n <= String.length s)%nat -> String.length (String.substring 0 n s) = n.
Proof.
  revert s. induction n as [|n IH]; intros [|c s] Hn; simpl in *;
    try reflexivity; try lia.
  f_equal. apply IH. lia.
Qed.

Lemma substring_0_append (s t : string) :
  String.substring 0 (String.length s) (s ++ t)%string = s.
Proof.
  induction s as [|c s IH]; [destruct t; reflexivity|].
  rewrite append_cons. simpl. f_equal. exact IH.
Qed.

Lemma append_empty_r (s : string) : (s ++ "")%string = s.
Proof.
  induction s as [|c s IH]; [reflexivity|].
  rewrite append_cons. f_equal. exact IH.
Qed.

Lemma substring_0_append_short (n : nat) (s t : string) :
  (n <= String.length s)%nat ->
  String.substring 0 n (s ++ t)%string = String.substring 0 n s.
Proof.
  revert s. induction n as [|n IH]; intros [|c s] Hn;
    rewrite ?append_cons; simpl in *; try lia.
  - destruct t; reflexivity.
  - reflexivity.
  - f_equal. apply IH. lia.
Qed.

Lemma substring_0_nested (a : string) (k j : nat) :
  (j <= k)%nat ->
  String.substring 0 j (String.substring 0 k a) = String.substring 0 j a.
Proof.
  revert a j. induction k as [|k IH]; intros [|c a] [|j] Hj; simpl;
    try reflexivity; try lia.
  f_equal. apply IH. lia.
Qed.

Lemma key_sizes_Dilithium :
  Py.int_of_float (key_size Dilithium * 2 * 1024)%float = Some 5529 /\
  Py.int_of_float (key_size Dilithium * 4 * 1024)%float = Some 11059.
Proof. split; reflexivity. Qed.

(** Signing and verifying compose, and more than they should: the string
    [pqc_sign] returns has the 6758 characters the verifier asks for, so
    [pqc_verify] accepts it under every public key and for every message
    digest.  (SHA3-512 digests have 128 hex characters.) *)
Theorem pqc_sign_accepted_under_any_key (private_key data_hash : string) :
  String.length
    (sha3_512_hex (String.substring 0 100 private_key ++ data_hash)%string)
  = 128%nat ->
  exists signature,
    pqc_sign private_key data_hash = Returns signature /\
    Py.len_str signature = 6758 /\
    forall public_key other_hash,
      pqc_verify public_key other_hash (Some signature) = Returns true.
Proof.
  intros Hlen. unfold pqc_sign, sign, PQC_SIGNATURE_SCHEME.
  rewrite expected_sig_len_Dilithium. eexists. split; [reflexivity|].
  assert (Py.len_str
            (String.substring 0 (Z.to_nat 6758)
               (Py.str_mul
                  (sha3_512_hex
                     (String.substring 0 100 private_key ++ data_hash)%string)
                  100)) = 6758) as Hsig.
  { unfold Py.len_str, Py.str_mul. rewrite length_substring_0; [reflexivity|].
    rewrite length_str_repeat_nat, Hlen. apply Nat.leb_le. reflexivity. }
  split; [exact Hsig|].
  intros public_key other_hash. rewrite pqc_verify_str, Hsig. reflexivity.
Qed.

(** The key pair of [generate_pqc_key_pair]: 5529 and 11059 hex characters,
    each the digest of its seed repeated and cut; in particular the first
    100 characters of the private key, all that [sign] reads of it, are the
    first 100 characters of one digest. *)
Theorem generate_pqc_key_pair_sizes (pub_key_seed priv_key_seed : Z) :
  String.length (sha3_512_hex (Py.str_of_int pub_key_seed)) = 128%nat ->
  String.length (sha3_512_hex (Py.str_of_int priv_key_seed)) = 128%nat ->
  exists pub_key priv_key,
    generate_pqc_key_pair pub_key_seed priv_key_seed
    = Returns (pub_key, priv_key) /\
    Py.len_str pub_key = 5529 /\
    Py.len_str priv_key = 11059 /\
    String.substring 0 128 pub_key
    = sha3_512_hex (Py.str_of_int pub_key_seed) /\
    String.substring 0 100 priv_key
    = String.substring 0 100 (sha3_512_hex (Py.str_of_int priv_key_seed)).
Proof.
  intros Hpub Hpriv.
  unfold generate_pqc_key_pair, generate_key_pair, PQC_SIGNATURE_SCHEME.
  destruct key_sizes_Dilithium as [-> ->]. cbn [Py.str_prefix Z.ltb Z.compare].
  eexists _, _. split; [reflexivity|].
  set (hp := sha3_512_hex (Py.str_of_int pub_key_seed)) in *.
  set (hv := sha3_512_hex (Py.str_of_int priv_key_seed)) in *.
  assert (forall h n, String.length h = 128%nat -> (n <= 12800)%nat ->
            String.length (String.substring 0 n (Py.str_mul h 100)) = n)
    as Hcut.
  { intros h n Hh Hn. apply length_substring_0. unfold Py.str_mul.
    rewrite length_str_repeat_nat, Hh.
    change (Z.to_nat 100 * 128)%nat with 12800%nat. exact Hn. }
  assert (forall h n m, String.length h = 128%nat ->
            (m <= 128)%nat -> (m <= n)%nat ->
            String.substring 0 m (String.substring 0 n (Py.str_mul h 100))
            = String.substring 0 m h) as Hhead.
  { intros h n m Hh Hm Hmn. unfold Py.str_mul.
    change (Z.to_nat 100) with (S 99). cbn [Py.str_repeat_nat].
    generalize (Py.str_repeat_nat h 99). intros t.
    rewrite substring_0_nested by exact Hmn.
    apply substring_0_append_short. lia. }
  unfold Py.len_str. repeat split.
  - rewrite Hcut; [reflexivity | exact Hpub | apply Nat.leb_le; reflexivity].
  - rewrite Hcut; [reflexivity | exact Hpriv | apply Nat.leb_le; reflexivity].
  - rewrite Hhead; [|exact Hpub|lia|apply Nat.leb_le; reflexivity].
    rewrite <- Hpub. rewrite <- (append_empty_r hp) at 2.
    apply substring_0_append.
  - apply Hhead; [exact Hpriv|lia|apply Nat.leb_le; reflexivity].
Qed.

(* ===================================================================== *)
(** * Further properties of transactions (transaction.py) *)
(* ===================================================================== *)

(** ** Dicts and back *)

Lemma TxInput_from_dict_to_dict (i : TxInput.t) :
  TxInput_from_dict (TxInput_to_dict i) = Returns i.
Proof. destruct i as [t n [sg|] [pk|]]; reflexivity. Qed.

Lemma TxOutput_from_dict_to_dict (o : TxOutput.t) :
  TxOutput_from_dict (TxOutput_to_dict o) = Returns o.
Proof. destruct o; reflexivity. Qed.

Lemma mapM_read_back {A B} (to : A -> json) (from : json -> outcome B)
    (back : A -> B) :
  (forall a, from (to a) = Returns (back a)) ->
  forall l, mapM from (List.map to l) = Returns (List.map back l).
Proof.
  intros Hrt. induction l as [|a l IH]; [reflexivity|].
  cbn [List.map mapM]. rewrite Hrt. cbn [mbind outcome_bind Py.bind].
  rewrite IH. reflexivity.
Qed.

(** The record [from_dict] builds from the fields it read and an optional
    [txid] entry. *)
Definition read_back (tx : Transaction.t) (given : option string)
    (now : float) : Transaction.t :=
  let fresh := Transaction_init (Transaction.inputs tx)
                 (Transaction.outputs tx) (Transaction.version tx)
                 (Some (Transaction.timestamp tx)) now in
  {| Transaction.version := Transaction.version fresh;
     Transaction.timestamp := Transaction.timestamp fresh;
     Transaction.inputs := Transaction.inputs fresh;
     Transaction.outputs := Transaction.outputs fresh;
     Transaction._txid := Py.str_or given (_calculate_txid fresh) |}.

Lemma from_dict_of_fields (tx : Transaction.t) (extra : list (string * json))
    (now : float) :
  let data :=
    JDict ([ ("inputs", JList (List.map TxInput_to_dict (Transaction.inputs tx)));
             ("outputs", JList (List.map TxOutput_to_dict (Transaction.outputs tx)));
             ("timestamp", JFloat (Transaction.timestamp tx));
             ("version", JInt (Transaction.version tx)) ] ++ extra)%list in
  Transaction_from_dict data now
  = given ← get_opt_str "txid" data; Returns (read_back tx given now).
Proof.
  cbn zeta. unfold Transaction_from_dict.
  change (get_list "inputs" (JDict _))
    with (Returns (List.map TxInput_to_dict (Transaction.inputs tx))
          : outcome (list json)).
  cbn [mbind outcome_bind Py.bind].
  rewrite (mapM_read_back _ _ id TxInput_from_dict_to_dict), List.map_id.
  cbn [mbind outcome_bind Py.bind].
  change (get_list "outputs" (JDict _))
    with (Returns (List.map TxOutput_to_dict (Transaction.outputs tx))
          : outcome (list json)).
  cbn [mbind outcome_bind Py.bind].
  rewrite (mapM_read_back _ _ id TxOutput_from_dict_to_dict), List.map_id.
  reflexivity.
Qed.

(** A transaction constructed anew from the four fields of another. *)
Definition reread (now : float) (tx : Transaction.t) : Transaction.t :=
  Transaction_init (Transaction.inputs tx) (Transaction.outputs tx)
    (Transaction.version tx) (Some (Transaction.timestamp tx)) now.

Lemma Transaction_from_dict_reread (tx : Transaction.t) (now : float) :
  Transaction_from_dict (to_dict tx true) now = Returns (reread now tx).
Proof.
  pose proof (from_dict_of_fields tx [] now) as H. cbn zeta in H.
  unfold to_dict, to_dict_of. cbn [negb].
  cbn [app] in H. rewrite H. reflexivity.
Qed.

Lemma reread_same (now : float) (tx : Transaction.t) :
  Py.float_truthy (Transaction.timestamp tx) = true ->
  Transaction.txid tx = _calculate_txid tx ->
  reread now tx = tx.
Proof.
  intros Hts Hid. unfold reread, Transaction_init.
  cbn [Py.float_or]. rewrite Hts.
  destruct tx as [v ts ins outs id]. cbn in Hid |- *. f_equal.
  symmetry. exact Hid.
Qed.

(** Reading back the dict of a transaction constructs it anew from its
    four fields: inputs, signatures included, outputs and version come
    back; a timestamp of zero is replaced by the clock; the cached txid is
    not in the dict, the one of the result is recomputed.  So a
    transaction with a non-zero timestamp whose txid is the hash of its
    own canonical form comes back unchanged. *)
Theorem Transaction_from_dict_to_dict (tx : Transaction.t) (now : float) :
  Transaction_from_dict (to_dict tx true) now
  = Returns (reread now tx) /\
  (Py.float_truthy (Transaction.timestamp tx) = true ->
   Transaction.txid tx = _calculate_txid tx ->
   Transaction_from_dict (to_dict tx true) now = Returns tx).
Proof.
  split; [apply Transaction_from_dict_reread|].
  intros Hts Hid. rewrite Transaction_from_dict_reread. f_equal.
  apply reread_same; assumption.
Qed.

(** [from_dict] trusts a [txid] entry: the dict of any transaction, with
    an entry [txid] of any non-empty string added, reads back with that
    string as its txid, whatever the contents. *)
Theorem Transaction_from_dict_trusts_txid (tx : Transaction.t) (s : string)
    (now : float) :
  exists tx',
    Transaction_from_dict (json_dict_set "txid" (JStr s) (to_dict tx true)) now
    = Returns tx' /\
    Transaction.inputs tx' = Transaction.inputs tx /\
    Transaction.outputs tx' = Transaction.outputs tx /\
    Transaction.version tx' = Transaction.version tx /\
    Transaction.txid tx'
    = if Py.str_truthy s then s else _calculate_txid tx'.
Proof.
  exists (read_back tx (Some s) now). split.
  - pose proof (from_dict_of_fields tx [("txid", JStr s)] now) as H.
    cbn zeta in H. exact H.
  - split; [reflexivity|]. split; [reflexivity|]. split; [reflexivity|].
    unfold read_back, Transaction.txid.
    cbn [Transaction._txid Py.str_or].
    destruct (Py.str_truthy s); reflexivity.
Qed.

(** ** Signing an input *)

(** [sign_input] follows Python's indexing.  An index from [0] to
    [len - 1] signs that input, an index from [-len] to [-1] signs the
    input counted from the end, and the other inputs are left alone; an
    index of [len] or more, or below [-len], raises [IndexError].  The
    signature is that of the cached txid. *)
Theorem sign_input_indexing (self : Transaction.t) (input_index : Z)
    (private_key : string) :
  let n := Py.len (Transaction.inputs self) in
  match sign_input self input_index private_key with
  | Returns (signature, self') =>
      - n <= input_index < n /\
      pqc_sign private_key (Transaction.txid self) = Returns signature /\
      self' = Transaction.set_inputs
                (alter (TxInput.set_signature (Some signature))
                       (Z.to_nat (input_index mod n))
                       (Transaction.inputs self)) self
  | Raises e => e = IndexError /\ (input_index < - n \/ n <= input_index)
  | Unfinished => False
  end.
Proof.
  cbn zeta. unfold sign_input, set_input_signature, pqc_sign, sign,
    PQC_SIGNATURE_SCHEME.
  rewrite expected_sig_len_Dilithium.
  set (n := Py.len (Transaction.inputs self)).
  assert (0 <= n) as Hn by (unfold n, Py.len; lia).
  destruct (Z.leb_spec n input_index) as [Hge|Hlt].
  { split; [reflexivity | right; exact Hge]. }
  cbn [mbind outcome_bind Py.bind].
  destruct (Z.ltb_spec input_index 0) as [Hneg|Hpos].
  - destruct (Z.ltb_spec (input_index + n) 0) as [Hlow|Hok];
      cbn [orb mbind outcome_bind Py.bind].
    + split; [reflexivity | left; lia].
    + destruct (Z.leb_spec n (input_index + n)) as [Habs|_]; [lia|].
      cbn [mbind outcome_bind Py.bind].
      split; [lia|]. split; [reflexivity|].
      replace (input_index mod n) with (input_index + n); [reflexivity|].
      apply Z.mod_unique with (q := -1); lia.
  - destruct (Z.ltb_spec input_index 0) as [Habs|_]; [lia|].
    destruct (Z.leb_spec n input_index) as [Habs|_]; [lia|].
    cbn [orb mbind outcome_bind Py.bind].
    split; [lia|]. split; [reflexivity|].
    rewrite Z.mod_small by lia. reflexivity.
Qed.

(** ** Validation *)

(** What [is_valid] asks of one input: the output it names is in the
    store, unspent, owned by the input's public key, and the input carries
    a signature string of the expected length. *)
Definition spendable (db : utxo_table) (i : TxInput.t) : Prop :=
  exists u sig,
    get_utxo_by_id db (TxInput.txid i) (TxInput.output_index i) = Some u /\
    UTXO.is_spent u = false /\
    TxInput.pub_key i = Some (UTXO.address u) /\
    TxInput.signature i = Some sig /\
    Py.len_str sig = 6758.

Lemma check_inputs_spec (db : utxo_table) (data : string)
    (ins : list TxInput.t) (acc s : float) :
  check_inputs db data ins acc = Returns (Some s) <->
  Forall (spendable db) ins /\
  exists amounts, input_amounts db ins = Returns amounts /\
                  s = fold_left PrimFloat.add amounts acc.
Proof.
  revert acc. induction ins as [|i ins IH]; intros acc;
    cbn [check_inputs input_amounts].
  - split.
    + intros [= <-]. split; [constructor|]. exists []. split; reflexivity.
    + intros (_ & amounts & [= <-] & ->). reflexivity.
  - destruct (get_utxo_by_id db (TxInput.txid i) (TxInput.output_index i))
      as [u|] eqn:Eu.
    2:{ split; [discriminate|]. intros (_ & amounts & [=] & _). }
    destruct (UTXO.is_spent u) eqn:Es.
    { split; [discriminate|]. intros (Hall & _).
      apply Forall_cons in Hall. destruct Hall as [(u' & sig & Hu & Hs & _) _].
      rewrite Eu in Hu. injection Hu as <-. congruence. }
    destruct (decide (Some (UTXO.address u) = TxInput.pub_key i)) as [Hpk|Hpk].
    2:{ rewrite (bool_decide_eq_false_2 _ Hpk). cbn [negb].
        split; [discriminate|]. intros (Hall & _).
        apply Forall_cons in Hall.
        destruct Hall as [(u' & sig & Hu & _ & Hk & _) _].
        rewrite Eu in Hu. injection Hu as <-. congruence. }
    rewrite (bool_decide_eq_true_2 _ Hpk). cbn [negb].
    destruct (TxInput.signature i) as [sig|] eqn:Esig.
    2:{ rewrite pqc_verify_none. cbn [mbind outcome_bind Py.bind].
        split; [discriminate|]. intros (Hall & _).
        apply Forall_cons in Hall.
        destruct Hall as [(u' & sig & _ & _ & _ & Hsg & _) _]. congruence. }
    rewrite pqc_verify_str. cbn [mbind outcome_bind Py.bind].
    destruct (Z.eqb_spec (Py.len_str sig) 6758) as [Hlen|Hlen]; cbn [negb].
    2:{ split; [discriminate|]. intros (Hall & _).
        apply Forall_cons in Hall.
        destruct Hall as [(u' & sig' & _ & _ & _ & Hsg & Hl) _]. congruence. }
    rewrite IH. split.
    + intros (Hall & amounts & Ham & ->). split.
      * constructor; [|exact Hall]. exists u, sig. repeat split; auto.
      * exists (UTXO.amount u :: amounts). rewrite Ham. split; reflexivity.
    + intros (Hall & amounts & Ham & ->).
      apply Forall_cons in Hall. destruct Hall as [_ Hall].
      split; [exact Hall|].
      destruct (input_amounts db ins) as [rest| |]; try discriminate.
      injection Ham as <-. exists rest. split; reflexivity.
Qed.

Lemma is_valid_true_spec (tx : Transaction.t) (db : utxo_table) :
  is_valid tx db false = Returns true ->
  exists amounts, input_amounts db (Transaction.inputs tx) = Returns amounts.
Proof.
  unfold is_valid. destruct (Transaction.outputs tx); [discriminate|].
  intros H. apply bind_returns in H. destruct H as ([s|] & Hc & H);
    [|discriminate].
  apply check_inputs_spec in Hc. destruct Hc as (_ & amounts & Ham & _).
  exists amounts. exact Ham.
Qed.

(** [is_valid], on a transaction that is not a coinbase, answers true
    exactly when there is an output, every input is spendable, and the
    amounts of the outputs named by the inputs, summed in order, are not
    below the sum of the output amounts.  Nothing else is looked at:
    neither the message signed, nor whether two inputs name the same
    output, nor the sign of an amount. *)
Theorem is_valid_true_iff (tx : Transaction.t) (db : utxo_table) :
  is_valid tx db false = Returns true <->
  Transaction.outputs tx <> [] /\
  Forall (spendable db) (Transaction.inputs tx) /\
  exists amounts,
    input_amounts db (Transaction.inputs tx) = Returns amounts /\
    (Py.sum amounts
     <? Py.sum (List.map TxOutput.amount (Transaction.outputs tx)))%float
    = false.
Proof.
  unfold is_valid.
  destruct (Transaction.outputs tx) as [|o outs] eqn:Eo.
  { split; [discriminate | intros [H _]; congruence]. }
  set (out_sum := Py.sum (List.map TxOutput.amount (o :: outs))).
  split.
  - intros H. apply bind_returns in H. destruct H as ([s|] & Hc & H);
      [|discriminate].
    apply check_inputs_spec in Hc. destruct Hc as (Hall & amounts & Ham & ->).
    split; [discriminate|]. split; [exact Hall|].
    exists amounts. split; [exact Ham|]. fold (Py.sum amounts) in H.
    destruct (Py.sum amounts <? out_sum)%float; [discriminate | reflexivity].
  - intros (_ & Hall & amounts & Ham & Hsum).
    assert (check_inputs db (Transaction._txid tx) (Transaction.inputs tx) 0
            = Returns (Some (Py.sum amounts))) as ->.
    { apply check_inputs_spec. split; [exact Hall|].
      exists amounts. split; [exact Ham | reflexivity]. }
    cbn [mbind outcome_bind Py.bind]. rewrite Hsum. reflexivity.
Qed.

Lemma input_amounts_repeat (db : utxo_table) (i : TxInput.t) (u : UTXO.t)
    (n : nat) :
  get_utxo_by_id db (TxInput.txid i) (TxInput.output_index i) = Some u ->
  input_amounts db (repeat i n) = Returns (repeat (UTXO.amount u) n).
Proof.
  intros Hu. induction n as [|n IH]; cbn [repeat input_amounts];
    [reflexivity|].
  rewrite Hu, IH. reflexivity.
Qed.

(** An output named by several inputs of one transaction is counted once
    per input: with [n] copies of a spendable input, the transaction is
    valid as soon as [n] times the amount covers the outputs. *)
Theorem is_valid_counts_a_repeated_input (tx : Transaction.t)
    (db : utxo_table) (i : TxInput.t) (u : UTXO.t) (n : nat) :
  Transaction.inputs tx = repeat i n ->
  Transaction.outputs tx <> [] ->
  spendable db i ->
  get_utxo_by_id db (TxInput.txid i) (TxInput.output_index i) = Some u ->
  is_valid tx db false
  = Returns (negb (Py.sum (repeat (UTXO.amount u) n)
                   <? Py.sum (List.map TxOutput.amount
                                       (Transaction.outputs tx)))%float).
Proof.
  intros Hins Hout Hsp Hu. unfold is_valid.
  destruct (Transaction.outputs tx) as [|o outs]; [congruence|].
  assert (check_inputs db (Transaction._txid tx) (Transaction.inputs tx) 0
          = Returns (Some (Py.sum (repeat (UTXO.amount u) n)))) as ->.
  { apply check_inputs_spec. rewrite Hins. split.
    - apply Forall_forall. intros x Hx. apply list_elem_of_In in Hx.
      apply repeat_spec in Hx. subst x. exact Hsp.
    - eexists. split; [apply input_amounts_repeat; exact Hu | reflexivity]. }
  cbn [mbind outcome_bind Py.bind].
  destruct (_ <? _)%float; reflexivity.
Qed.

(* ===================================================================== *)
(** * Further properties of the ledger (ledger.py) *)
(* ===================================================================== *)

(** ** Updating the UTXO store for a block *)

(** Projections of an updated ledger, and the sequencing of calls. *)
Ltac ledger_fields :=
  cbn [QuantumLedger.chain QuantumLedger.ldb QuantumLedger.udb
       QuantumLedger.miner_address QuantumLedger.current_difficulty
       QuantumLedger.pending_transactions QuantumLedger.set_udb
       QuantumLedger.set_ldb QuantumLedger.set_chain
       QuantumLedger.set_current_difficulty
       QuantumLedger.set_pending_transactions
       mbind outcome_bind Py.bind mret outcome_ret].

Lemma spend_inputs_off (spender : string) (i : Z) (ins : list TxInput.t)
    (db : utxo_table) :
  spend_inputs false spender i ins db = Returns db.
Proof.
  revert i. induction ins as [|x ins IH]; intros i; cbn [spend_inputs];
    [reflexivity | apply IH].
Qed.

(** A transaction whose inputs are spent (its first input is not the
    coinbase marker) and one of whose inputs names an output by an index
    outside 64 bits. *)
Definition unbindable (tx : Transaction.t) : Prop :=
  (exists first, head (Transaction.inputs tx) = Some first /\
                 TxInput.txid first <> ZERO128) /\
  ~ inputs_bind (Transaction.inputs tx).

Lemma update_utxo_tx_outcome (is_spend : bool) (db : utxo_table)
    (tx : Transaction.t) :
  match update_utxo_tx is_spend db tx with
  | Returns db' =>
      Transaction.inputs tx <> [] /\
      (is_spend = false -> db' = db) /\
      (is_spend = true -> ~ unbindable tx)
  | Raises e =>
      (e = IndexError /\ Transaction.inputs tx = []) \/
      (e = OverflowError /\ is_spend = true /\ unbindable tx)
  | Unfinished => False
  end.
Proof.
  unfold update_utxo_tx, unbindable.
  destruct (Transaction.inputs tx) as [|first rest] eqn:Eins.
  { left. split; reflexivity. }
  rewrite <- Eins.
  destruct (String.eqb_spec (TxInput.txid first) ZERO128) as [Hz|Hz];
    cbn [negb mbind outcome_bind Py.bind].
  - split; [rewrite Eins; discriminate|]. split.
    + intros ->. reflexivity.
    + intros _ [(f & Hf & Hne) _]. rewrite Eins in Hf. cbn in Hf.
      congruence.
  - destruct is_spend.
    + pose proof (spend_inputs_outcome (Transaction.txid tx) 0
                    (Transaction.inputs tx) db) as Hs.
      destruct (spend_inputs true _ _ _ _) as [db1|e|];
        cbn [mbind outcome_bind Py.bind].
      * destruct Hs as [Hb _]. split; [rewrite Eins; discriminate|].
        split; [discriminate|]. intros _ [_ Hn]. contradiction.
      * destruct Hs as [-> Hn]. right. split; [reflexivity|].
        split; [reflexivity|]. split; [|exact Hn].
        exists first. rewrite Eins. split; [reflexivity | exact Hz].
      * exact Hs.
    + rewrite spend_inputs_off. cbn [mbind outcome_bind Py.bind].
      split; [rewrite Eins; discriminate|]. split; [reflexivity|].
      discriminate.
Qed.

Lemma update_utxo_txs_outcome (is_spend : bool) (txs : list Transaction.t)
    (db : utxo_table) :
  match update_utxo_txs is_spend db txs with
  | Returns db' =>
      Forall (fun tx => Transaction.inputs tx <> []) txs /\
      (is_spend = false -> db' = db) /\
      (is_spend = true -> Forall (fun tx => ~ unbindable tx) txs)
  | Raises e =>
      (e = IndexError /\ Exists (fun tx => Transaction.inputs tx = []) txs) \/
      (e = OverflowError /\ is_spend = true /\ Exists unbindable txs)
  | Unfinished => False
  end.
Proof.
  revert db. induction txs as [|tx txs IH]; intros db.
  - cbn. split; [constructor|]. split; [reflexivity | constructor].
  - cbn [update_utxo_txs].
    pose proof (update_utxo_tx_outcome is_spend db tx) as Htx.
    destruct (update_utxo_tx is_spend db tx) as [db1|e|];
      cbn [mbind outcome_bind Py.bind].
    + destruct Htx as (Hin & Hoff & Hb). specialize (IH db1).
      destruct (update_utxo_txs is_spend db1 txs) as [db'|e|].
      * destruct IH as (Hall & Hoff' & Hb'). split; [constructor; assumption|].
        split.
        -- intros Hs. rewrite (Hoff' Hs). apply Hoff, Hs.
        -- intros Hs. constructor; [apply Hb, Hs | apply Hb', Hs].
      * destruct IH as [[-> Hex]|(-> & Hs & Hex)].
        -- left. split; [reflexivity | right; exact Hex].
        -- right. split; [reflexivity|]. split; [exact Hs | right; exact Hex].
      * exact IH.
    + destruct Htx as [[-> Hex]|(-> & Hs & Hex)].
      * left. split; [reflexivity | left; exact Hex].
      * right. split; [reflexivity|]. split; [exact Hs | left; exact Hex].
    + exact Htx.
Qed.

Lemma set_udb_same (self : QuantumLedger.t) :
  QuantumLedger.set_udb (QuantumLedger.udb self) self = self.
Proof. destruct self; reflexivity. Qed.

(** [_update_utxo_set] reads [tx.inputs[0]] of every transaction and, with
    [is_spend=True], binds the index of every input it spends.  It returns
    exactly when every transaction of the block has an input and, with
    [is_spend=True], no transaction that spends names an output by an
    index outside 64 bits; otherwise it raises [IndexError] at a
    transaction without inputs or [OverflowError] at such an index,
    whichever comes first, and nothing else.  Only the UTXO store can
    change; and when called with [is_spend=False], as
    [create_genesis_block] does, it changes nothing at all. *)
Theorem _update_utxo_set_outcome (self : QuantumLedger.t) (block : Block.t)
    (is_spend : bool) :
  match _update_utxo_set self block is_spend with
  | Returns self' =>
      Forall (fun tx => Transaction.inputs tx <> [])
             (Block.transactions block) /\
      (is_spend = true ->
       Forall (fun tx => ~ unbindable tx) (Block.transactions block)) /\
      update_utxo_txs is_spend (QuantumLedger.udb self)
                      (Block.transactions block)
      = Returns (QuantumLedger.udb self') /\
      self' = QuantumLedger.set_udb (QuantumLedger.udb self') self /\
      (is_spend = false -> self' = self)
  | Raises e =>
      (e = IndexError /\
       Exists (fun tx => Transaction.inputs tx = [])
              (Block.transactions block)) \/
      (e = OverflowError /\ is_spend = true /\
       Exists unbindable (Block.transactions block))
  | Unfinished => False
  end.
Proof.
  unfold _update_utxo_set.
  pose proof (update_utxo_txs_outcome is_spend (Block.transactions block)
                (QuantumLedger.udb self)) as H.
  destruct (update_utxo_txs is_spend (QuantumLedger.udb self)
              (Block.transactions block)) as [db'|e|];
    cbn [mbind outcome_bind Py.bind]; [|exact H..].
  destruct H as (Hall & Hoff & Hb). split; [exact Hall|].
  split; [exact Hb|].
  split; [reflexivity|]. split; [reflexivity|].
  intros Hs. rewrite (Hoff Hs). apply set_udb_same.
Qed.

(** ** A block received from a peer *)

(** [add_block_from_peer] accepts a block exactly when its [previous_hash]
    is the hash of the tip, its stored hash starts with
    [current_difficulty] zeros, its timestamp is not NaN and the table has
    no row with its height or hash.  It then appends the block, stores its
    row, updates the UTXO store and drops from the mempool the
    transactions with a txid of the block.  A refusal leaves the node as
    it was.  The height of the block, its Merkle root, the relation of its
    hash to its contents and the validity of its transactions are not
    looked at.  The call raises [IndexError] on an empty chain or on a
    block with a transaction without inputs, [OverflowError] on a block
    whose height or proof, or an index named by one of its spending
    transactions, is outside 64 bits, and nothing else. *)
Theorem add_block_from_peer_effect (self : QuantumLedger.t) (block : Block.t) :
  let linked :=
    exists tip, last (QuantumLedger.chain self) = Some tip /\
                Block.previous_hash block = Block.hash tip in
  let hard_enough :=
    Py.startswith (Block.hash block)
      (Py.str_mul "0" (QuantumLedger.current_difficulty self)) = true in
  let fresh :=
    PrimFloat.is_nan (Block.timestamp block) = false /\
    fresh_in (QuantumLedger.ldb self) block in
  match add_block_from_peer self block with
  | Returns (true, self') =>
      linked /\ hard_enough /\ block_binds block /\ fresh /\
      QuantumLedger.chain self' = QuantumLedger.chain self ++ [block] /\
      QuantumLedger.ldb self'
      = QuantumLedger.ldb self ++ [row_of_block block] /\
      update_utxo_txs true (QuantumLedger.udb self)
                      (Block.transactions block)
      = Returns (QuantumLedger.udb self') /\
      QuantumLedger.pending_transactions self'
      = prune_mined (List.map Transaction.txid (Block.transactions block))
                    (QuantumLedger.pending_transactions self) /\
      QuantumLedger.current_difficulty self'
      = QuantumLedger.current_difficulty self /\
      QuantumLedger.miner_address self' = QuantumLedger.miner_address self
  | Returns (false, self') =>
      self' = self /\ ~ (linked /\ hard_enough /\ fresh)
  | Raises e =>
      (e = IndexError /\
       (QuantumLedger.chain self = [] \/
        (linked /\ hard_enough /\ block_binds block /\ fresh /\
         Exists (fun tx => Transaction.inputs tx = [])
                (Block.transactions block)))) \/
      (e = OverflowError /\ linked /\ hard_enough /\
       (~ block_binds block \/
        (fresh /\ Exists unbindable (Block.transactions block))))
  | Unfinished => False
  end.
Proof.
  cbn zeta. unfold add_block_from_peer, Py.last_item.
  destruct (last (QuantumLedger.chain self)) as [tip|] eqn:Etip.
  2:{ cbn. left. split; [reflexivity|]. left. apply last_None. exact Etip. }
  cbn [mbind outcome_bind Py.bind].
  destruct (String.eqb_spec (Block.previous_hash block) (Block.hash tip))
    as [Hlink|Hlink].
  2:{ split; [reflexivity|]. intros ((tip' & [= <-] & H) & _). contradiction. }
  destruct (Py.startswith _ _) eqn:Ehard.
  2:{ split; [reflexivity|]. intros (_ & H & _). discriminate. }
  assert (exists tip0, Some tip = Some tip0 /\
                       Block.previous_hash block = Block.hash tip0) as Hl
      by (exists tip; split; [reflexivity | exact Hlink]).
  pose proof (save_block_outcome (QuantumLedger.ldb self) block) as Hsave.
  destruct (save_block (QuantumLedger.ldb self) block) as [[saved ldb']|e|];
    cbn [mbind outcome_bind Py.bind].
  3:{ exact Hsave. }
  2:{ destruct Hsave as [-> Hn]. right. split; [reflexivity|].
      split; [exact Hl|]. split; [reflexivity|]. left. exact Hn. }
  destruct Hsave as (Hbind & Hsaved & ->). destruct saved.
  2:{ split; [reflexivity|]. intros (_ & _ & H). apply Hsaved in H.
      discriminate. }
  assert (PrimFloat.is_nan (Block.timestamp block) = false /\
          fresh_in (QuantumLedger.ldb self) block) as Hfresh
      by (apply Hsaved; reflexivity).
  unfold _update_utxo_set. ledger_fields.
  pose proof (update_utxo_txs_outcome true (Block.transactions block)
                (QuantumLedger.udb self)) as Ho.
  destruct (update_utxo_txs true (QuantumLedger.udb self)
              (Block.transactions block)) as [db'|e|]; ledger_fields.
  - split; [exact Hl|]. split; [reflexivity|]. split; [exact Hbind|].
    split; [exact Hfresh|]. repeat split.
  - destruct Ho as [[-> Hex]|(-> & _ & Hex)].
    + left. split; [reflexivity|]. right.
      split; [exact Hl|]. split; [reflexivity|]. split; [exact Hbind|].
      split; [exact Hfresh | exact Hex].
    + right. split; [reflexivity|]. split; [exact Hl|].
      split; [reflexivity|]. right. split; [exact Hfresh | exact Hex].
  - exact Ho.
Qed.

(** ** Mining *)

Lemma _adjust_difficulty_returns (self : QuantumLedger.t) :
  exists d',
    _adjust_difficulty self
    = Returns (QuantumLedger.set_current_difficulty d' self) /\
    (d' = QuantumLedger.current_difficulty self \/
     d' = QuantumLedger.current_difficulty self + 1 \/
     d' = Z.max 1 (QuantumLedger.current_difficulty self - 1)).
Proof.
  unfold _adjust_difficulty.
  set (n := Py.len (QuantumLedger.chain self)).
  destruct ((n mod DIFFICULTY_ADJUSTMENT_INTERVAL =? 0) && (1 <? n)) eqn:Efire.
  2:{ eexists. split; [|left; reflexivity].
      rewrite set_current_difficulty_same. reflexivity. }
  apply andb_true_iff in Efire. destruct Efire as [Emod Elen].
  apply Z.eqb_eq in Emod. apply Z.ltb_lt in Elen.
  assert (5 <= n) as Hn5.
  { unfold DIFFICULTY_ADJUSTMENT_INTERVAL in Emod.
    apply Z.mod_divide in Emod; [|lia]. destruct Emod as [q Hq]. lia. }
  destruct (item_from_end_lookup (QuantumLedger.chain self)
              (Z.to_nat DIFFICULTY_ADJUSTMENT_INTERVAL)) as (prev & _ & ->).
  { unfold n, Py.len, DIFFICULTY_ADJUSTMENT_INTERVAL in *. lia. }
  destruct (last_item_last (QuantumLedger.chain self)) as (tip & _ & ->).
  { intros E. unfold n, Py.len in Hn5. rewrite E in Hn5. cbn in Hn5. lia. }
  cbn [mbind outcome_bind Py.bind].
  destruct (_ <? _)%float; [eexists; split; [reflexivity|]; auto|].
  destruct (_ <? _)%float; [eexists; split; [reflexivity|]; auto|].
  eexists. split; [|left; reflexivity].
  rewrite set_current_difficulty_same. reflexivity.
Qed.

Lemma check_inputs_raises (db : utxo_table) (data : string)
    (ins : list TxInput.t) (acc : float) (e : exn) :
  check_inputs db data ins acc = Raises e -> e = TypeError.
Proof.
  revert acc. induction ins as [|i ins IH]; intros acc; cbn [check_inputs];
    [discriminate|].
  destruct (get_utxo_by_id _ _ _); [|discriminate].
  destruct (UTXO.is_spent _); [discriminate|].
  destruct (negb _); [discriminate|].
  destruct (TxInput.signature i) as [sig|].
  - rewrite pqc_verify_str. cbn [mbind outcome_bind Py.bind].
    destruct (negb _); [discriminate | apply IH].
  - rewrite pqc_verify_none. cbn. congruence.
Qed.

Lemma check_inputs_finishes (db : utxo_table) (data : string)
    (ins : list TxInput.t) (acc : float) :
  check_inputs db data ins acc <> Unfinished.
Proof.
  revert acc. induction ins as [|i ins IH]; intros acc; cbn [check_inputs];
    [discriminate|].
  destruct (get_utxo_by_id _ _ _); [|discriminate].
  destruct (UTXO.is_spent _); [discriminate|].
  destruct (negb _); [discriminate|].
  destruct (TxInput.signature i) as [sig|].
  - rewrite pqc_verify_str. cbn [mbind outcome_bind Py.bind].
    destruct (negb _); [discriminate | apply IH].
  - rewrite pqc_verify_none. discriminate.
Qed.

(** [is_valid] finishes, and the one exception it can raise is the
    [TypeError] of [len(None)] on an unsigned input. *)
Lemma is_valid_outcome (tx : Transaction.t) (db : utxo_table) :
  match is_valid tx db false with
  | Returns _ => True
  | Raises e => e = TypeError
  | Unfinished => False
  end.
Proof.
  unfold is_valid. destruct (Transaction.outputs tx); [exact I|].
  pose proof (check_inputs_raises db (Transaction._txid tx)
                (Transaction.inputs tx) 0%float) as Hr.
  pose proof (check_inputs_finishes db (Transaction._txid tx)
                (Transaction.inputs tx) 0%float) as Hu.
  destruct (check_inputs _ _ _ _) as [[s|]|e|];
    cbn [mbind outcome_bind Py.bind].
  - destruct (_ <? _)%float; exact I.
  - exact I.
  - apply Hr. reflexivity.
  - congruence.
Qed.

(** The test of the selection loop of [mine_block]. *)
Definition valid_now (db : utxo_table) (tx : Transaction.t) : bool :=
  match is_valid tx db false with
  | Returns ok => ok
  | _ => false
  end.

(** The fee [mine_block] counts for a transaction: the amounts of the
    outputs named by its inputs, less the amounts of its outputs. *)
Definition fee_of (db : utxo_table) (tx : Transaction.t) : float :=
  match input_amounts db (Transaction.inputs tx) with
  | Returns amounts =>
      (Py.sum amounts
       - Py.sum (List.map TxOutput.amount (Transaction.outputs tx)))%float
  | _ => 0%float
  end.

Lemma select_txs_outcome (db : utxo_table) (snapshot : list Transaction.t)
    (validated_txs : list Transaction.t) (fees : float) :
  match select_txs db snapshot validated_txs fees with
  | Returns (selected, total) =>
      selected = validated_txs ++ List.filter (valid_now db) snapshot /\
      total = fold_left (fun acc tx => (acc + fee_of db tx)%float)
                        (List.filter (valid_now db) snapshot) fees
  | Raises e => e = TypeError
  | Unfinished => False
  end.
Proof.
  revert validated_txs fees.
  induction snapshot as [|tx rest IH]; intros validated_txs fees.
  - cbn. rewrite app_nil_r. split; reflexivity.
  - cbn [select_txs List.filter].
    pose proof (is_valid_outcome tx db) as Hv.
    destruct (is_valid tx db false) as [ok|e|] eqn:Ev;
      cbn [mbind outcome_bind Py.bind]; [|exact Hv..].
    assert (valid_now db tx = ok) as ->
        by (unfold valid_now; rewrite Ev; reflexivity).
    destruct ok.
    + apply is_valid_true_spec in Ev. destruct Ev as (amounts & Ham).
      assert (fee_of db tx
              = (Py.sum amounts
                 - Py.sum (List.map TxOutput.amount
                                    (Transaction.outputs tx)))%float) as Hfee
          by (unfold fee_of; rewrite Ham; reflexivity).
      rewrite Ham. cbn [mbind outcome_bind Py.bind].
      match goal with
      | |- context [select_txs db rest ?v ?f] =>
          specialize (IH v f); destruct (select_txs db rest v f) as [[s f']|e|]
      end; [|exact IH..].
      destruct IH as [-> ->]. rewrite <- app_assoc. cbn [fold_left].
      rewrite Hfee. split; reflexivity.
    + apply IH.
Qed.

Lemma prune_mined_all (txs : list Transaction.t) :
  prune_mined (List.map Transaction.txid txs) txs = [].
Proof.
  unfold prune_mined.
  assert (forall ids, (forall t, In t txs -> In (Transaction.txid t) ids) ->
            List.filter
              (fun t => negb (existsb (String.eqb (Transaction.txid t)) ids))
              txs = []) as H.
  { intros ids. induction txs as [|t txs IH]; intros Hin; [reflexivity|].
    cbn [List.filter].
    assert (existsb (String.eqb (Transaction.txid t)) ids = true) as ->.
    { apply existsb_exists. exists (Transaction.txid t).
      split; [apply Hin; left; reflexivity | apply String.eqb_refl]. }
    cbn [negb]. apply IH. intros t' Ht'. apply Hin. right. exact Ht'. }
  apply H. intros t Ht. apply in_map. exact Ht.
Qed.




(** ** Blocks read back from the table *)

Lemma from_db_row_row_of_block (block : Block.t) (now : float) :
  from_db_row (row_of_block block) now
  = Returns (Block_init (Block.index block)
               (List.map (reread now) (Block.transactions block))
               (Block.previous_hash block) (Block.proof block)
               (Some (Block.timestamp block)) (Some (Block.hash block))
               (Some (Block.merkle_root block)) now).
Proof.
  unfold from_db_row, row_of_block.
  cbn [BlockRow.transactions_json BlockRow.index_id BlockRow.previous_hash
       BlockRow.proof BlockRow.timestamp BlockRow.hash BlockRow.merkle_root].
  rewrite (mapM_read_back (fun tx => to_dict tx true)
             (fun d => Transaction_from_dict d now) (reread now)
             (fun tx => Transaction_from_dict_reread tx now)).
  reflexivity.
Qed.

Lemma str_or_same (s d : string) : s <> EmptyString -> Py.str_or (Some s) d = s.
Proof. destruct s; [congruence | reflexivity]. Qed.

(** The row stored for a block reads back as the block built anew: its
    transactions are constructed again from their dicts, so their txids
    are recomputed; a zero timestamp, an empty hash or an empty Merkle root
    is replaced by the clock or by the recomputed value.  A block whose
    timestamp is not zero, whose hash and Merkle root are not empty and
    whose transactions have a non-zero timestamp and the hash of their own
    canonical form as txid is read back unchanged. *)
Theorem from_db_row_of_stored_block (block : Block.t) (now : float) :
  from_db_row (row_of_block block) now
  = Returns (Block_init (Block.index block)
               (List.map (reread now) (Block.transactions block))
               (Block.previous_hash block) (Block.proof block)
               (Some (Block.timestamp block)) (Some (Block.hash block))
               (Some (Block.merkle_root block)) now)
  /\
  (Py.float_truthy (Block.timestamp block) = true ->
   Block.hash block <> EmptyString ->
   Block.merkle_root block <> EmptyString ->
   Forall (fun tx => Py.float_truthy (Transaction.timestamp tx) = true /\
                     Transaction.txid tx = _calculate_txid tx)
          (Block.transactions block) ->
   from_db_row (row_of_block block) now = Returns block).
Proof.
  split; [apply from_db_row_row_of_block|].
  intros Hts Hh Hm Htxs. rewrite from_db_row_row_of_block. f_equal.
  assert (List.map (reread now) (Block.transactions block)
          = Block.transactions block) as ->.
  { induction Htxs as [|tx txs [Ht Hid] _ IH]; [reflexivity|].
    cbn [List.map]. rewrite IH, (reread_same now tx Ht Hid). reflexivity. }
  unfold Block_init. cbn [Py.float_or]. rewrite Hts.
  rewrite (str_or_same _ _ Hh), (str_or_same _ _ Hm).
  destruct block; reflexivity.
Qed.

(** ** Starting a node *)

(** The genesis block built by a node with the given miner address. *)
Definition genesis_of (miner_address : string) (now_tx now_block : float)
  : Block.t :=
  Block_init 0
    [_create_coinbase_tx miner_address
       (MINER_REWARD * Py.float_of_int 1000)%float now_tx]
    ZERO128 0 None None None now_block.

Lemma coinbase_has_input (recipient : string) (amount now : float) :
  exists first,
    Transaction.inputs (_create_coinbase_tx recipient amount now) = [first] /\
    TxInput.txid first = ZERO128.
Proof. eexists. split; reflexivity. Qed.

Lemma save_block_genesis_row (miner_address : string)
    (now_tx now_block : float) :
  save_block [] (genesis_of miner_address now_tx now_block)
  = Returns (true, [row_of_block (genesis_of miner_address now_tx now_block)]).
Proof.
  unfold save_block. fold (row_of_block (genesis_of miner_address now_tx now_block)).
  unfold genesis_of at 1 2 3.
  cbn [Block_init Block.index Block.proof Block.timestamp Py.float_or
       existsb orb].
  rewrite time_time_not_nan. reflexivity.
Qed.

Lemma start_on_empty_store (utxo_db : utxo_table) (miner_address : string)
    (now_tx now_block : float) :
  QuantumLedger_init [] utxo_db miner_address now_tx now_block
  = Returns
      {| QuantumLedger.ldb :=
           [row_of_block (genesis_of miner_address now_tx now_block)];
         QuantumLedger.udb := utxo_db;
         QuantumLedger.miner_address := miner_address;
         QuantumLedger.current_difficulty := INITIAL_DIFFICULTY;
         QuantumLedger.chain :=
           [genesis_of miner_address now_tx now_block];
         QuantumLedger.pending_transactions := [] |}.
Proof.
  unfold QuantumLedger_init, _load_chain_from_db.
  cbn [QuantumLedger.ldb load_all_blocks fold_right].
  unfold create_genesis_block.
  cbn [QuantumLedger.ldb QuantumLedger.miner_address].
  fold (genesis_of miner_address now_tx now_block).
  rewrite (save_block_genesis_row miner_address now_tx now_block).
  ledger_fields. cbn [app]. unfold _update_utxo_set. ledger_fields.
  pose proof (update_utxo_txs_outcome false
                (Block.transactions (genesis_of miner_address now_tx now_block))
                utxo_db) as Ho.
  destruct (update_utxo_txs false utxo_db _) as [db'|e|]; ledger_fields.
  - destruct Ho as (_ & Hsame & _). rewrite (Hsame eq_refl). reflexivity.
  - exfalso. destruct Ho as [[_ Hex]|(_ & Hs & _)]; [|discriminate].
    apply Exists_cons in Hex.
    destruct Hex as [Hex|Hex]; [discriminate Hex | inversion Hex].
  - destruct Ho.
Qed.

(** A second start recovers what the first one left out.  A node started
    on empty stores leaves the UTXO store empty; started again on the
    stores it left, it reads the genesis block back, and the rebuild
    inserts the genesis output, under the txid recomputed from the stored
    transaction: the miner's balance is then [MINER_REWARD * 1000]. *)
Theorem restart_recovers_genesis_output (miner_address : string)
    (now_tx now_block now_tx' now_block' : float) :
  exists first second genesis_tx,
    QuantumLedger_init [] ∅ miner_address now_tx now_block = Returns first /\
    QuantumLedger.udb first = ∅ /\
    QuantumLedger_init (QuantumLedger.ldb first) (QuantumLedger.udb first)
                       miner_address now_tx' now_block'
    = Returns second /\
    QuantumLedger.ldb second = QuantumLedger.ldb first /\
    all_txs (QuantumLedger.chain second) = [genesis_tx] /\
    Transaction.txid genesis_tx = _calculate_txid genesis_tx /\
    QuantumLedger.udb second
    = {[ (Transaction.txid genesis_tx, 0) :=
           {| UTXO.txid := Transaction.txid genesis_tx;
              UTXO.output_index := 0;
              UTXO.address := miner_address;
              UTXO.amount := (MINER_REWARD * 1000)%float;
              UTXO.spent_txid := None; UTXO.spent_index := None |} ]} /\
    fst (get_balance (QuantumLedger.udb second) miner_address)
    = (MINER_REWARD * 1000)%float.
Proof.
  set (genesis := genesis_of miner_address now_tx now_block).
  set (cb := _create_coinbase_tx miner_address
               (MINER_REWARD * Py.float_of_int 1000)%float now_tx).
  set (tx2 := reread now_block' cb).
  set (u := {| UTXO.txid := Transaction.txid tx2; UTXO.output_index := 0;
               UTXO.address := miner_address;
               UTXO.amount := (MINER_REWARD * 1000)%float;
               UTXO.spent_txid := None; UTXO.spent_index := None |}).
  eexists _, _, tx2.
  split; [apply start_on_empty_store|]. split; [reflexivity|].
  cbn [QuantumLedger.ldb QuantumLedger.udb].
  fold genesis.
  assert (QuantumLedger_init [row_of_block genesis] ∅ miner_address
            now_tx' now_block'
          = Returns
              {| QuantumLedger.ldb := [row_of_block genesis];
                 QuantumLedger.udb := {[ (Transaction.txid tx2, 0) := u ]};
                 QuantumLedger.miner_address := miner_address;
                 QuantumLedger.current_difficulty := INITIAL_DIFFICULTY;
                 QuantumLedger.chain :=
                   [Block_init (Block.index genesis) [tx2]
                      (Block.previous_hash genesis) (Block.proof genesis)
                      (Some (Block.timestamp genesis))
                      (Some (Block.hash genesis))
                      (Some (Block.merkle_root genesis)) now_block'];
                 QuantumLedger.pending_transactions := [] |}) as Hsecond.
  { unfold QuantumLedger_init, _load_chain_from_db.
    cbn [QuantumLedger.ldb load_all_blocks fold_right insert_row mapM].
    rewrite from_db_row_row_of_block. ledger_fields.
    change (List.map (reread now_block') (Block.transactions genesis))
      with [tx2].
    match goal with
    | |- context [_adjust_difficulty ?s] =>
        change (_adjust_difficulty s) with (Returns s : outcome QuantumLedger.t)
    end.
    ledger_fields. unfold rebuild_utxo_set. ledger_fields.
    cbn [rebuild_blocks rebuild_txs Block.transactions Block_init].
    unfold rebuild_tx.
    change (Transaction.inputs tx2) with (Transaction.inputs cb).
    destruct (coinbase_has_input miner_address
                (MINER_REWARD * Py.float_of_int 1000)%float now_tx)
      as (first & Hins & Hzero).
    fold cb in Hins. rewrite Hins, Hzero, String.eqb_refl.
    cbn [negb]. ledger_fields.
    assert (record_outputs tx2 ∅ = {[ (Transaction.txid tx2, 0) := u ]})
      as ->.
    { unfold record_outputs, new_utxos. cbn [imap foldl Transaction.outputs
        tx2 reread cb _create_coinbase_tx Transaction_init
        Transaction.set_inputs TxOutput.address TxOutput.amount UTXO.key
        UTXO.txid UTXO.output_index Z.of_nat].
      rewrite insert_empty. reflexivity. }
    rewrite map_to_list_singleton.
    cbn [fmap list_fmap snd List.filter UTXO.is_spent UTXO.spent_txid u negb].
    unfold clear_all, add_utxos. cbn [foldl]. unfold add_utxo.
    rewrite lookup_empty, insert_empty. reflexivity. }
  split; [exact Hsecond|]. split; [reflexivity|].
  split; [reflexivity|]. split; [reflexivity|]. split; [reflexivity|].
  cbn [QuantumLedger.udb].
  unfold get_balance, get_unspent_outputs, unspent_rows.
  rewrite map_filter_singleton_True by reflexivity.
  destruct (Py.str_truthy miner_address);
    rewrite ?map_filter_singleton_True by reflexivity;
    rewrite map_to_list_singleton; reflexivity.
Qed.

(** A call that finishes and raises, if at all, an exception in [P]. *)
Definition raises_only {A} (P : exn -> Prop) (m : outcome A) : Prop :=
  match m with
  | Returns _ => True
  | Raises e => P e
  | Unfinished => False
  end.

Lemma raises_only_bind {A B} (P : exn -> Prop) (m : outcome A)
    (k : A -> outcome B) :
  raises_only P m -> (forall a, raises_only P (k a)) ->
  raises_only P (m ≫= k).
Proof.
  intros Hm Hk. destruct m as [a|e|]; cbn [mbind outcome_bind Py.bind];
    [apply Hk | exact Hm | exact Hm].
Qed.

Lemma raises_only_mapM {A B} (P : exn -> Prop) (f : A -> outcome B)
    (l : list A) :
  (forall a, raises_only P (f a)) -> raises_only P (mapM f l).
Proof.
  intros Hf. induction l as [|a l IH]; [exact I|].
  cbn [mapM]. apply raises_only_bind; [apply Hf|]. intros b.
  apply raises_only_bind; [exact IH|]. intros bs. exact I.
Qed.

(** The exceptions of a malformed stored dict. *)
Definition dict_error (e : exn) : Prop := e = KeyError \/ e = TypeError.

Lemma get_opt_str_outcome (k : string) (data : json) :
  raises_only dict_error (get_opt_str k data).
Proof.
  unfold get_opt_str. destruct (dict_get k data) as [[]|]; cbn;
    try exact I; right; reflexivity.
Qed.

Lemma get_list_outcome (k : string) (data : json) :
  raises_only dict_error (get_list k data).
Proof.
  unfold get_list. destruct (dict_get k data) as [[]|]; cbn;
    try exact I; right; reflexivity.
Qed.

Lemma TxInput_from_dict_outcome (data : json) :
  raises_only dict_error (TxInput_from_dict data).
Proof.
  unfold TxInput_from_dict.
  destruct (dict_get "txid" data) as [[]|];
    destruct (dict_get "output_index" data) as [[]|];
    try (cbn; first [left; reflexivity | right; reflexivity]).
  apply raises_only_bind; [apply get_opt_str_outcome|]. intros sig.
  apply raises_only_bind; [apply get_opt_str_outcome|]. intros pk. exact I.
Qed.

Lemma TxOutput_from_dict_outcome (data : json) :
  raises_only dict_error (TxOutput_from_dict data).
Proof.
  unfold TxOutput_from_dict.
  destruct (dict_get "amount" data) as [[]|];
    destruct (dict_get "address" data) as [[]|];
    cbn; first [exact I | left; reflexivity | right; reflexivity].
Qed.

Lemma Transaction_from_dict_outcome (data : json) (now : float) :
  raises_only dict_error (Transaction_from_dict data now).
Proof.
  unfold Transaction_from_dict.
  apply raises_only_bind; [apply get_list_outcome|]. intros ins.
  apply raises_only_bind;
    [apply raises_only_mapM, TxInput_from_dict_outcome|]. intros inputs.
  apply raises_only_bind; [apply get_list_outcome|]. intros outs.
  apply raises_only_bind;
    [apply raises_only_mapM, TxOutput_from_dict_outcome|]. intros outputs.
  apply raises_only_bind.
  { destruct (dict_get "version" data) as [[]|]; cbn;
      try exact I; right; reflexivity. }
  intros version. apply raises_only_bind.
  { destruct (dict_get "timestamp" data) as [[]|]; cbn;
      try exact I; right; reflexivity. }
  intros timestamp.
  apply raises_only_bind; [apply get_opt_str_outcome|]. intros given.
  exact I.
Qed.

Lemma from_db_row_outcome (row : BlockRow.t) (now : float) :
  raises_only dict_error (from_db_row row now).
Proof.
  unfold from_db_row. apply raises_only_bind.
  - apply raises_only_mapM. intros d. apply Transaction_from_dict_outcome.
  - intros txs. exact I.
Qed.

Lemma from_db_row_index (row : BlockRow.t) (now : float) (block : Block.t) :
  from_db_row row now = Returns block ->
  Block.index block = BlockRow.index_id row.
Proof.
  unfold from_db_row. intros H. apply bind_returns in H.
  destruct H as (txs & _ & [= <-]). reflexivity.
Qed.

Lemma mapM_from_db_row_index (rows : list BlockRow.t) (now : float)
    (chain : list Block.t) :
  mapM (fun row => from_db_row row now) rows = Returns chain ->
  List.map Block.index chain = List.map BlockRow.index_id rows.
Proof.
  revert chain. induction rows as [|row rows IH]; intros chain.
  - intros [= <-]. reflexivity.
  - cbn [mapM]. intros H. apply bind_returns in H.
    destruct H as (block & Hb & H). apply bind_returns in H.
    destruct H as (rest & Hrest & [= <-]).
    cbn [List.map]. rewrite (from_db_row_index _ _ _ Hb), (IH _ Hrest).
    reflexivity.
Qed.

Lemma load_all_blocks_nil (db : list BlockRow.t) :
  load_all_blocks db = [] -> db = [].
Proof.
  destruct db as [|r db]; [reflexivity|]. unfold load_all_blocks.
  cbn [fold_right]. intros H. exfalso.
  pose proof (insert_row_perm r (fold_right insert_row [] db)) as Hp.
  rewrite H in Hp. symmetry in Hp. apply Permutation_nil_r in Hp.
  discriminate.
Qed.

Lemma rebuild_blocks_outcome (chain : list Block.t) (R : utxo_table) :
  raises_only (fun e => e = IndexError) (rebuild_blocks R chain).
Proof.
  rewrite rebuild_blocks_all_txs.
  pose proof (rebuild_txs_outcome (all_txs chain) R) as H.
  destruct (rebuild_txs R (all_txs chain)); cbn; [exact I | apply H | exact H].
Qed.

(** What a start leaves.  On an empty block table the node creates the
    genesis block, stores it and leaves the UTXO table as it found it; it
    does not raise.  On a table with rows it loads them in order of height,
    keeps the table, and its difficulty is [INITIAL_DIFFICULTY] moved by
    at most one: the difficulty reached before the stop is not stored.  In
    both cases the mempool is empty. *)
Theorem QuantumLedger_init_outcome (blocks_db : list BlockRow.t)
    (utxo_db : utxo_table) (miner_address : string)
    (now_tx now_block : float) :
  match QuantumLedger_init blocks_db utxo_db miner_address now_tx now_block
  with
  | Returns self =>
      QuantumLedger.miner_address self = miner_address /\
      QuantumLedger.pending_transactions self = [] /\
      INITIAL_DIFFICULTY - 1 <= QuantumLedger.current_difficulty self
        <= INITIAL_DIFFICULTY + 1 /\
      (blocks_db = [] ->
       QuantumLedger.chain self
       = [genesis_of miner_address now_tx now_block] /\
       QuantumLedger.ldb self
       = [row_of_block (genesis_of miner_address now_tx now_block)] /\
       QuantumLedger.udb self = utxo_db /\
       QuantumLedger.current_difficulty self = INITIAL_DIFFICULTY) /\
      (blocks_db <> [] ->
       QuantumLedger.ldb self = blocks_db /\
       List.map Block.index (QuantumLedger.chain self)
       = List.map BlockRow.index_id (load_all_blocks blocks_db))
  | Raises _ => blocks_db <> []
  | Unfinished => False
  end.
Proof.
  destruct blocks_db as [|r0 rows0] eqn:Edb.
  { rewrite start_on_empty_store. ledger_fields.
    split; [reflexivity|]. split; [reflexivity|].
    split; [unfold INITIAL_DIFFICULTY; lia|].
    split; [intros _; repeat split | congruence]. }
  rewrite <- Edb. assert (blocks_db <> []) as Hne by (subst; discriminate).
  clear Edb r0 rows0.
  unfold QuantumLedger_init, _load_chain_from_db. ledger_fields.
  destruct (load_all_blocks blocks_db) as [|r rows] eqn:Eload.
  { apply load_all_blocks_nil in Eload. contradiction. }
  rewrite <- Eload. clear Eload r rows.
  pose proof (raises_only_mapM dict_error
                (fun row => from_db_row row now_block)
                (load_all_blocks blocks_db)
                (fun row => from_db_row_outcome row now_block)) as Hload.
  destruct (mapM _ (load_all_blocks blocks_db)) as [chain|e|] eqn:Echain;
    ledger_fields.
  2:{ exact Hne. }
  2:{ exact Hload. }
  match goal with
  | |- context [_adjust_difficulty ?s] =>
      destruct (_adjust_difficulty_returns s) as (d' & -> & Hd)
  end.
  ledger_fields. unfold rebuild_utxo_set. ledger_fields.
  pose proof (rebuild_blocks_outcome chain ∅) as Hreb.
  destruct (rebuild_blocks ∅ chain) as [all_utxos|e|]; ledger_fields.
  - split; [reflexivity|]. split; [reflexivity|].
    split; [unfold INITIAL_DIFFICULTY in *; cbn in Hd; lia|].
    split; [intros H; contradiction|]. intros _.
    split; [reflexivity|].
    exact (mapM_from_db_row_index _ _ _ Echain).
  - exact Hne.
  - exact Hreb.
Qed.

(** ** The rebuilt store *)









(* ===================================================================== *)
(** * Further properties of the wallet (wallet_manager.py, db_manager.py) *)
(* ===================================================================== *)

(** ** Keys *)

Lemma find_app_later {A} (f : A -> bool) (l l' : list A) :
  List.find f l = None -> List.find f (l ++ l') = List.find f l'.
Proof.
  induction l as [|a l IH]; [reflexivity|]. cbn [List.find app].
  destruct (f a); [discriminate | exact IH].
Qed.

Lemma find_app_first {A} (f : A -> bool) (l l' : list A) (a : A) :
  List.find f l = Some a -> List.find f (l ++ l') = Some a.
Proof.
  induction l as [|b l IH]; [discriminate|]. cbn [List.find app].
  destruct (f b); [auto | exact IH].
Qed.

Lemma find_map {A B} (g : A -> B) (f : B -> bool) (l : list A) :
  List.find f (List.map g l) = g <$> List.find (fun a => f (g a)) l.
Proof.
  induction l as [|a l IH]; [reflexivity|]. cbn [List.find List.map].
  destruct (f (g a)); [reflexivity | exact IH].
Qed.

Lemma generate_pqc_key_pair_returns (pub_key_seed priv_key_seed : Z) :
  exists pub priv,
    generate_pqc_key_pair pub_key_seed priv_key_seed = Returns (pub, priv).
Proof.
  unfold generate_pqc_key_pair, generate_key_pair, PQC_SIGNATURE_SCHEME.
  destruct key_sizes_Dilithium as [-> ->]. eexists _, _. reflexivity.
Qed.

(** The first row of the table with the alias, if any. *)
Definition owner_of (wdb : list WalletRow.t) (alias : string)
  : option WalletRow.t :=
  List.find (fun r => bool_decide (Some (WalletRow.alias r) = Some alias)) wdb.

Lemma get_keys_by_alias (wdb : list WalletRow.t) (alias : string) :
  alias <> EmptyString ->
  get_keys wdb (Some alias) None
  = match owner_of wdb alias with
    | Some r =>
        (Some (WalletRow.public_key r),
         get_private_key wdb (Some (WalletRow.public_key r)) (Some alias))
    | None => (None, None)
    end.
Proof.
  intros Ha. unfold get_keys, get_all_wallets, owner_of.
  assert (Py.str_truthy alias = true) as Hg
      by (destruct alias; [congruence | reflexivity]).
  cbn [given]. rewrite Hg. cbn [negb andb]. rewrite find_map. cbn [snd fst].
  destruct (List.find _ wdb) as [r|] eqn:Er; cbn [fmap option_fmap option_map];
    [reflexivity|].
  unfold get_private_key. cbn [given]. rewrite Hg, Er. reflexivity.
Qed.

(** [create_new_wallet] always hands out the generated key pair.  When no
    row has the public key or the alias, the pair is stored and, the alias
    not being empty, [get_keys] finds it again under the alias.  When the
    alias is taken, nothing is written, the caller still receives the new
    pair as if it had been, and [get_keys] goes on answering with the
    public key of the first owner. *)
Theorem create_new_wallet_outcome (wdb : list WalletRow.t) (alias : string)
    (pub_key_seed priv_key_seed : Z) :
  exists pub priv wdb',
    generate_pqc_key_pair pub_key_seed priv_key_seed = Returns (pub, priv) /\
    create_new_wallet wdb alias pub_key_seed priv_key_seed
    = Returns ((Some pub, Some priv), wdb') /\
    ((forall r, In r wdb -> WalletRow.public_key r <> pub /\
                            WalletRow.alias r <> alias) ->
     wdb' = wdb ++ [ {| WalletRow.public_key := pub;
                        WalletRow.private_key := priv;
                        WalletRow.alias := alias |} ] /\
     (alias <> EmptyString ->
      get_keys wdb' (Some alias) None = (Some pub, Some priv))) /\
    (forall owner,
        owner_of wdb alias = Some owner ->
        wdb' = wdb /\
        (alias <> EmptyString ->
         fst (get_keys wdb' (Some alias) None)
         = Some (WalletRow.public_key owner))).
Proof.
  destruct (generate_pqc_key_pair_returns pub_key_seed priv_key_seed)
    as (pub & priv & Hgen).
  unfold create_new_wallet. rewrite Hgen. cbn [mbind outcome_bind Py.bind fst snd].
  unfold save_wallet.
  destruct (existsb _ wdb) eqn:Etaken.
  - exists pub, priv, wdb. split; [reflexivity|]. split; [reflexivity|]. split.
    + intros Hfree. exfalso. apply existsb_exists in Etaken.
      destruct Etaken as (r & Hr & Hc). destruct (Hfree r Hr) as [Hp Ha].
      apply orb_true_iff in Hc. destruct Hc as [Hc|Hc];
        apply String.eqb_eq in Hc; contradiction.
    + intros owner Ho. split; [reflexivity|]. intros Hne.
      rewrite (get_keys_by_alias _ _ Hne), Ho. reflexivity.
  - exists pub, priv, (wdb ++ [ {| WalletRow.public_key := pub;
                                   WalletRow.private_key := priv;
                                   WalletRow.alias := alias |} ]).
    split; [reflexivity|]. split; [reflexivity|].
    assert (forall r, In r wdb -> WalletRow.public_key r <> pub /\
                                  WalletRow.alias r <> alias) as Hfree.
    { intros r Hr. split; intros Heq; apply not_true_iff_false in Etaken;
        apply Etaken, existsb_exists; exists r; (split; [exact Hr|]);
        apply orb_true_iff; [left | right]; apply String.eqb_eq; exact Heq. }
    assert (owner_of wdb alias = None) as Hnone.
    { unfold owner_of. destruct (List.find _ wdb) as [r|] eqn:Er; [|reflexivity].
      apply find_some in Er. destruct Er as [Hr Hd].
      apply bool_decide_eq_true in Hd. injection Hd as Hd.
      destruct (Hfree r Hr) as [_ Ha]. contradiction. }
    assert (List.find
              (fun r => bool_decide (Some (WalletRow.public_key r) = Some pub))
              wdb = None) as Hpnone.
    { destruct (List.find _ wdb) as [r|] eqn:Er; [|reflexivity].
      apply find_some in Er. destruct Er as [Hr Hd].
      apply bool_decide_eq_true in Hd. injection Hd as Hd.
      destruct (Hfree r Hr) as [Hp _]. contradiction. }
    split.
    + intros _. split; [reflexivity|]. intros Hne.
      rewrite (get_keys_by_alias _ _ Hne). unfold owner_of in *.
      rewrite (find_app_later _ _ _ Hnone). cbn [List.find WalletRow.alias].
      rewrite bool_decide_eq_true_2 by reflexivity.
      cbn [WalletRow.public_key]. f_equal.
      unfold get_private_key. cbn [given].
      destruct (Py.str_truthy pub).
      * rewrite (find_app_later _ _ _ Hpnone).
        cbn [List.find WalletRow.public_key].
        rewrite bool_decide_eq_true_2 by reflexivity. reflexivity.
      * assert (Py.str_truthy alias = true) as ->
            by (destruct alias; [congruence | reflexivity]).
        rewrite (find_app_later _ _ _ Hnone). cbn [List.find WalletRow.alias].
        rewrite bool_decide_eq_true_2 by reflexivity. reflexivity.
    + intros owner Ho. congruence.
Qed.

(** ** Building a transaction *)








(* ===================================================================== *)
(** * Hashing a dict (pqc_primitives.py) *)
(* ===================================================================== *)

Lemma leb_lt_or_eq (a b : string) :
  String.leb a b = true <-> String_as_OT.lt a b \/ a = b.
Proof.
  unfold String.leb. rewrite <- String_as_OT.cmp_lt, <- String_as_OT.cmp_eq.
  unfold String_as_OT.cmp. destruct (String.compare a b); split;
    try discriminate; auto; intros [H|H]; discriminate.
Qed.

Lemma leb_trans (a b c : string) :
  String.leb a b = true -> String.leb b c = true -> String.leb a c = true.
Proof.
  rewrite !leb_lt_or_eq. intros [Hab| ->] [Hbc| ->]; auto.
  left. eapply String_as_OT.lt_trans; eassumption.
Qed.

Lemma leb_false_flip (a b : string) :
  String.leb a b = false -> String.leb b a = true.
Proof.
  intros H. destruct (String.leb_total a b) as [E|E]; [congruence | exact E].
Qed.

Lemma insert_item_swap (x y : string * json) (l : list (string * json)) :
  fst x <> fst y ->
  insert_item x (insert_item y l) = insert_item y (insert_item x l).
Proof.
  intros Hne.
  assert (forall a b : string * json,
            fst a <> fst b -> String.leb (fst a) (fst b) = true ->
            String.leb (fst b) (fst a) = false) as Hstrict.
  { intros a b Hab H. destruct (String.leb (fst b) (fst a)) eqn:E;
      [|reflexivity].
    exfalso. apply Hab. apply String.leb_antisym; assumption. }
  induction l as [|z l IH].
  - cbn [insert_item].
    destruct (String.leb (fst x) (fst y)) eqn:Exy.
    + rewrite (Hstrict x y Hne Exy). reflexivity.
    + rewrite (leb_false_flip _ _ Exy). reflexivity.
  - cbn [insert_item].
    destruct (String.leb (fst x) (fst z)) eqn:Exz,
             (String.leb (fst y) (fst z)) eqn:Eyz; cbn [insert_item].
    + destruct (String.leb (fst x) (fst y)) eqn:Exy.
      * rewrite (Hstrict x y Hne Exy), Eyz. reflexivity.
      * rewrite (leb_false_flip _ _ Exy), Exz. reflexivity.
    + rewrite Exz.
      assert (String.leb (fst y) (fst x) = false) as ->.
      { destruct (String.leb (fst y) (fst x)) eqn:E; [|reflexivity].
        rewrite (leb_trans _ _ _ E Exz) in Eyz. discriminate. }
      rewrite Eyz. reflexivity.
    + rewrite Eyz.
      assert (String.leb (fst x) (fst y) = false) as ->.
      { destruct (String.leb (fst x) (fst y)) eqn:E; [|reflexivity].
        rewrite (leb_trans _ _ _ E Eyz) in Exz. discriminate. }
      rewrite Exz. reflexivity.
    + rewrite Exz, Eyz, IH. reflexivity.
Qed.

Lemma sort_items_permutation (d d' : list (string * json)) :
  d ≡ₚ d' -> NoDup (List.map fst d) -> sort_items d = sort_items d'.
Proof.
  intros Hperm Hnd. unfold sort_items.
  apply (foldr_permutation eq insert_item []); [|exact Hperm].
  intros j1 a1 j2 a2 b Hj H1 H2. symmetry. apply insert_item_swap.
  intros Hk. apply Hj.
  apply (NoDup_lookup _ _ _ (fst a2) Hnd).
  - rewrite (list_lookup_fmap fst d j1 : List.map fst d !! j1 = _), H1, Hk.
    reflexivity.
  - rewrite (list_lookup_fmap fst d j2 : List.map fst d !! j2 = _), H2.
    reflexivity.
Qed.

(** [hash_data] of a dict does not depend on the order in which the keys
    were inserted: two dicts with the same items hash alike. *)
Theorem hash_data_key_order (d d' : list (string * json)) :
  d ≡ₚ d' -> NoDup (List.map fst d) ->
  hash_data (OfJson (JDict d)) = hash_data (OfJson (JDict d')).
Proof.
  intros Hperm Hnd. unfold hash_data, json_dumps_sorted.
  cbn [sort_keys]. do 2 f_equal. f_equal.
  apply sort_items_permutation.
  - apply Permutation_map. exact Hperm.
  - rewrite List.map_map. cbn [fst]. exact Hnd.
Qed.


(* ===================================================================== *)
(** * The mempool holds no txid twice *)
(* ===================================================================== *)

Lemma NoDup_txids_filter (f : Transaction.t -> bool)
    (l : list Transaction.t) :
  NoDup (List.map Transaction.txid l) ->
  NoDup (List.map Transaction.txid (List.filter f l)).
Proof.
  induction l as [|t l IH]; cbn [List.map List.filter]; [auto|].
  intros Hnd. apply NoDup_cons in Hnd. destruct Hnd as [Hnotin Hnd].
  destruct (f t); [|auto]. cbn [List.map]. apply NoDup_cons. split; [|auto].
  intros Hin. apply Hnotin.
  apply list_elem_of_In in Hin. apply in_map_iff in Hin.
  destruct Hin as (t' & Heq & Hin). apply filter_In in Hin.
  apply list_elem_of_In, in_map_iff. exists t'. tauto.
Qed.

Lemma filter_none {A} (l : list A) : [] = List.filter (fun _ => false) l.
Proof. induction l; auto. Qed.

Lemma filter_all {A} (l : list A) : l = List.filter (fun _ => true) l.
Proof. induction l; cbn [List.filter]; congruence. Qed.

(** The mempool left by a call that returns. *)
Definition mempool_after {A} (m : outcome (A * QuantumLedger.t))
  : option (list Transaction.t) :=
  match m with
  | Returns (_, self') => Some (QuantumLedger.pending_transactions self')
  | _ => None
  end.

Lemma mine_block_mempool (fuel : nat) (now_tx now_block : float)
    (self : QuantumLedger.t) :
  match mempool_after (mine_block fuel now_tx now_block self) with
  | Some pending' =>
      exists f, pending'
                = List.filter f (QuantumLedger.pending_transactions self)
  | None => True
  end.
Proof.
  unfold mine_block.
  destruct (QuantumLedger.pending_transactions self) as [|p0 ps] eqn:Ep.
  { cbn. rewrite Ep. exists (fun _ => true). reflexivity. }
  rewrite <- Ep.
  destruct (_adjust_difficulty_returns self) as (d' & -> & _).
  ledger_fields.
  pose proof (select_txs_outcome (QuantumLedger.udb self)
                (QuantumLedger.pending_transactions self) [] 0%float) as Hsel.
  destruct (select_txs (QuantumLedger.udb self)
              (QuantumLedger.pending_transactions self) [] 0%float)
    as [[selected fees]|e|]; ledger_fields; [|exact I..].
  cbn [app] in Hsel. destruct Hsel as [Hsel _].
  destruct selected as [|v vs].
  { cbn. exists (fun _ => false). apply filter_none. }
  unfold Py.last_item.
  destruct (last (QuantumLedger.chain self)) as [tip|]; ledger_fields;
    [|exact I].
  destruct (proof_of_work _ _ _) as [proof|e|]; ledger_fields; [|exact I..].
  destruct (save_block _ _) as [[saved ldb']|e|]; ledger_fields;
    [|exact I..].
  destruct saved.
  2:{ cbn. eexists. exact Hsel. }
  unfold _update_utxo_set. ledger_fields.
  destruct (update_utxo_txs _ _ _) as [db'|e|]; ledger_fields; [|exact I..].
  cbn [mempool_after]. ledger_fields. rewrite prune_mined_all.
  exists (fun _ => false). apply filter_none.
Qed.

Lemma add_block_from_peer_mempool (self : QuantumLedger.t) (block : Block.t) :
  match mempool_after (add_block_from_peer self block) with
  | Some pending' =>
      exists f, pending'
                = List.filter f (QuantumLedger.pending_transactions self)
  | None => True
  end.
Proof.
  assert (exists f : Transaction.t -> bool,
            QuantumLedger.pending_transactions self
            = List.filter f (QuantumLedger.pending_transactions self)) as Hsame.
  { exists (fun _ => true). apply filter_all. }
  unfold add_block_from_peer, Py.last_item.
  destruct (last (QuantumLedger.chain self)) as [tip|]; ledger_fields;
    [|exact I].
  destruct (String.eqb _ _); [|exact Hsame].
  destruct (Py.startswith _ _); [|exact Hsame].
  destruct (save_block _ _) as [[saved ldb']|e|]; ledger_fields;
    [|exact I..].
  destruct saved; [|exact Hsame].
  unfold _update_utxo_set. ledger_fields.
  destruct (update_utxo_txs _ _ _) as [db'|e|]; ledger_fields; [|exact I..].
  cbn [mempool_after]. ledger_fields. unfold prune_mined. eexists. reflexivity.
Qed.

(** The mempool never comes to hold two transactions with the same txid:
    if the txids of the pending transactions are pairwise distinct, they
    still are after [add_transaction], after [mine_block] and after
    [add_block_from_peer], whatever these are given and whatever they
    return. *)
Theorem mempool_txids_stay_distinct (fuel : nat) (now_tx now_block : float)
    (self : QuantumLedger.t) (transaction : Transaction.t) (block : Block.t) :
  NoDup (List.map Transaction.txid (QuantumLedger.pending_transactions self)) ->
  forall pending',
    mempool_after (add_transaction self transaction) = Some pending' \/
    mempool_after (mine_block fuel now_tx now_block self) = Some pending' \/
    mempool_after (add_block_from_peer self block) = Some pending' ->
    NoDup (List.map Transaction.txid pending').
Proof.
  intros Hnd pending' [H|[H|H]].
  - unfold add_transaction in H.
    destruct (is_valid _ _ _) as [ok|e|]; cbn [mbind outcome_bind Py.bind] in H;
      try discriminate.
    destruct ok; cbn [negb] in H; [|injection H as <-; exact Hnd].
    destruct (existsb _ _) eqn:Edup; [injection H as <-; exact Hnd|].
    cbn in H. injection H as <-.
    rewrite List.map_app. cbn [List.map].
    apply NoDup_app. split; [exact Hnd|]. split; [|apply NoDup_singleton].
    intros x Hx Hx'. apply list_elem_of_singleton in Hx'. subst x.
    apply list_elem_of_In, in_map_iff in Hx. destruct Hx as (t & Ht & Hin).
    apply not_true_iff_false in Edup. apply Edup, existsb_exists.
    exists t. split; [exact Hin|]. apply String.eqb_eq. exact Ht.
  - pose proof (mine_block_mempool fuel now_tx now_block self) as Hm.
    rewrite H in Hm. destruct Hm as (f & ->).
    apply NoDup_txids_filter, Hnd.
  - pose proof (add_block_from_peer_mempool self block) as Hm.
    rewrite H in Hm. destruct Hm as (f & ->).
    apply NoDup_txids_filter, Hnd.
Qed.


(** The store a node started on empty stores would get from
    [rebuild_utxo_set], against the store it has. *)
Lemma rebuild_after_first_start (miner_address : string)
    (now_tx now_block : float) :
  exists self rebuilt u,
    QuantumLedger_init [] ∅ miner_address now_tx now_block = Returns self /\
    QuantumLedger.chain self = [genesis_of miner_address now_tx now_block] /\
    QuantumLedger.udb self = ∅ /\
    rebuild_utxo_set self = Returns rebuilt /\
    get_unspent_outputs (QuantumLedger.udb rebuilt) None = [u] /\
    UTXO.address u = miner_address /\
    UTXO.amount u = (MINER_REWARD * 1000)%float.
Proof.
  set (cb := _create_coinbase_tx miner_address
               (MINER_REWARD * Py.float_of_int 1000)%float now_tx).
  set (u := {| UTXO.txid := Transaction.txid cb; UTXO.output_index := 0;
               UTXO.address := miner_address;
               UTXO.amount := (MINER_REWARD * 1000)%float;
               UTXO.spent_txid := None; UTXO.spent_index := None |}).
  eexists _, _, u.
  split; [apply start_on_empty_store|]. split; [reflexivity|].
  split; [reflexivity|].
  unfold rebuild_utxo_set. ledger_fields.
  cbn [rebuild_blocks rebuild_txs Block.transactions genesis_of Block_init].
  unfold rebuild_tx.
  destruct (coinbase_has_input miner_address
              (MINER_REWARD * Py.float_of_int 1000)%float now_tx)
    as (first & Hins & Hzero).
  fold cb in Hins |- *. rewrite Hins, Hzero, String.eqb_refl.
  cbn [negb]. ledger_fields.
  assert (record_outputs cb ∅ = {[ (Transaction.txid cb, 0) := u ]}) as ->.
  { unfold record_outputs, new_utxos. cbn [imap foldl Transaction.outputs
      cb _create_coinbase_tx Transaction_init
      Transaction.set_inputs TxOutput.address TxOutput.amount UTXO.key
      UTXO.txid UTXO.output_index Z.of_nat].
    rewrite insert_empty. reflexivity. }
  rewrite map_to_list_singleton.
  cbn [fmap list_fmap snd List.filter UTXO.is_spent UTXO.spent_txid u negb].
  unfold clear_all, add_utxos. cbn [foldl]. unfold add_utxo.
  change (PrimFloat.is_nan (UTXO.amount u)) with false. cbn iota.
  rewrite lookup_empty, insert_empty.
  split; [reflexivity|]. ledger_fields.
  unfold get_unspent_outputs, unspent_rows.
  rewrite map_filter_singleton_True by reflexivity.
  rewrite map_to_list_singleton. repeat split.
Qed.

End Node.















(** ** The executable SHA3-512 against published digests *)

Example sha3_512_empty :
  Keccak.sha3_512_hex "" =
  "a69f73cca23a9ac5c8b567dc185a756e97c982164fe25859e0d1dcc1475c80a615b2123af1f5f94c11e3e9402c3ac558f500199d95b6d3e301758586281dcd26".
Proof. vm_compute. reflexivity. Qed.

Example sha3_512_abc :
  Keccak.sha3_512_hex "abc" =
  "b751850b1a57168a5693cd924b6b096e08f621827444f70d884f5d0240d2712e10e116e9192af3c91a7ec57647e3934057340b4cf408d5a56592f8274eec53f0".
Proof. vm_compute. reflexivity. Qed.

Example sha3_512_73a :
  Keccak.sha3_512_hex (Py.str_mul "a" 73) =
  "23e6a8815f8201dbbf6a5463be8dcadb1acea9df5f8998954e59ac9565cf6d29b17aa27a5e8b0fc06343db6122d6e544d27583ddc78504d08203217e7e65b6bd".
Proof. vm_compute. reflexivity. Qed.

(* ===================================================================== *)
(** * Worked runs of the node over SHA3-512 *)
(* ===================================================================== *)

Module Scenario.

Local Open Scope string_scope.
Local Open Scope list_scope.

Abbreviation SHA := Keccak.sha3_512_hex.
Abbreviation REPR := float_repr_integral.

(** The value a call returned; [d] stands in for a call that did not. *)
Definition value {A} (d : A) (m : outcome A) : A :=
match m with Returns a => a | _ => d end.

Definition no_node : QuantumLedger.t :=
{| QuantumLedger.ldb := []; QuantumLedger.udb := ∅;
   QuantumLedger.miner_address := ""; QuantumLedger.current_difficulty := 0;
   QuantumLedger.chain := []; QuantumLedger.pending_transactions := [] |}.

Definition no_tx : Transaction.t :=
{| Transaction.version := 0; Transaction.timestamp := 0;
   Transaction.inputs := []; Transaction.outputs := [];
   Transaction._txid := "" |}.

(** The outputs a transaction spends. *)
Definition outpoints (tx : Transaction.t) : list (string * Z) :=
List.map (fun i => (TxInput.txid i, TxInput.output_index i))
         (Transaction.inputs tx).

(** The amounts a transaction pays. *)
Definition amounts (tx : Transaction.t) : list float :=
List.map TxOutput.amount (Transaction.outputs tx).

(** Sum of the unspent amounts of a store. *)
Definition unspent_total (db : utxo_table) : float :=
Py.sum (List.map UTXO.amount (get_unspent_outputs db None)).

(** ** First start, on empty databases; the miner's address is "M" *)
Definition first_start : outcome QuantumLedger.t :=
QuantumLedger_init SHA REPR [] ∅ "M" 1700000000 1700000001.

Definition fresh_node : QuantumLedger.t := value no_node first_start.

(** The coinbase of the genesis block, as the first start built it. *)
Definition genesis_coinbase : Transaction.t :=
_create_coinbase_tx SHA REPR "M" (MINER_REWARD * 1000)%float 1700000000.

(** ** Second start, on the databases the first start left *)
Definition second_start : outcome QuantumLedger.t :=
QuantumLedger_init SHA REPR (QuantumLedger.ldb fresh_node)
                   (QuantumLedger.udb fresh_node) "M" 1700000100 1700000101.

Definition restarted_node : QuantumLedger.t := value no_node second_start.

(** The txid under which the rebuilt store holds the genesis output. *)
Definition genesis_key : string :=
"aa0dd4ae0475fa5466df8b34f1fd76d291cd714b3dcb8858b9e1b0163df7b4a6ac39c7e64f9dbffe753c7e77a7f9aa599243cfbf8053c9278acfd141375da5f0".

(** ** Two signed transfers of the one genesis output *)
Definition spend_genesis (to : string) (amount change : float) (now : float)
  : outcome (string * Transaction.t) :=
sign_input SHA
  (Transaction_init SHA REPR
     [ {| TxInput.txid := genesis_key; TxInput.output_index := 0;
          TxInput.signature := None; TxInput.pub_key := Some "M" |} ]
     [ {| TxOutput.amount := amount; TxOutput.address := to |};
       {| TxOutput.amount := change; TxOutput.address := "M" |} ]
     TRANSACTION_VERSION None now)
  0 "private key of M".

Definition T1 : Transaction.t :=
snd (value ("", no_tx) (spend_genesis "A" 6000 3999 1700000200)).

Definition T2 : Transaction.t :=
snd (value ("", no_tx) (spend_genesis "B" 7000 2998 1700000201)).

(** Both are admitted to the mempool, one after the other. *)
Definition admit_T1 : outcome (bool * QuantumLedger.t) :=
add_transaction restarted_node T1.

Definition admit_T2 : outcome (bool * QuantumLedger.t) :=
add_transaction (snd (value (false, no_node) admit_T1)) T2.

(** The node with both pending.  The search below is run at difficulty 1
    to keep it short; which transactions are mined does not depend on
    the difficulty. *)
Definition double_spend_node : QuantumLedger.t :=
QuantumLedger.set_current_difficulty 1
  (snd (value (false, no_node) admit_T2)).

Definition mined : outcome (option Block.t * QuantumLedger.t) :=
mine_block SHA REPR 8 1700000400 1700000401 double_spend_node.

(** ** [T1] with its signature replaced by another of the same length *)
Definition forged_signature : string := Py.str_mul "0" 6758.



(** ** Chains for the retargeting rule: blocks one second apart *)
Definition plain_block (i : Z) (ts : float) (txs : list Transaction.t)
  : Block.t :=
{| Block.index := i; Block.timestamp := ts; Block.transactions := txs;
   Block.previous_hash := ""; Block.proof := 0; Block.merkle_root := "";
   Block.hash := "" |}.

Definition node_with (chain : list Block.t) : QuantumLedger.t :=
{| QuantumLedger.ldb := []; QuantumLedger.udb := ∅;
   QuantumLedger.miner_address := "M";
   QuantumLedger.current_difficulty := INITIAL_DIFFICULTY;
   QuantumLedger.chain := chain; QuantumLedger.pending_transactions := [] |}.

Definition five_quick_blocks : list Block.t :=
[ plain_block 0 1000 []; plain_block 1 1001 []; plain_block 2 1002 [];
  plain_block 3 1003 []; plain_block 4 1004 [] ].

Definition six_quick_blocks : list Block.t :=
five_quick_blocks ++ [ plain_block 5 1005 [] ].

(** ** Chains for the replay: a coinbase, a spend of it, the coinbase again *)
Definition coinbase_A : Transaction.t :=
_create_coinbase_tx SHA REPR "M" MINER_REWARD 1700000500.

Definition coinbase_B : Transaction.t :=
_create_coinbase_tx SHA REPR "M" MINER_REWARD 1700000600.

Definition spend_A : Transaction.t :=
Transaction_init SHA REPR
  [ {| TxInput.txid := Transaction.txid coinbase_A; TxInput.output_index := 0;
       TxInput.signature := None; TxInput.pub_key := Some "M" |} ]
  [ {| TxOutput.amount := 10; TxOutput.address := "A" |} ]
  TRANSACTION_VERSION None 1700000550.

Definition repeated_coinbase_chain : list Block.t :=
[ plain_block 0 1700000501 [coinbase_A];
  plain_block 1 1700000551 [spend_A];
  plain_block 2 1700000502 [coinbase_A] ].

Definition distinct_txid_chain : list Block.t :=
[ plain_block 0 1700000501 [coinbase_A];
  plain_block 1 1700000601 [coinbase_B; spend_A] ].

(** A decidable form of [no_self_spend]. *)
Definition no_self_spendb (tx : Transaction.t) : bool :=
forallb (fun i =>
           forallb (fun u =>
                      negb (bool_decide
                              ((TxInput.txid i, TxInput.output_index i)
                               = UTXO.key u)))
                   (new_utxos tx))
        (Transaction.inputs tx).

(** A decidable form of [storable]. *)
Definition storableb (tx : Transaction.t) : bool :=
forallb (fun o => negb (PrimFloat.is_nan (TxOutput.amount o)))
        (Transaction.outputs tx)
&& forallb (fun x => fits_int64 (TxInput.output_index x))
           (Transaction.inputs tx).

(** A transaction received with the txid "s" that spends its own output 0,
    and one that names an output by the index 2^63. *)
Definition self_spend : Transaction.t :=
{| Transaction.version := 1; Transaction.timestamp := 1700000700;
   Transaction.inputs :=
     [ {| TxInput.txid := "s"; TxInput.output_index := 0;
          TxInput.signature := None; TxInput.pub_key := Some "A" |} ];
   Transaction.outputs :=
     [ {| TxOutput.amount := 5; TxOutput.address := "A" |} ];
   Transaction._txid := "s" |}.

Definition big_index_spend : Transaction.t :=
{| Transaction.version := 1; Transaction.timestamp := 1700000800;
   Transaction.inputs :=
     [ {| TxInput.txid := "t"; TxInput.output_index := 2 ^ 63;
          TxInput.signature := None; TxInput.pub_key := Some "A" |} ];
   Transaction.outputs :=
     [ {| TxOutput.amount := 5; TxOutput.address := "A" |} ];
   Transaction._txid := "b" |}.

Definition self_spend_chain : list Block.t :=
[ plain_block 0 1700000701 [self_spend] ].

Definition big_index_chain : list Block.t :=
[ plain_block 0 1700000801 [big_index_spend] ].

End Scenario.

(* ===================================================================== *)
(** * What the runs show *)
(* ===================================================================== *)

Import Scenario.
Local Open Scope string_scope.
Local Open Scope list_scope.
Local Open Scope Z_scope.

(** ** Observations, each obtained by running the model once *)

Definition first_start_facts (r : outcome QuantumLedger.t) : Prop :=
match r with
| Returns self =>
    length (QuantumLedger.chain self) = 1%nat /\
    List.map Block.hash (QuantumLedger.chain self)
    = ["44f7859ba630862af2e2a2ad77f63e1f5614df5f2fc4a580a849cbd53fd45e27d29774fe2bc513bd8e5a1bd96800b6eb1c7582440c87296817f7b4308d882187"] /\
    List.map Transaction.txid (all_txs (QuantumLedger.chain self))
    = [Transaction.txid genesis_coinbase] /\
    size (QuantumLedger.udb self) = 0%nat /\
    fst (get_balance (QuantumLedger.udb self) "M") = 0%float
| _ => False
end.

Lemma first_start_observed : first_start_facts first_start.
Proof. vm_compute. repeat split; reflexivity. Qed.

Definition second_start_facts (r : outcome QuantumLedger.t) : Prop :=
match r with
| Returns self =>
    List.map Transaction.txid (all_txs (QuantumLedger.chain self))
    = [genesis_key] /\
    QuantumLedger.pending_transactions self = [] /\
    List.map (fun u => (UTXO.key u, UTXO.address u, UTXO.amount u))
             (get_unspent_outputs (QuantumLedger.udb self) None)
    = [((genesis_key, 0), "M", 10000%float)] /\
    fst (get_balance (QuantumLedger.udb self) "M") = 10000%float
| _ => False
end.

Lemma second_start_observed : second_start_facts second_start.
Proof. vm_compute. repeat split; reflexivity. Qed.

Lemma genesis_coinbase_observed :
  Transaction.txid genesis_coinbase
  = "f041f9aeb53bcfd1ef0e0aba6725891234ab5751f62ce5944c42fdfa6aab66cdf6e0ff23f90fe5d4b4e64e4bef025b314c5b7a1e0fc9d2d7ab728fdb63057015" /\
  _calculate_txid SHA REPR genesis_coinbase = genesis_key.
Proof. vm_compute. split; reflexivity. Qed.

Definition signing_facts (r : outcome (string * Transaction.t))
    (id : string) : Prop :=
match r with
| Returns (signature, tx) =>
    Py.len_str signature = 6758 /\
    List.map TxInput.signature (Transaction.inputs tx) = [Some signature] /\
    String.eqb signature forged_signature = false /\
    outpoints tx = [(genesis_key, 0)] /\
    Transaction.txid tx = id
| _ => False
end.

Lemma transfers_observed :
  signing_facts (spend_genesis "A" 6000 3999 1700000200)
    "f96e65525d141e1fc0db6403714b57793db1e5fca989aaa294755a1b4f6191a2c1d8e6e5ba5b038bac12b5f426c2b212c26fcf2ffcea9d1d4c4951bb6d068b88" /\
  signing_facts (spend_genesis "B" 7000 2998 1700000201)
    "82764443a59cf57ad9f4d8d5d87369841398ec4ce921fba0a582fa6505fc6db6f71b78055abccf08c4725842b35c4f7c33dfd21325b98c5c61c7741e3f5971c4".
Proof. vm_compute. repeat split; reflexivity. Qed.




Definition mined_facts (r : outcome (option Block.t * QuantumLedger.t))
  : Prop :=
match r with
| Returns (Some block, self') =>
    Block.index block = 1 /\
    Block.proof block = 1 /\
    List.map Transaction.txid (tl (Block.transactions block))
    = [Transaction.txid T1; Transaction.txid T2] /\
    List.map outpoints (Block.transactions block)
    = [[(ZERO128, -1)]; [(genesis_key, 0)]; [(genesis_key, 0)]] /\
    List.map amounts (Block.transactions block)
    = [[13]; [6000; 3999]; [7000; 2998]]%float /\
    length (QuantumLedger.chain self') = 2%nat /\
    length (QuantumLedger.ldb self') = 2%nat /\
    QuantumLedger.pending_transactions self' = [] /\
    QuantumLedger.current_difficulty self' = 1 /\
    (fun u => (UTXO.spent_txid u, UTXO.spent_index u))
      <$> (QuantumLedger.udb self' !! (genesis_key, 0))
    = Some (Some (Transaction.txid T1), Some 0) /\
    unspent_total (QuantumLedger.udb self') = 20010%float
| _ => False
end.

Lemma mined_observed : mined_facts mined.
Proof. vm_compute. repeat split; reflexivity. Qed.

Lemma double_spend_node_observed :
  List.map Transaction.txid
           (QuantumLedger.pending_transactions double_spend_node)
  = [Transaction.txid T1; Transaction.txid T2] /\
  outpoints T1 = [(genesis_key, 0)] /\
  outpoints T2 = [(genesis_key, 0)] /\
  String.eqb (Transaction.txid T1) (Transaction.txid T2) = false /\
  length (QuantumLedger.chain double_spend_node) = 1%nat /\
  unspent_total (QuantumLedger.udb double_spend_node) = 10000%float /\
  ('(first, db) ←
     mark_spent (QuantumLedger.udb double_spend_node) genesis_key 0
                (Transaction.txid T1) 0;
   '(second, _) ← mark_spent db genesis_key 0 (Transaction.txid T2) 0;
   Returns (first, second))
  = Returns (true, false).
Proof. vm_compute. repeat split; reflexivity. Qed.

Definition replay_facts (r m : outcome QuantumLedger.t) : Prop :=
match r, m with
| Returns rebuilt, Returns maintained =>
    UTXO.amount
      <$> (unspent_rows (QuantumLedger.udb rebuilt)
             !! (Transaction.txid coinbase_A, 0))
    = Some 10%float /\
    unspent_rows (QuantumLedger.udb maintained)
      !! (Transaction.txid coinbase_A, 0) = None
| _, _ => False
end.

Lemma repeated_coinbase_observed :
  replay_facts
    (rebuild_utxo_set (node_with repeated_coinbase_chain))
    (apply_blocks (QuantumLedger.set_udb ∅ (node_with repeated_coinbase_chain))
                  repeated_coinbase_chain).
Proof. vm_compute. repeat split; reflexivity. Qed.

Lemma no_self_spendb_sound tx : no_self_spendb tx = true -> no_self_spend tx.
Proof.
  unfold no_self_spendb, no_self_spend. intros Hb i u Hi Hu.
  rewrite forallb_forall in Hb. specialize (Hb i Hi).
  rewrite forallb_forall in Hb. specialize (Hb u Hu).
  apply negb_true_iff, bool_decide_eq_false in Hb. exact Hb.
Qed.

Lemma storableb_sound tx : storableb tx = true -> storable tx.
Proof.
  unfold storableb, storable, inputs_bind. intros Hb.
  apply andb_true_iff in Hb. destruct Hb as [Ho Hi].
  rewrite forallb_forall in Ho, Hi. split; apply Forall_forall.
  - intros o Hin. apply list_elem_of_In in Hin.
    apply negb_true_iff. exact (Ho o Hin).
  - intros x Hin. apply list_elem_of_In in Hin. exact (Hi x Hin).
Qed.

Lemma distinct_txid_chain_hypotheses :
  NoDup (List.map Transaction.txid (all_txs distinct_txid_chain)) /\
  Forall no_self_spend (all_txs distinct_txid_chain) /\
  Forall storable (all_txs distinct_txid_chain).
Proof.
  split; [|split].
  - apply (bool_decide_unpack _). vm_compute. exact I.
  - repeat constructor; apply no_self_spendb_sound; vm_compute; reflexivity.
  - repeat constructor; apply storableb_sound; vm_compute; reflexivity.
Qed.

(** The replays of the two chains received from a peer. *)
Definition self_spend_facts (r m : outcome QuantumLedger.t) : Prop :=
match r, m with
| Returns rebuilt, Returns maintained =>
    get_unspent_outputs (QuantumLedger.udb rebuilt) None = [] /\
    List.map (fun u => (UTXO.key u, UTXO.address u, UTXO.amount u))
             (get_unspent_outputs (QuantumLedger.udb maintained) None)
    = [(("s", 0), "A", 5%float)]
| _, _ => False
end.

Lemma self_spend_observed :
  self_spend_facts
    (rebuild_utxo_set (node_with self_spend_chain))
    (apply_blocks (QuantumLedger.set_udb ∅ (node_with self_spend_chain))
                  self_spend_chain).
Proof. vm_compute. repeat split; reflexivity. Qed.

Definition big_index_facts (r m : outcome QuantumLedger.t) : Prop :=
match r, m with
| Returns rebuilt, Raises e =>
    List.map (fun u => (UTXO.key u, UTXO.address u, UTXO.amount u))
             (get_unspent_outputs (QuantumLedger.udb rebuilt) None)
    = [(("b", 0), "A", 5%float)] /\
    e = OverflowError
| _, _ => False
end.

Lemma big_index_observed :
  big_index_facts
    (rebuild_utxo_set (node_with big_index_chain))
    (apply_blocks (QuantumLedger.set_udb ∅ (node_with big_index_chain))
                  big_index_chain).
Proof. vm_compute. repeat split; reflexivity. Qed.

(** ** C1: two pending transactions spending one output *)

(** C1 on the code.  With [T1] and [T2] pending, both valid on their own
    and both spending output 0 of the genesis coinbase, [mine_block]
    returns a block holding the coinbase, [T1] and [T2]: neither is
    pruned.  The output is marked spent once, by [T1]; the second
    [mark_spent] answers false and the commit goes on all the same: the
    chain grows to two blocks, both blocks are stored, the outputs of both
    transfers are unspent rows, and the unspent total goes from 10000 to
    20010. *)
Theorem double_spend_both_mined :
  exists block self',
    mine_block SHA REPR 8 1700000400 1700000401 double_spend_node
    = Returns (Some block, self') /\
    (List.map Transaction.txid
              (QuantumLedger.pending_transactions double_spend_node)
     = [Transaction.txid T1; Transaction.txid T2] /\
     outpoints T1 = [(genesis_key, 0)] /\
     outpoints T2 = [(genesis_key, 0)] /\
     String.eqb (Transaction.txid T1) (Transaction.txid T2) = false /\
     length (QuantumLedger.chain double_spend_node) = 1%nat /\
     unspent_total (QuantumLedger.udb double_spend_node) = 10000%float /\
     ('(first, db) ←
        mark_spent (QuantumLedger.udb double_spend_node) genesis_key 0
                   (Transaction.txid T1) 0;
      '(second, _) ← mark_spent db genesis_key 0 (Transaction.txid T2) 0;
      Returns (first, second))
     = Returns (true, false)) /\
    (Block.index block = 1 /\
     Block.proof block = 1 /\
     List.map Transaction.txid (tl (Block.transactions block))
     = [Transaction.txid T1; Transaction.txid T2] /\
     List.map outpoints (Block.transactions block)
     = [[(ZERO128, -1)]; [(genesis_key, 0)]; [(genesis_key, 0)]] /\
     List.map amounts (Block.transactions block)
     = [[13]; [6000; 3999]; [7000; 2998]]%float /\
     length (QuantumLedger.chain self') = 2%nat /\
     length (QuantumLedger.ldb self') = 2%nat /\
     QuantumLedger.pending_transactions self' = [] /\
     QuantumLedger.current_difficulty self' = 1 /\
     (fun u => (UTXO.spent_txid u, UTXO.spent_index u))
       <$> (QuantumLedger.udb self' !! (genesis_key, 0))
     = Some (Some (Transaction.txid T1), Some 0) /\
     unspent_total (QuantumLedger.udb self') = 20010%float).
Proof.
  pose proof mined_observed as Hm. unfold mined in Hm.
  destruct (mine_block SHA REPR 8 1700000400 1700000401 double_spend_node)
    as [[[block|] self']| |]; [|exfalso; exact Hm..].
  exists block, self'. split; [reflexivity|].
  split; [exact double_spend_node_observed | exact Hm].
Qed.

(** ** C2: the store after the first start, and after the second *)

(** The rebuild run by the second start does insert the genesis output:
    the balance the claim expects appears only then, under the recomputed
    txid. *)
Lemma genesis_output_appears_on_restart :
  first_start_facts first_start /\ second_start_facts second_start.
Proof. split; [exact first_start_observed | exact second_start_observed]. Qed.

(** ** C3: the rebuilt store against the maintained one *)

(** C3 on the code.  The store [rebuild_utxo_set] computes from a chain
    and the store the node maintains block by block differ, in four ways.
    A node started on empty stores has committed its genesis block with
    [is_spend=False]: its store is empty, while the rebuild of its chain
    holds the genesis output.  With spending enabled from an empty store:
    in the chain [coinbase_A], [spend_A], [coinbase_A] the rebuild, which
    assigns the dict entry again, leaves output 0 of the coinbase unspent,
    while the update, whose insert ignores the existing row, leaves it
    spent; a transaction that spends its own output has it spent in the
    rebuild, which records the outputs first, and unspent in the update,
    which spends first; and an index outside 64 bits makes the update
    raise [OverflowError] where the rebuild, which binds no input index,
    returns. *)
Theorem rebuilt_store_differs_from_maintained :
  (forall (miner_address : string) (now_tx now_block : float),
      exists self rebuilt u,
        QuantumLedger_init SHA REPR [] ∅ miner_address now_tx now_block
        = Returns self /\
        QuantumLedger.udb self = ∅ /\
        rebuild_utxo_set self = Returns rebuilt /\
        get_unspent_outputs (QuantumLedger.udb rebuilt) None = [u] /\
        UTXO.address u = miner_address /\
        UTXO.amount u = (MINER_REWARD * 1000)%float) /\
  (exists rebuilt maintained,
      rebuild_utxo_set (node_with repeated_coinbase_chain) = Returns rebuilt /\
      apply_blocks (QuantumLedger.set_udb ∅ (node_with repeated_coinbase_chain))
                   repeated_coinbase_chain = Returns maintained /\
      UTXO.amount
        <$> (unspent_rows (QuantumLedger.udb rebuilt)
               !! (Transaction.txid coinbase_A, 0))
      = Some 10%float /\
      unspent_rows (QuantumLedger.udb maintained)
        !! (Transaction.txid coinbase_A, 0) = None) /\
  (exists rebuilt maintained,
      rebuild_utxo_set (node_with self_spend_chain) = Returns rebuilt /\
      apply_blocks (QuantumLedger.set_udb ∅ (node_with self_spend_chain))
                   self_spend_chain = Returns maintained /\
      get_unspent_outputs (QuantumLedger.udb rebuilt) None = [] /\
      List.map (fun u => (UTXO.key u, UTXO.address u, UTXO.amount u))
               (get_unspent_outputs (QuantumLedger.udb maintained) None)
      = [(("s", 0), "A", 5%float)]) /\
  (exists rebuilt,
      rebuild_utxo_set (node_with big_index_chain) = Returns rebuilt /\
      List.map (fun u => (UTXO.key u, UTXO.address u, UTXO.amount u))
               (get_unspent_outputs (QuantumLedger.udb rebuilt) None)
      = [(("b", 0), "A", 5%float)] /\
      apply_blocks (QuantumLedger.set_udb ∅ (node_with big_index_chain))
                   big_index_chain = Raises OverflowError).
Proof.
  split; [|split; [|split]].
  - intros miner_address now_tx now_block.
    destruct (rebuild_after_first_start SHA REPR miner_address now_tx
                now_block)
      as (self & rebuilt & u & Hinit & _ & Hudb & Hre & Hrows & Ha & Hm).
    exists self, rebuilt, u. repeat split; assumption.
  - pose proof repeated_coinbase_observed as Hobs.
    destruct (rebuild_utxo_set (node_with repeated_coinbase_chain))
      as [rebuilt| |]; [|exfalso; exact Hobs..].
    destruct (apply_blocks _ repeated_coinbase_chain) as [maintained| |];
      [|exfalso; exact Hobs..].
    exists rebuilt, maintained. split; [reflexivity|]. split; [reflexivity|].
    exact Hobs.
  - pose proof self_spend_observed as Hobs.
    destruct (rebuild_utxo_set (node_with self_spend_chain))
      as [rebuilt| |]; [|exfalso; exact Hobs..].
    destruct (apply_blocks _ self_spend_chain) as [maintained| |];
      [|exfalso; exact Hobs..].
    exists rebuilt, maintained. split; [reflexivity|]. split; [reflexivity|].
    exact Hobs.
  - pose proof big_index_observed as Hobs.
    destruct (rebuild_utxo_set (node_with big_index_chain))
      as [rebuilt| |]; [|exfalso; exact Hobs..].
    destruct (apply_blocks _ big_index_chain) as [maintained|e|];
      [exfalso; exact Hobs| |exfalso; exact Hobs].
    destruct Hobs as [Hrows ->]. exists rebuilt.
    split; [reflexivity|]. split; [exact Hrows | reflexivity].
Qed.

(** The agreement at work on a chain with three distinct transactions. *)
Lemma distinct_txid_chain_replays_agree :
  exists rebuilt maintained,
    rebuild_utxo_set (node_with distinct_txid_chain) = Returns rebuilt /\
    apply_blocks (QuantumLedger.set_udb ∅ (node_with distinct_txid_chain))
                 distinct_txid_chain = Returns maintained /\
    QuantumLedger.udb rebuilt = unspent_rows (QuantumLedger.udb maintained).
Proof.
  pose proof (rebuild_matches_incremental (node_with distinct_txid_chain)
                (proj1 distinct_txid_chain_hypotheses)
                (proj1 (proj2 distinct_txid_chain_hypotheses))
                (proj2 (proj2 distinct_txid_chain_hypotheses))) as Hthm.
  cbn [QuantumLedger.chain node_with] in Hthm.
  destruct (rebuild_utxo_set (node_with distinct_txid_chain))
    as [rebuilt|e|];
    destruct (apply_blocks _ distinct_txid_chain) as [maintained|e'|];
    try (exfalso; exact Hthm).
  - exists rebuilt, maintained. split; [reflexivity|]. split; [reflexivity|].
    exact (proj1 Hthm).
  - exfalso. destruct Hthm as (_ & _ & Hex).
    apply Exists_exists in Hex. destruct Hex as (tx & Hin & Hempty).
    cbn [all_txs distinct_txid_chain List.map concat app plain_block
         Block.transactions In] in Hin.
    repeat (apply elem_of_cons in Hin as [->|Hin]; [discriminate Hempty|]).
    exact (proj1 (elem_of_nil _) Hin).
Defined.

(** ** C4: five and six blocks one second apart *)

(** C4 as stated fails twice over.  With five blocks the tip is at height
    4, not a multiple of the interval, and the difficulty still goes from
    4 to 5; with six blocks the tip is at height 5, its timestamp is 5
    seconds after that of [chain[5 - 5]], less than 25, and the difficulty
    does not move. *)
Lemma retarget_follows_length_not_height :
  (Block.index <$> last five_quick_blocks = Some 4 /\
   4 mod DIFFICULTY_ADJUSTMENT_INTERVAL = 4 /\
   QuantumLedger.current_difficulty (node_with five_quick_blocks) = 4 /\
   _adjust_difficulty (node_with five_quick_blocks)
   = Returns (QuantumLedger.set_current_difficulty
                5 (node_with five_quick_blocks))) /\
  (Block.index <$> last six_quick_blocks = Some 5 /\
   5 mod DIFFICULTY_ADJUSTMENT_INTERVAL = 0 /\
   Block.timestamp <$> last six_quick_blocks = Some 1005%float /\
   Block.timestamp <$> six_quick_blocks !! Z.to_nat (5 - 5)
   = Some 1000%float /\
   (1005 - 1000 <? 25)%float = true /\
   _adjust_difficulty (node_with six_quick_blocks)
   = Returns (node_with six_quick_blocks)).
Proof. vm_compute. repeat split; reflexivity. Qed.

(** The amended C4 at work on the five blocks. *)
Lemma five_quick_blocks_retarget :
  exists d',
    _adjust_difficulty (node_with five_quick_blocks)
    = Returns (QuantumLedger.set_current_difficulty
                 d' (node_with five_quick_blocks)) /\
    d' = 5.
Proof.
  destruct (adjust_difficulty_on_chain_length (node_with five_quick_blocks))
    as (d' & Hret & Hfire & _).
  exists d'. split; [exact Hret|].
  destruct (Hfire (conj eq_refl eq_refl)) as (tip & prev & Htip & Hprev & Hd).
  vm_compute in Htip, Hprev.
  injection Htip as <-. injection Hprev as <-. cbv zeta in Hd.
  rewrite Hd. reflexivity.
Defined.

(** ** C5: the chain of a node that has just created its genesis block *)


(** ** C6: the proof carried by the mined block *)

(** C6 at work on the block mined above: proof 1 is the smallest one. *)
Lemma mined_block_has_smallest_proof :
  exists block self',
    mine_block SHA REPR 8 1700000400 1700000401 double_spend_node
    = Returns (Some block, self') /\
    Block.proof block = 1 /\
    QuantumLedger.current_difficulty self' = 1 /\
    let header :=
      (Py.str_of_int (Block.index block) ++ Block.previous_hash block
       ++ Block.merkle_root block)%string in
    1 <= Z.of_nat (leading_zeros (SHA (header ++ "1")%string)) /\
    ~ 1 <= Z.of_nat (leading_zeros (SHA (header ++ "0")%string)).
Proof.
  pose proof mined_observed as Hm. unfold mined in Hm.
  destruct (mine_block SHA REPR 8 1700000400 1700000401 double_spend_node)
    as [[[block|] self']| |] eqn:Hrun; [|exfalso; exact Hm..].
  exists block, self'. split; [reflexivity|].
  destruct Hm as (_ & Hproof & _ & _ & _ & _ & _ & _ & Hd & _).
  split; [exact Hproof|]. split; [exact Hd|].
  destruct (proj2 (proj2 (proj2 (proof_of_work_smallest_proof SHA REPR)))
              8%nat 1700000400%float 1700000401%float double_spend_node
              block self' Hrun) as (_ & Hvalid & Hmin).
  rewrite Hd, Hproof in *. cbn zeta. split; [exact Hvalid|].
  apply (Hmin 0). lia.
Defined.

(** ** C7: the identifier of the genesis coinbase *)

(** C7 on the code.  The coinbase returned by [_create_coinbase_tx] has
    the txid computed before its input received the sentinel public key:
    it is not the hash of the transaction's own canonical form, which is
    what the second start recomputes when it reads the chain back. *)
Theorem coinbase_txid_not_recomputable :
  Transaction.inputs genesis_coinbase
  = [ {| TxInput.txid := ZERO128; TxInput.output_index := -1;
         TxInput.signature := Some "COINBASE";
         TxInput.pub_key := Some ZERO128 |} ] /\
  Transaction.txid genesis_coinbase
  = "f041f9aeb53bcfd1ef0e0aba6725891234ab5751f62ce5944c42fdfa6aab66cdf6e0ff23f90fe5d4b4e64e4bef025b314c5b7a1e0fc9d2d7ab728fdb63057015" /\
  _calculate_txid SHA REPR genesis_coinbase
  = "aa0dd4ae0475fa5466df8b34f1fd76d291cd714b3dcb8858b9e1b0163df7b4a6ac39c7e64f9dbffe753c7e77a7f9aa599243cfbf8053c9278acfd141375da5f0" /\
  List.map Transaction.txid (all_txs (QuantumLedger.chain fresh_node))
  = [Transaction.txid genesis_coinbase] /\
  List.map Transaction.txid (all_txs (QuantumLedger.chain restarted_node))
  = [_calculate_txid SHA REPR genesis_coinbase].
Proof.
  pose proof first_start_observed as H1. pose proof second_start_observed as H2.
  destruct genesis_coinbase_observed as [Hid Hre].
  split; [reflexivity|]. split; [exact Hid|]. split; [exact Hre|].
  unfold fresh_node, restarted_node, value.
  destruct first_start as [s1| |]; [|exfalso; exact H1..].
  destruct second_start as [s2| |]; [|exfalso; exact H2..].
  split; [exact (proj1 (proj2 (proj2 H1)))|].
  rewrite Hre. exact (proj1 H2).
Qed.

(** Signing at work on the first transfer: the transaction signed by
    [sign_input] has the identifiers of the unsigned one. *)
Lemma signed_transfer_keeps_its_txid :
  exists unsigned signature tx,
    sign_input SHA unsigned 0 "private key of M" = Returns (signature, tx) /\
    List.map TxInput.signature (Transaction.inputs unsigned) = [None] /\
    List.map TxInput.signature (Transaction.inputs tx) = [Some signature] /\
    Transaction.txid tx = Transaction.txid unsigned /\
    _calculate_txid SHA REPR tx = _calculate_txid SHA REPR unsigned.
Proof.
  pose proof (proj1 transfers_observed) as Ht. unfold spend_genesis in Ht.
  match type of Ht with
  | signing_facts (sign_input _ ?u _ _) _ =>
      exists u; destruct (sign_input SHA u 0 "private key of M")
        as [[signature tx]| |] eqn:Hsign; [|exfalso; exact Ht..]
  end.
  exists signature, tx. split; [reflexivity|]. split; [reflexivity|].
  split; [exact (proj1 (proj2 Ht))|].
  exact (sign_input_txid SHA REPR _ _ _ _ _ Hsign).
Defined.

(** ** C8: a signature replaced after construction *)


(** ** C9: three transactions *)

(** C9 at work: three transactions and the same with the last repeated. *)
Lemma three_transactions_same_root :
  calculate_merkle_root SHA [T1; T2; genesis_coinbase]
  = calculate_merkle_root SHA ([T1; T2; genesis_coinbase] ++ [genesis_coinbase]).
Proof.
  apply (proj1 (proj2 (merkle_root_duplicate_last_rule SHA))).
  - reflexivity.
  - reflexivity.
  - cbn. lia.
Defined.

(** ** The mock scheme and validation at work *)

(** A signature made with one key, accepted under every key. *)
Lemma signature_accepted_under_any_key :
  exists signature,
    pqc_sign SHA "private key of M" "abc" = Returns signature /\
    Py.len_str signature = 6758 /\
    forall public_key other_hash,
      pqc_verify public_key other_hash (Some signature) = Returns true.
Proof.
  apply (pqc_sign_accepted_under_any_key SHA "private key of M" "abc").
  vm_compute. reflexivity.
Defined.

(** The key pair made from the seeds 1 and 2. *)
Lemma key_pair_of_seeds_1_2 :
  exists pub_key priv_key,
    generate_pqc_key_pair SHA 1 2 = Returns (pub_key, priv_key) /\
    Py.len_str pub_key = 5529 /\
    Py.len_str priv_key = 11059 /\
    String.substring 0 128 pub_key = SHA (Py.str_of_int 1) /\
    String.substring 0 100 priv_key
    = String.substring 0 100 (SHA (Py.str_of_int 2)).
Proof.
  apply (generate_pqc_key_pair_sizes SHA 1 2); vm_compute; reflexivity.
Defined.

(** One output of 10, named twice, pays for an output of 20. *)
Lemma output_of_10_spent_twice_in_one_transaction :
  is_valid
    {| Transaction.version := 1; Transaction.timestamp := 1700000700;
       Transaction.inputs :=
         repeat {| TxInput.txid := "t"; TxInput.output_index := 0;
                   TxInput.signature := Some forged_signature;
                   TxInput.pub_key := Some "A" |} 2;
       Transaction.outputs :=
         [ {| TxOutput.amount := 20; TxOutput.address := "B" |} ];
       Transaction._txid := "x" |}
    {[ ("t", 0) := {| UTXO.txid := "t"; UTXO.output_index := 0;
                      UTXO.address := "A"; UTXO.amount := 10;
                      UTXO.spent_txid := None; UTXO.spent_index := None |} ]}
    false
  = Returns true.
Proof.
  apply (is_valid_counts_a_repeated_input
           {| Transaction.version := 1; Transaction.timestamp := 1700000700;
              Transaction.inputs :=
                repeat {| TxInput.txid := "t"; TxInput.output_index := 0;
                          TxInput.signature := Some forged_signature;
                          TxInput.pub_key := Some "A" |} 2;
              Transaction.outputs :=
                [ {| TxOutput.amount := 20; TxOutput.address := "B" |} ];
              Transaction._txid := "x" |}
           {[ ("t", 0) := {| UTXO.txid := "t"; UTXO.output_index := 0;
                             UTXO.address := "A"; UTXO.amount := 10;
                             UTXO.spent_txid := None;
                             UTXO.spent_index := None |} ]}
           {| TxInput.txid := "t"; TxInput.output_index := 0;
              TxInput.signature := Some forged_signature;
              TxInput.pub_key := Some "A" |}
           {| UTXO.txid := "t"; UTXO.output_index := 0;
              UTXO.address := "A"; UTXO.amount := 10;
              UTXO.spent_txid := None; UTXO.spent_index := None |}
           2%nat).
  - reflexivity.
  - discriminate.
  - eexists _, forged_signature. repeat split.
  - reflexivity.
Defined.

(** The same two items, inserted in the two orders. *)
Lemma two_insertion_orders_hash_alike :
  hash_data SHA REPR (OfJson (JDict [("b", JInt 2); ("a", JInt 1)]))
  = hash_data SHA REPR (OfJson (JDict [("a", JInt 1); ("b", JInt 2)])).
Proof.
  apply (hash_data_key_order SHA REPR
           [("b", JInt 2); ("a", JInt 1)] [("a", JInt 1); ("b", JInt 2)]).
  - apply Permutation_swap.
  - apply (bool_decide_unpack _). vm_compute. exact I.
Defined.

(** A node whose store has one unspent output of 10 and whose mempool
    holds one transaction. *)
Definition spend_t0 (id : string) : Transaction.t :=
  {| Transaction.version := 1; Transaction.timestamp := 1700000700;
     Transaction.inputs :=
       [ {| TxInput.txid := "t"; TxInput.output_index := 0;
            TxInput.signature := Some forged_signature;
            TxInput.pub_key := Some "A" |} ];
     Transaction.outputs :=
       [ {| TxOutput.amount := 5; TxOutput.address := "B" |} ];
     Transaction._txid := id |}.

Definition one_output_node : QuantumLedger.t :=
  {| QuantumLedger.ldb := [];
     QuantumLedger.udb :=
       {[ ("t", 0) := {| UTXO.txid := "t"; UTXO.output_index := 0;
                         UTXO.address := "A"; UTXO.amount := 10;
                         UTXO.spent_txid := None;
                         UTXO.spent_index := None |} ]};
     QuantumLedger.miner_address := "M";
     QuantumLedger.current_difficulty := INITIAL_DIFFICULTY;
     QuantumLedger.chain := [];
     QuantumLedger.pending_transactions := [spend_t0 "y"] |}.

(** A second transaction is admitted to the mempool of that node. *)
Lemma mempool_of_two_after_admission :
  NoDup (List.map Transaction.txid [spend_t0 "y"; spend_t0 "x"]).
Proof.
  apply (mempool_txids_stay_distinct SHA REPR 0 0 0 one_output_node
           (spend_t0 "x") (plain_block 1 0 [])).
  - apply (bool_decide_unpack _). vm_compute. exact I.
  - left. vm_compute. reflexivity.
Defined.

